(** * Kanban board of the assignment editor (KanbanView.tsx)

    A shallow embedding of the weekly-board derivation, the status columns,
    the drag-end handlers, the week auto-selection and the course colours of
    the [KanbanView] component, with the properties its specification states.

    Conventions of the embedding.
    - A JavaScript [Date] is its time value, an integer number of
      milliseconds, as [Z].  The component builds and reads every [Date] in
      local time; the embedding counts milliseconds on the local clock of a
      zone with a fixed offset from UTC (no daylight-saving jumps), so that
      local midnight is a multiple of [MS_PER_DAY].
    - A JavaScript string is a [string]; [charCodeAt] is the character code,
      which covers code units 0..255.
    - A JavaScript number that holds an integer is a [Z]. *)

From Stdlib Require Import String Ascii.
From Stdlib Require Import ZArith List Bool Lia.
From Stdlib Require Import Permutation Sorted.
From Stdlib Require DecimalString DecimalZ DecimalPos.
From Equations Require Import Equations.
Import ListNotations.

Local Open Scope string_scope.
Local Open Scope list_scope.
Local Open Scope Z_scope.

(* ===================================================================== *)
(** * The [Date] arithmetic used from date-fns *)
(* ===================================================================== *)

Module DateFns.

Definition MS_PER_MINUTE : Z := 60000.
Definition MS_PER_HOUR : Z := 3600000.
Definition MS_PER_DAY : Z := 86400000.
Definition MS_PER_WEEK : Z := 7 * MS_PER_DAY.

(** Day number (days since 1970-01-01) of a civil date, and back; the
    [MakeDay] and [YearFromTime]/[MonthFromTime]/[DateFromTime] computations
    of a [Date], in the proleptic Gregorian calendar. *)
Definition days_from_civil (y m d : Z) : Z :=
  let y' := if m <=? 2 then y - 1 else y in
  let era := y' / 400 in
  let yoe := y' - era * 400 in
  let mp := (m + 9) mod 12 in
  let doy := (153 * mp + 2) / 5 + d - 1 in
  let doe := yoe * 365 + yoe / 4 - yoe / 100 + doy in
  era * 146097 + doe - 719468.

Definition civil_from_days (z : Z) : Z * Z * Z :=
  let z' := z + 719468 in
  let era := z' / 146097 in
  let doe := z' - era * 146097 in
  let yoe := (doe - doe / 1460 + doe / 36524 - doe / 146096) / 365 in
  let doy := doe - (365 * yoe + yoe / 4 - yoe / 100) in
  let mp := (5 * doy + 2) / 153 in
  let d := doy - (153 * mp + 2) / 5 + 1 in
  let m := if mp <? 10 then mp + 3 else mp - 9 in
  let y := yoe + era * 400 in
  (if m <=? 2 then y + 1 else y, m, d).

(** [new Date(y, m - 1, d, hh, mm, 0, 0)]: the time value of a local civil
    date and clock time. *)
Definition local_time (y m d hh mm : Z) : Z :=
  days_from_civil y m d * MS_PER_DAY + hh * MS_PER_HOUR + mm * MS_PER_MINUTE.

(** [date.getDay()]: 0 is Sunday; 1970-01-01 was a Thursday. *)
Definition getDay (t : Z) : Z := (t / MS_PER_DAY + 4) mod 7.

(** [date.setDate(date.getDate() + n)]: the same clock time [n] days later. *)
Definition addDays (t n : Z) : Z := t + n * MS_PER_DAY.

(** [date.setHours(0, 0, 0, 0)] and [date.setHours(23, 59, 59, 999)]. *)
Definition startOfDay (t : Z) : Z := t - t mod MS_PER_DAY.
Definition endOfDay (t : Z) : Z := startOfDay t + MS_PER_DAY - 1.

(** [startOfWeek(date, { weekStartsOn })]. *)
Definition startOfWeek (weekStartsOn : Z) (t : Z) : Z :=
  let day := getDay t in
  let diff := (if day <? weekStartsOn then 7 else 0) + day - weekStartsOn in
  startOfDay (addDays t (- diff)).

(** [endOfWeek(date, { weekStartsOn })]. *)
Definition endOfWeek (weekStartsOn : Z) (t : Z) : Z :=
  let day := getDay t in
  let diff := (if day <? weekStartsOn then -7 else 0) + 6 - (day - weekStartsOn) in
  endOfDay (addDays t diff).

(** [isWithinInterval(date, { start, end })], both ends included.  (The
    component only calls it with [start <= end].) *)
Definition isWithinInterval (t start end_ : Z) : bool :=
  (start <=? t) && (t <=? end_).

(** ** [format(date, 'MM/dd')] *)

Definition digit_char (d : Z) : ascii := ascii_of_nat (48 + Z.to_nat d).

Definition two_digits (n : Z) : string :=
  String (digit_char ((n / 10) mod 10)) (String (digit_char (n mod 10)) EmptyString).

Definition format_MM_dd (t : Z) : string :=
  let '(_, m, d) := civil_from_days (t / MS_PER_DAY) in
  (two_digits m ++ "/" ++ two_digits d)%string.

(** Decimal text of an integer, as a template literal prints it. *)
Definition decimal (n : Z) : string :=
  DecimalString.NilZero.string_of_int (Z.to_int n).

(** ** [parse(s, 'yyyy-MM-dd h:mm a', new Date())]

    The parser walks the pattern token by token.  A numeric token of width
    [n] reads between one and [n] digits; [h] reads [1[0-2]|0?\d]; a literal
    character must be matched exactly; [a] reads a day period of the locale
    en-US.  What is left after the last token may only be white space.  Then
    the fields are validated and set, the year first and the minute last
    (year above 0, month 1..12, day within the month, hour 1..12, minute
    0..59); any failure yields an invalid date, here [None].  A successful
    parse sets seconds and milliseconds to 0, so the reference date passed as
    third argument does not influence the result.

    The token [a] tries the pattern of the locale for any width,
    [[ap]\.?\s?m\.?|midnight|noon|(in the|at) (morning|afternoon|evening|night)],
    and when that does not match the narrow one,
    [a|p|mi|n|(in the|at) (morning|afternoon|evening|night)], both without
    regard to case.  The text matched is then looked up in the table of the
    locale, whose first entries test for a leading [a] and a leading [p]:
    "at night" is read as [am], and a lone "n" is in no entry.  The day
    period sets the hour to 0, 4, 12 or 17; the token [h] then adds twelve
    hours when that hour is 12 or later. *)

Definition is_digit (c : ascii) : bool :=
  let n := nat_of_ascii c in (48 <=? n)%nat && (n <=? 57)%nat.

Definition digit_value (c : ascii) : Z := Z.of_nat (nat_of_ascii c) - 48.

(** White space in the sense of the regular expression class [\s],
    restricted to the one-byte characters. *)
Definition is_space (c : ascii) : bool :=
  let n := nat_of_ascii c in
  ((9 <=? n)%nat && (n <=? 13)%nat) || (n =? 32)%nat || (n =? 160)%nat.

Definition lower (c : ascii) : ascii :=
  let n := nat_of_ascii c in
  if (65 <=? n)%nat && (n <=? 90)%nat then ascii_of_nat (n + 32) else c.

(** Reads further digits, at most [n] of them, onto the value [acc]. *)
Fixpoint more_digits (n : nat) (acc : Z) (s : string) : Z * string :=
  match n, s with
  | S n', String c s' =>
      if is_digit c then more_digits n' (10 * acc + digit_value c) s'
      else (acc, s)
  | _, _ => (acc, s)
  end.

(** [parseNDigits(n, s)]: the pattern [^\d{1,n}]. *)
Definition parseNDigits (n : nat) (s : string) : option (Z * string) :=
  match s with
  | String c s' =>
      if is_digit c then Some (more_digits (Nat.pred n) (digit_value c) s')
      else None
  | EmptyString => None
  end.

(** The pattern [^(1[0-2]|0?\d)] of the token [h]. *)
Definition parseHour12 (s : string) : option (Z * string) :=
  match s with
  | String "1" (String c s') =>
      if is_digit c && (digit_value c <=? 2) then Some (10 + digit_value c, s')
      else Some (1, String c s')
  | String "0" (String c s') =>
      if is_digit c then Some (digit_value c, s') else Some (0, String c s')
  | String c s' => if is_digit c then Some (digit_value c, s') else None
  | EmptyString => None
  end.

(** A literal character of the pattern. *)
Definition literal (c : ascii) (s : string) : option string :=
  match s with
  | String c' s' => if Ascii.eqb c c' then Some s' else None
  | EmptyString => None
  end.

Definition optional (p : ascii -> bool) (s : string) : string :=
  match s with
  | String c s' => if p c then s' else s
  | EmptyString => s
  end.

(** [word], written in lower case, at the start of [s], letters compared
    without regard to case: what follows it. *)
Fixpoint starts_with (word s : string) : option string :=
  match word with
  | EmptyString => Some s
  | String w word' =>
      match s with
      | String c s' => if Ascii.eqb (lower c) w then starts_with word' s' else None
      | EmptyString => None
      end
  end.

(** An alternation of words: the first of them that [s] starts with. *)
Fixpoint first_match (words : list string) (s : string) : option string :=
  match words with
  | [] => None
  | word :: words' =>
      match starts_with word s with
      | Some rest => Some rest
      | None => first_match words' s
      end
  end.

(** [[ap]\.?\s?m\.?] at the start of [s]. *)
Definition clock_marker (s : string) : option string :=
  match s with
  | String c s1 =>
      if Ascii.eqb (lower c) "a" || Ascii.eqb (lower c) "p" then
        match optional is_space (optional (Ascii.eqb ".") s1) with
        | String m s2 =>
            if Ascii.eqb (lower m) "m" then Some (optional (Ascii.eqb ".") s2)
            else None
        | EmptyString => None
        end
      else None
  | EmptyString => None
  end.

(** [(in the|at) (morning|afternoon|evening|night)] *)
Definition worded_periods : list string :=
  [ "in the morning"; "in the afternoon"; "in the evening"; "in the night";
    "at morning"; "at afternoon"; "at evening"; "at night" ].

(** [matchDayPeriodPatterns.any] and [matchDayPeriodPatterns.narrow]. *)
Definition matchDayPeriod_any (s : string) : option string :=
  match clock_marker s with
  | Some rest => Some rest
  | None => first_match ("midnight" :: "noon" :: worded_periods) s
  end.

Definition matchDayPeriod_narrow (s : string) : option string :=
  first_match ("a" :: "p" :: "mi" :: "n" :: worded_periods) s.

(** The keys of [parseDayPeriodPatterns.any], in the order of the table. *)
Inductive DayPeriod : Type :=
| am | pm | midnight | noon | morning | afternoon | evening | night.

Definition test_start (word matched : string) : bool :=
  match starts_with word matched with Some _ => true | None => false end.

(** [word] somewhere in [s]. *)
Fixpoint test_anywhere (word s : string) : bool :=
  match starts_with word s with
  | Some _ => true
  | None =>
      match s with
      | String _ s' => test_anywhere word s'
      | EmptyString => false
      end
  end.

(** [findKey]: the first key whose pattern the matched text passes, if
    any. *)
Definition findDayPeriodKey (matched : string) : option DayPeriod :=
  if test_start "a" matched then Some am
  else if test_start "p" matched then Some pm
  else if test_start "mi" matched then Some midnight
  else if test_start "no" matched then Some noon
  else if test_anywhere "morning" matched then Some morning
  else if test_anywhere "afternoon" matched then Some afternoon
  else if test_anywhere "evening" matched then Some evening
  else if test_anywhere "night" matched then Some night
  else None.

(** [match.dayPeriod] for one pattern: the key of the text matched and the
    rest of the string. *)
Definition matchDayPeriod (pattern : string -> option string) (s : string)
  : option (option DayPeriod * string) :=
  match pattern s with
  | Some rest =>
      let matched := substring 0 (String.length s - String.length rest) s in
      Some (findDayPeriodKey matched, rest)
  | None => None
  end.

(** The token [a]. *)
Definition parseDayPeriod (s : string) : option (option DayPeriod * string) :=
  match matchDayPeriod matchDayPeriod_any s with
  | Some result => Some result
  | None => matchDayPeriod matchDayPeriod_narrow s
  end.

(** The hour the day period sets; a text without key counts as the
    default. *)
Definition dayPeriodEnumToHours (dayPeriod : option DayPeriod) : Z :=
  match dayPeriod with
  | Some morning => 4
  | Some evening => 17
  | Some pm | Some noon | Some afternoon => 12
  | Some am | Some midnight | Some night | None => 0
  end.

Fixpoint all_space (s : string) : bool :=
  match s with
  | EmptyString => true
  | String c s' => is_space c && all_space s'
  end.

Definition isLeapYear (y : Z) : bool :=
  (y mod 400 =? 0) || ((y mod 4 =? 0) && negb (y mod 100 =? 0)).

Definition daysInMonth (y m : Z) : Z :=
  if m =? 2 then (if isLeapYear y then 29 else 28)
  else if (m =? 4) || (m =? 6) || (m =? 9) || (m =? 11) then 30
  else 31.

(** The hour of the day from the [h] and [a] fields: the day period sets
    the hour first, then [h] is applied on top of it and reads that hour to
    tell the half of the day. *)
Definition hour_of_day (h : Z) (dayPeriod : option DayPeriod) : Z :=
  let isPM := 12 <=? dayPeriodEnumToHours dayPeriod in
  if isPM && (h <? 12) then h + 12
  else if negb isPM && (h =? 12) then 0
  else h.

Definition bind {A B} (o : option A) (k : A -> option B) : option B :=
  match o with Some a => k a | None => None end.

Definition guard (b : bool) : option unit := if b then Some tt else None.

Definition parse (s : string) : option Z :=
  bind (parseNDigits 4 s) (fun '(y, s) =>
  bind (literal "-" s) (fun s =>
  bind (parseNDigits 2 s) (fun '(m, s) =>
  bind (literal "-" s) (fun s =>
  bind (parseNDigits 2 s) (fun '(d, s) =>
  bind (literal " " s) (fun s =>
  bind (parseHour12 s) (fun '(h, s) =>
  bind (literal ":" s) (fun s =>
  bind (parseNDigits 2 s) (fun '(mi, s) =>
  bind (literal " " s) (fun s =>
  bind (parseDayPeriod s) (fun '(dayPeriod, s) =>
  bind (guard (all_space s)) (fun _ =>
  bind (guard (0 <? y)) (fun _ =>
  bind (guard ((1 <=? m) && (m <=? 12))) (fun _ =>
  bind (guard ((1 <=? d) && (d <=? daysInMonth y m))) (fun _ =>
  bind (guard ((1 <=? h) && (h <=? 12))) (fun _ =>
  bind (guard ((0 <=? mi) && (mi <=? 59))) (fun _ =>
  Some (local_time y m d (hour_of_day h dayPeriod) mi)))))))))))))))))).

End DateFns.

Import DateFns.

(* ===================================================================== *)
(** * Data model (shared/types.ts and the interfaces of KanbanView.tsx) *)
(* ===================================================================== *)

(** The status arrives in the JSON of the persistence service; at run time
    it is whatever string the service sent.  The type [AssignmentStatus]
    names the three values the component knows. *)
Definition NOT_STARTED : string := "NOT_STARTED".
Definition IN_PROGRESS : string := "IN_PROGRESS".
Definition DONE : string := "DONE".

Module Assignment.
Record t : Type := mk {
  id : Z;
  name : string;
  due_date : string;
  due_time : string;
  submission_link : string;
  status : string
}.
End Assignment.

Module AssignmentData.
Record t : Type := mk {
  id : Z;
  class_name : string;
  course_code : string;
  assignments : list Assignment.t
}.
End AssignmentData.

(** The prop [data: AssignmentData | AssignmentData[]]. *)
Inductive KanbanData : Type :=
| Single (syllabus : AssignmentData.t)
| Many (syllabi : list AssignmentData.t).

(** An assignment spread together with the fields of its syllabus:
    [{ ...assignment, courseCode, class_name, syllabus_id }]. *)
Module CourseAssignment.
Record t : Type := mk {
  assignment : Assignment.t;
  courseCode : string;
  class_name : string;
  syllabus_id : Z
}.
End CourseAssignment.

(** [interface AssignmentWithId]: the former with [dueDateTime]. *)
Module AssignmentWithId.
Record t : Type := mk {
  fields : CourseAssignment.t;
  dueDateTime : Z
}.
Definition id (a : t) : Z := Assignment.id (CourseAssignment.assignment (fields a)).
Definition status (a : t) : string :=
  Assignment.status (CourseAssignment.assignment (fields a)).
Definition courseCode (a : t) : string := CourseAssignment.courseCode (fields a).
End AssignmentWithId.

Module WeeklyBoard.
Record t : Type := mk {
  weekNumber : Z;
  startDate : Z;
  endDate : Z;
  title : string;
  assignments : list AssignmentWithId.t
}.
End WeeklyBoard.

Module Column.
Record t : Type := mk {
  id : string;
  title : string;
  assignments : list AssignmentWithId.t
}.
End Column.

(* ===================================================================== *)
(** * The weekly boards ([weeklyBoards] of [KanbanView]) *)
(* ===================================================================== *)

Definition withCourse (syllabus : AssignmentData.t) (assignment : Assignment.t)
  : CourseAssignment.t :=
  CourseAssignment.mk assignment
    (AssignmentData.course_code syllabus)
    (AssignmentData.class_name syllabus)
    (AssignmentData.id syllabus).

Definition allAssignments (currentData : KanbanData) : list CourseAssignment.t :=
  match currentData with
  | Many syllabi =>
      flat_map (fun syllabus =>
                  map (withCourse syllabus) (AssignmentData.assignments syllabus))
               syllabi
  | Single syllabus =>
      map (withCourse syllabus) (AssignmentData.assignments syllabus)
  end.

Definition dateTimeString (a : CourseAssignment.t) : string :=
  let assignment := CourseAssignment.assignment a in
  (Assignment.due_date assignment ++ " " ++ Assignment.due_time assignment)%string.

(** The body of the [map] callback: parse, and on an invalid date fall back
    to [new Date()], whose reading is [now]. *)
Definition toAssignmentWithId (now : Z) (a : CourseAssignment.t) : AssignmentWithId.t :=
  let dueDateTime :=
    match parse (dateTimeString a) with
    | Some t => t
    | None => now
    end in
  AssignmentWithId.mk a dueDateTime.

(** [allAssignments.map(...)]: the callback runs once per element, in order;
    [clock i] is what the wall clock reads while element [i] is processed. *)
Fixpoint mapWithClock (clock : nat -> Z) (i : nat) (l : list CourseAssignment.t)
  : list AssignmentWithId.t :=
  match l with
  | [] => []
  | a :: l' => toAssignmentWithId (clock i) a :: mapWithClock clock (S i) l'
  end.

Definition assignmentsWithId (clock : nat -> Z) (currentData : KanbanData)
  : list AssignmentWithId.t :=
  mapWithClock clock 0 (allAssignments currentData).

(** [Array.prototype.sort] with the comparator
    [a.dueDateTime.getTime() - b.dueDateTime.getTime()]: a stable sort,
    ascending by time value.  Modelled by stable insertion. *)
Fixpoint insertByDue (a : AssignmentWithId.t) (l : list AssignmentWithId.t)
  : list AssignmentWithId.t :=
  match l with
  | [] => [a]
  | b :: l' =>
      if AssignmentWithId.dueDateTime a <=? AssignmentWithId.dueDateTime b
      then a :: l
      else b :: insertByDue a l'
  end.

Fixpoint sortByDue (l : list AssignmentWithId.t) : list AssignmentWithId.t :=
  match l with
  | [] => []
  | a :: l' => insertByDue a (sortByDue l')
  end.

Definition boardTitle (weekNumber currentWeekStart weekEnd : Z) : string :=
  ("Week " ++ decimal weekNumber ++ " [" ++ format_MM_dd currentWeekStart
     ++ " - " ++ format_MM_dd weekEnd ++ "]")%string.

Definition inWeek (currentWeekStart weekEnd : Z) (assignment : AssignmentWithId.t) : bool :=
  isWithinInterval (AssignmentWithId.dueDateTime assignment) currentWeekStart weekEnd.

(** The [while (currentWeekStart <= latestDate)] loop; its state is
    [boards], [weekNumber] and [currentWeekStart]. *)
Equations? weekLoop (sorted : list AssignmentWithId.t) (latestDate : Z)
  (boards : list WeeklyBoard.t) (weekNumber : Z) (currentWeekStart : Z)
  : list WeeklyBoard.t
  by wf (Z.to_nat ((latestDate - currentWeekStart) / MS_PER_WEEK + 1)) lt :=
  weekLoop sorted latestDate boards weekNumber currentWeekStart
    with Z_le_gt_dec currentWeekStart latestDate := {
    | right _ => boards
    | left _ =>
        let weekEnd := endOfWeek 1 currentWeekStart in
        let weekAssignments := filter (inWeek currentWeekStart weekEnd) sorted in
        let pushed :=
          if (0 <? Z.of_nat (length weekAssignments))
          then (boards ++ [WeeklyBoard.mk weekNumber currentWeekStart weekEnd
                             (boardTitle weekNumber currentWeekStart weekEnd)
                             weekAssignments],
                weekNumber + 1)
          else (boards, weekNumber) in
        weekLoop sorted latestDate (fst pushed) (snd pushed) (addDays currentWeekStart 7)
    }.
Proof.
  unfold addDays. change MS_PER_WEEK with 604800000.
  change MS_PER_DAY with 86400000.
  Z.div_mod_to_equations. lia.
Qed.

Definition weeklyBoards (clock : nat -> Z) (currentData : KanbanData)
  : list WeeklyBoard.t :=
  let sorted := sortByDue (assignmentsWithId clock currentData) in
  match sorted with
  | [] => []
  | first :: _ =>
      let earliestDate := AssignmentWithId.dueDateTime first in
      let latestDate := AssignmentWithId.dueDateTime (last sorted first) in
      weekLoop sorted latestDate [] 1 (startOfWeek 1 earliestDate)
  end.

(* ===================================================================== *)
(** * Status columns (the status [useEffect] of both board components) *)
(* ===================================================================== *)

(** State of the [forEach]: the three arrays being filled. *)
Record Buckets : Type := mkBuckets {
  notStarted : list AssignmentWithId.t;
  inProgress : list AssignmentWithId.t;
  done : list AssignmentWithId.t
}.

(** One turn of [forEach]: the [switch] on [assignment.status].  There is
    no [default] branch. *)
Definition pushByStatus (b : Buckets) (assignment : AssignmentWithId.t) : Buckets :=
  let status := AssignmentWithId.status assignment in
  if String.eqb status NOT_STARTED
  then mkBuckets (notStarted b ++ [assignment]) (inProgress b) (done b)
  else if String.eqb status IN_PROGRESS
  then mkBuckets (notStarted b) (inProgress b ++ [assignment]) (done b)
  else if String.eqb status DONE
  then mkBuckets (notStarted b) (inProgress b) (done b ++ [assignment])
  else b.

Definition distribute (assignments : list AssignmentWithId.t) : Buckets :=
  fold_left pushByStatus assignments (mkBuckets [] [] []).

(** The argument of [setColumns]. *)
Definition statusColumns (assignments : list AssignmentWithId.t) : list Column.t :=
  let b := distribute assignments in
  [ Column.mk "not-started" "Not Started" (notStarted b);
    Column.mk "in-progress" "In Progress" (inProgress b);
    Column.mk "done" "Done" (done b) ].

(** [WeeklyBoard] keys the effect on [board.assignments] of its week,
    [AllAssignmentsBoard] on the assignments of the whole view. *)
Definition WeeklyBoard_columns (board : WeeklyBoard.t) : list Column.t :=
  statusColumns (WeeklyBoard.assignments board).

Definition AllAssignmentsBoard_columns (clock : nat -> Z) (currentData : KanbanData)
  : list Column.t :=
  statusColumns (assignmentsWithId clock currentData).

(* ===================================================================== *)
(** * Course colours ([generateCourseColor]) *)
(* ===================================================================== *)

Definition colors : list string :=
  [ "#FF6B6B"; "#4ECDC4"; "#45B7D1"; "#96CEB4"; "#FFEAA7";
    "#DDA0DD"; "#98D8C8"; "#F7DC6F"; "#BB8FCE"; "#85C1E9";
    "#F8C471"; "#82E0AA"; "#F1948A"; "#85C1E9"; "#D7BDE2" ].

(** [ToInt32]: the value modulo 2^32, read as a signed 32-bit integer. *)
Definition ToInt32 (x : Z) : Z := (x + 2147483648) mod 4294967296 - 2147483648.

(** [x << n]: both operands go through [ToInt32]/[ToUint32], the count is
    taken modulo 32 and the result is again a signed 32-bit integer. *)
Definition shl (x n : Z) : Z := ToInt32 (Z.shiftl (ToInt32 x) (n mod 32)).

Definition charCode (c : ascii) : Z := Z.of_nat (nat_of_ascii c).

(** The [for] loop over the indices of [courseCode]; [hash] itself is a
    number, only the shift wraps.  (The sums stay far below 2^53 for any
    string of fewer than four million characters, so they are exact.) *)
Fixpoint hashLoop (courseCode : string) (hash : Z) : Z :=
  match courseCode with
  | EmptyString => hash
  | String c rest => hashLoop rest (charCode c + (shl hash 5 - hash))
  end.

Definition colorIndex (courseCode : string) : Z :=
  Z.abs (hashLoop courseCode 0) mod Z.of_nat (length colors).

(** [colors[k]]; an index outside the array reads [undefined], here [None]. *)
Definition generateCourseColor (courseCode : string) : option string :=
  nth_error colors (Z.to_nat (colorIndex courseCode)).

(* ===================================================================== *)
(** * Week selection ([KanbanView]) *)
(* ===================================================================== *)

Inductive BoardType : Type := weekly | all_assignments.

(** The [useState] cells of [KanbanView]. *)
Record KanbanState : Type := mkKanbanState {
  selectedWeek : option Z;
  selectedBoardType : BoardType;
  freshData : option KanbanData;
  isRefreshing : bool
}.

Definition initialKanbanState : KanbanState :=
  mkKanbanState None weekly None false.

Definition setSelectedWeek (n : Z) (st : KanbanState) : KanbanState :=
  mkKanbanState (Some n) (selectedBoardType st) (freshData st) (isRefreshing st).
Definition setFreshData (d : KanbanData) (st : KanbanState) : KanbanState :=
  mkKanbanState (selectedWeek st) (selectedBoardType st) (Some d) (isRefreshing st).
Definition setIsRefreshing (b : bool) (st : KanbanState) : KanbanState :=
  mkKanbanState (selectedWeek st) (selectedBoardType st) (freshData st) b.

Definition isWeekly (t : BoardType) : bool :=
  match t with weekly => true | all_assignments => false end.

Definition isNull {A} (o : option A) : bool :=
  match o with None => true | Some _ => false end.

(** [isCurrentWeek], with [today] the reading of [new Date()]. *)
Definition isCurrentWeek (today : Z) (board : WeeklyBoard.t) : bool :=
  isWithinInterval today (WeeklyBoard.startDate board) (WeeklyBoard.endDate board).

(** The auto-selection [useEffect]. *)
Definition autoSelect (today : Z) (weeklyBoards : list WeeklyBoard.t)
  (st : KanbanState) : KanbanState :=
  if (0 <? Z.of_nat (length weeklyBoards))
     && isNull (selectedWeek st) && isWeekly (selectedBoardType st)
  then
    match find (isCurrentWeek today) weeklyBoards with
    | Some currentWeek => setSelectedWeek (WeeklyBoard.weekNumber currentWeek) st
    | None =>
        match weeklyBoards with
        | first :: _ => setSelectedWeek (WeeklyBoard.weekNumber first) st
        | [] => st
        end
    end
  else st.

(** [weeklyBoards.find(board => board.weekNumber === selectedWeek)]. *)
Definition selectedBoard (weeklyBoards : list WeeklyBoard.t) (st : KanbanState)
  : option WeeklyBoard.t :=
  match selectedWeek st with
  | Some n => find (fun board => WeeklyBoard.weekNumber board =? n) weeklyBoards
  | None => None
  end.

(* ===================================================================== *)
(** * Drag and drop (the [handleDragEnd] handlers) *)
(* ===================================================================== *)

(** [UniqueIdentifier] of the drag-and-drop library: a string (the columns
    register as drop targets under their string id) or a number (every card
    is sortable under [assignment.id], which also makes it a drop target). *)
Inductive UniqueIdentifier : Type :=
| StrId (s : string)
| NumId (n : Z).

(** [DragEndEvent]: only cards can be dragged, so [active.id] is the number
    of a card; [over] is [null] when the gesture ends on no drop target. *)
Record DragEndEvent : Type := mkDragEnd {
  active : Z;
  over : option UniqueIdentifier
}.

(** What a handler does to the outside, in the order it does it. *)
Inductive Effect : Type :=
| ConsoleLog (msg : string)
| ConsoleError (msg : string)
| UpdateAssignmentStatus (assignmentId : Z) (status : string)
| GetAllSyllabi
| OnDataRefresh (d : KanbanData)
| WindowConfirm (msg : string).

(** What the persistence service answers to a request: the api function
    throws (the fetch rejects or the HTTP status is not ok), or it returns
    the JSON body, of which the component reads [success] and [data]. *)
Inductive Response : Type :=
| Rejected
| Json (success : bool) (data : option (list AssignmentData.t)).

(** The state the handlers run in: the [useState] cells of [KanbanView],
    the [columns] cell of the mounted board, the effects so far (oldest
    first), and the answers the service will give to the next requests. *)
Record World : Type := mkWorld {
  kanban : KanbanState;
  columns : list Column.t;
  trace : list Effect;
  server : list Response
}.

Inductive Result (A : Type) : Type :=
| Returned (a : A)
| Thrown.
Arguments Returned {A} a.
Arguments Thrown {A}.

Definition M (A : Type) : Type := World -> Result A * World.

Definition ret {A} (a : A) : M A := fun w => (Returned a, w).

Definition mbind {A B} (m : M A) (k : A -> M B) : M B :=
  fun w => match m w with
           | (Returned a, w') => k a w'
           | (Thrown, w') => (Thrown, w')
           end.

Declare Scope kanban_scope.
Delimit Scope kanban_scope with kanban.
Notation "x <- m ;; k" := (mbind m (fun x => k))
  (at level 61, m at next level, right associativity) : kanban_scope.
Notation "m ;; k" := (mbind m (fun _ => k))
  (at level 61, right associativity) : kanban_scope.
Local Open Scope kanban_scope.

(** [try { body } catch (error) { handler }]. *)
Definition tryCatch {A} (body : M A) (handler : M A) : M A :=
  fun w => match body w with
           | (Returned a, w') => (Returned a, w')
           | (Thrown, w') => handler w'
           end.

(** [try { body } finally { cleanup }]. *)
Definition tryFinally {A} (body : M A) (cleanup : M unit) : M A :=
  fun w => match body w with
           | (r, w') =>
               match cleanup w' with
               | (Returned _, w'') => (r, w'')
               | (Thrown, w'') => (Thrown, w'')
               end
           end.

Definition emit (e : Effect) : M unit :=
  fun w => (Returned tt, mkWorld (kanban w) (columns w) (trace w ++ [e]) (server w)).

Definition setKanban (f : KanbanState -> KanbanState) : M unit :=
  fun w => (Returned tt, mkWorld (f (kanban w)) (columns w) (trace w) (server w)).

Definition setColumns (f : list Column.t -> list Column.t) : M unit :=
  fun w => (Returned tt, mkWorld (kanban w) (f (columns w)) (trace w) (server w)).

Definition getColumns : M (list Column.t) := fun w => (Returned (columns w), w).

(** A request to the service: the request is recorded, the next answer is
    taken; with no answer left the request fails. *)
Definition request (e : Effect) : M (bool * option (list AssignmentData.t)) :=
  fun w =>
    let w' := mkWorld (kanban w) (columns w) (trace w ++ [e]) (tl (server w)) in
    match server w with
    | Json success data :: _ => (Returned (success, data), w')
    | Rejected :: _ => (Thrown, w')
    | [] => (Thrown, w')
    end.

(** services/api.ts *)
Definition updateAssignmentStatus (assignmentId : Z) (status : string) : M unit :=
  _ <- request (UpdateAssignmentStatus assignmentId status) ;; ret tt.

Definition getAllSyllabi : M (bool * option (list AssignmentData.t)) :=
  request GetAllSyllabi.

(** The props of [KanbanView] that the handlers read. *)
Record KanbanViewProps : Type := mkProps {
  data : KanbanData;
  isUnified : bool;
  onDataRefresh : bool   (* whether the callback was passed *)
}.

Definition callOnDataRefresh (props : KanbanViewProps) (d : KanbanData) : M unit :=
  if onDataRefresh props then emit (OnDataRefresh d) else ret tt.

(** [Array.isArray(data) ? data[0]?.id : data.id]; [None] is [undefined]. *)
Definition currentSyllabusId (d : KanbanData) : option Z :=
  match d with
  | Many [] => None
  | Many (first :: _) => Some (AssignmentData.id first)
  | Single syllabus => Some (AssignmentData.id syllabus)
  end.

(** [refreshData] of [KanbanView]. *)
Definition refreshData (props : KanbanViewProps) : M unit :=
  setKanban (setIsRefreshing true) ;;
  tryFinally
    (tryCatch
       (response <- getAllSyllabi ;;
        match response with
        | (true, Some freshSyllabi) =>
            if isUnified props then
              setKanban (setFreshData (Many freshSyllabi)) ;;
              callOnDataRefresh props (Many freshSyllabi)
            else
              match currentSyllabusId (data props) with
              | Some wanted =>
                  match find (fun s => AssignmentData.id s =? wanted) freshSyllabi with
                  | Some matchingSyllabus =>
                      setKanban (setFreshData (Single matchingSyllabus)) ;;
                      callOnDataRefresh props (Single matchingSyllabus)
                  | None => setKanban (setFreshData (data props))
                  end
              | None => setKanban (setFreshData (data props))
              end
        | _ => setKanban (setFreshData (data props))
        end)
       (emit (ConsoleError "Failed to fetch fresh data:") ;;
        setKanban (setFreshData (data props))))
    (setKanban (setIsRefreshing false)).

Definition validColumns : list string := ["not-started"; "in-progress"; "done"].

(** [validColumns.includes(newColumnId)]: no number equals a string. *)
Definition includes (l : list string) (x : UniqueIdentifier) : bool :=
  match x with
  | StrId s => existsb (String.eqb s) l
  | NumId _ => false
  end.

(** [statusMap[newColumnId]]; [None] is [undefined]. *)
Definition statusMap (columnId : string) : option string :=
  if String.eqb columnId "not-started" then Some NOT_STARTED
  else if String.eqb columnId "in-progress" then Some IN_PROGRESS
  else if String.eqb columnId "done" then Some DONE
  else None.

Definition statusMapAt (x : UniqueIdentifier) : option string :=
  match x with
  | StrId s => statusMap s
  | NumId _ => None
  end.

(** The [for (const column of columns)] search of [WeeklyBoard]: the first
    column holding a card with that id gives the card. *)
Fixpoint findInColumns (cols : list Column.t) (assignmentId : Z)
  : option AssignmentWithId.t :=
  match cols with
  | [] => None
  | column :: rest =>
      match find (fun a => AssignmentWithId.id a =? assignmentId)
                 (Column.assignments column) with
      | Some assignment => Some assignment
      | None => findInColumns rest assignmentId
      end
  end.

(** [handleAssignmentMove] of [KanbanView]: it only logs. *)
Definition handleAssignmentMove (assignmentId : Z) (newColumn : string) (weekNumber : Z)
  : M unit :=
  emit (ConsoleLog "Assignment moved").

Definition columnName (x : UniqueIdentifier) : string :=
  match x with StrId s => s | NumId n => decimal n end.

(** [handleDragEnd] of [WeeklyBoard]. *)
Definition WeeklyBoard_handleDragEnd (props : KanbanViewProps) (board : WeeklyBoard.t)
  (event : DragEndEvent) : M unit :=
  emit (ConsoleLog "Drag end:") ;;
  match over event with
  | None => emit (ConsoleLog "No drop target - returning to original position")
  | Some newColumnId =>
      let assignmentId := active event in
      if negb (includes validColumns newColumnId)
      then emit (ConsoleLog "Invalid drop target - returning to original position")
      else
        emit (ConsoleLog "Moving assignment:") ;;
        match statusMapAt newColumnId with
        | None => ret tt
        | Some newStatus =>
            cols <- getColumns ;;
            match findInColumns cols assignmentId with
            | None =>
                emit (ConsoleLog "Assignment not found:") ;;
                emit (ConsoleLog "Available assignments:")
            | Some _ =>
                tryCatch
                  (updateAssignmentStatus assignmentId newStatus ;;
                   refreshData props ;;
                   handleAssignmentMove assignmentId (columnName newColumnId)
                     (WeeklyBoard.weekNumber board))
                  (emit (ConsoleError "Failed to update assignment status:"))
            end
        end
  end.

(** [handleAllAssignmentsMove] of [KanbanView]; the id comes as decimal text
    and goes back through [parseInt], which gives the same number. *)
Definition handleAllAssignmentsMove (props : KanbanViewProps) (assignmentId : Z)
  (newColumn : string) : M unit :=
  match statusMap newColumn with
  | None => ret tt
  | Some newStatus =>
      tryCatch
        (updateAssignmentStatus assignmentId newStatus ;;
         refreshData props)
        (emit (ConsoleError "Failed to update assignment status:"))
  end.

(** [handleDragEnd] of [AllAssignmentsBoard]. *)
Definition AllAssignmentsBoard_handleDragEnd (props : KanbanViewProps)
  (event : DragEndEvent) : M unit :=
  match over event with
  | None => ret tt
  | Some newColumnId =>
      let assignmentId := active event in
      if negb (includes validColumns newColumnId) then ret tt
      else
        match statusMapAt newColumnId with
        | None => ret tt
        | Some newStatus =>
            tryCatch
              (updateAssignmentStatus assignmentId newStatus ;;
               refreshData props ;;
               handleAllAssignmentsMove props assignmentId (columnName newColumnId))
              (emit (ConsoleError "Failed to update assignment status:"))
        end
  end.

(** Deleting a card: [handleDelete] of [AssignmentCard] asks for
    confirmation ([confirmed] is the user's answer) and on a yes runs
    [handleDeleteAssignment] of [WeeklyBoard], which filters the card out of
    every column and tells the parent, which only logs. *)
Definition removeFromColumn (assignmentId : Z) (column : Column.t) : Column.t :=
  Column.mk (Column.id column) (Column.title column)
    (filter (fun a => negb (AssignmentWithId.id a =? assignmentId))
            (Column.assignments column)).

Definition WeeklyBoard_handleDeleteAssignment (assignmentId : Z) : M unit :=
  setColumns (map (removeFromColumn assignmentId)) ;;
  emit (ConsoleLog "Assignment deleted from week").

Definition AssignmentCard_handleDelete (confirmed : bool) (assignment : AssignmentWithId.t)
  : M unit :=
  emit (WindowConfirm "Are you sure you want to delete?") ;;
  if confirmed then WeeklyBoard_handleDeleteAssignment (AssignmentWithId.id assignment)
  else ret tt.

(** ** What a run of a handler shows *)

(** The requests among the effects. *)
Definition isRequest (e : Effect) : bool :=
  match e with
  | UpdateAssignmentStatus _ _ | GetAllSyllabi => true
  | _ => false
  end.

Definition isDialog (e : Effect) : bool :=
  match e with WindowConfirm _ => true | _ => false end.

(** The effects a run added to the trace. *)
Definition newEffects (before after : World) : list Effect :=
  skipn (length (trace before)) (trace after).

(** A run has put something in front of the user when it changed a state
    cell (what is rendered is a function of the props and those cells) or
    opened a dialog.  Console output is not shown to the user. *)
Definition surfacedToUser (before after : World) : Prop :=
  kanban after <> kanban before
  \/ columns after <> columns before
  \/ existsb isDialog (newEffects before after) = true.

(* ===================================================================== *)
(** * Further parts of [KanbanView] *)
(* ===================================================================== *)

(** ** The all-assignments board ([allAssignmentsBoard]) *)

Module AllAssignmentsBoard.
Record t : Type := mk {
  id : string;
  title : string;
  assignments : list AssignmentWithId.t
}.
End AllAssignmentsBoard.

(** The memo runs the same [map] as [weeklyBoards], with clock readings of
    its own, and neither sorts nor filters. *)
Definition allAssignmentsBoard (clock : nat -> Z) (currentData : KanbanData)
  (isUnified : bool) : AllAssignmentsBoard.t :=
  AllAssignmentsBoard.mk "all-assignments"
    (if isUnified then "All Assignments (Unified View)" else "All Assignments")
    (assignmentsWithId clock currentData).

(** ** The colour table ([courseColors]) *)

(** [[...new Set(xs)]]: the distinct elements, in the order of their first
    occurrence. *)
Fixpoint addToSet (x : string) (set : list string) : list string :=
  match set with
  | [] => [x]
  | y :: rest => if String.eqb x y then set else y :: addToSet x rest
  end.

Definition uniqueOf (xs : list string) : list string :=
  fold_left (fun set x => addToSet x set) xs [].

(** A [Record<string, string>] that starts as [{}]: its own properties,
    latest write first.  A property holds a string or [undefined]. *)
Definition ColorRecord : Type := list (string * option string).

(** [colors[key] = value].  On a plain object the key [__proto__] is the
    accessor of the prototype, and assigning a string or [undefined] to it
    changes nothing. *)
Definition writeColor (key : string) (value : option string) (colors : ColorRecord)
  : ColorRecord :=
  if String.eqb key "__proto__" then colors else (key, value) :: colors.

(** [colors[key]] read as a colour: the own property if there is one.
    Without one the read goes to [Object.prototype], which holds no colour
    string; [None] stands for that and for [undefined]. *)
Definition readColor (key : string) (colors : ColorRecord) : option string :=
  if String.eqb key "__proto__" then None
  else
    match find (fun p => String.eqb (fst p) key) colors with
    | Some (_, value) => value
    | None => None
    end.

Definition courseColors (weeklyBoards : list WeeklyBoard.t) : ColorRecord :=
  let uniqueCourseCodes :=
    uniqueOf (flat_map (fun board =>
                          map AssignmentWithId.courseCode (WeeklyBoard.assignments board))
                       weeklyBoards) in
  fold_left (fun colors courseCode =>
               writeColor courseCode (generateCourseColor courseCode) colors)
            uniqueCourseCodes [].

(** Every property of the table holds the colour of its key. *)
Definition colorsOfKeys (colors : ColorRecord) : Prop :=
  Forall (fun p => snd p = generateCourseColor (fst p)) colors.

(** ** The sidebar buttons *)

(** [onClick] of a week button. *)
Definition clickWeek (board : WeeklyBoard.t) (st : KanbanState) : KanbanState :=
  mkKanbanState (Some (WeeklyBoard.weekNumber board)) weekly
                (freshData st) (isRefreshing st).

(** [onClick] of the all-assignments button. *)
Definition clickAllAssignments (st : KanbanState) : KanbanState :=
  mkKanbanState (selectedWeek st) all_assignments (freshData st) (isRefreshing st).

(** ** Deleting a card on the all-assignments board *)

(** [handleAllAssignmentsDelete] of [KanbanView]: it only logs. *)
Definition handleAllAssignmentsDelete (assignmentId : Z) : M unit :=
  emit (ConsoleLog "Assignment deleted").

(** [handleDeleteAssignment] of [AllAssignmentsBoard]: it asks for
    confirmation itself before it tells the parent. *)
Definition AllAssignmentsBoard_handleDeleteAssignment (confirmed : bool)
  (assignmentId : Z) : M unit :=
  emit (WindowConfirm "Are you sure you want to delete this assignment?") ;;
  if confirmed then handleAllAssignmentsDelete assignmentId else ret tt.

(** [handleDelete] of a card mounted in [AllAssignmentsBoard]: the card
    asks first ([confirmedCard]), then the board asks again
    ([confirmedBoard]). *)
Definition AssignmentCard_handleDelete_onAllBoard (confirmedCard confirmedBoard : bool)
  (assignment : AssignmentWithId.t) : M unit :=
  emit (WindowConfirm "Are you sure you want to delete?") ;;
  if confirmedCard
  then AllAssignmentsBoard_handleDeleteAssignment confirmedBoard
         (AssignmentWithId.id assignment)
  else ret tt.

(** ** Vocabulary for [refreshData] *)

(** What one run of [refreshData] makes the working copy, and what it tells
    the parent, given the answer of the service ([None]: no answer). *)
Definition refreshOutcome (props : KanbanViewProps) (answer : option Response)
  : KanbanData * list Effect :=
  let notify d := if onDataRefresh props then [OnDataRefresh d] else [] in
  match answer with
  | Some (Json true (Some freshSyllabi)) =>
      if isUnified props then (Many freshSyllabi, notify (Many freshSyllabi))
      else
        match currentSyllabusId (data props) with
        | Some wanted =>
            match find (fun s => AssignmentData.id s =? wanted) freshSyllabi with
            | Some matchingSyllabus =>
                (Single matchingSyllabus, notify (Single matchingSyllabus))
            | None => (data props, [])
            end
        | None => (data props, [])
        end
  | Some (Json _ _) => (data props, [])
  | Some Rejected | None =>
      (data props, [ConsoleError "Failed to fetch fresh data:"])
  end.

(** The state cells after a refresh that got [answer]. *)
Definition refreshed (props : KanbanViewProps) (answer : option Response)
  (st : KanbanState) : KanbanState :=
  mkKanbanState (selectedWeek st) (selectedBoardType st)
    (Some (fst (refreshOutcome props answer))) false.

Definition isUpdateRequest (e : Effect) : bool :=
  match e with UpdateAssignmentStatus _ _ => true | _ => false end.

(** The column of [cols] with the given id, as [find] gives it. *)
Definition columnById (columnId : string) (cols : list Column.t) : option Column.t :=
  find (fun c => String.eqb (Column.id c) columnId) cols.

(* ===================================================================== *)
(** * The earlier [KanbanView]: columns kept in the browser *)
(* ===================================================================== *)

(** The earlier version of the component knows no status on the service.
    The weekly board moves cards between its columns itself; the
    all-assignments board keeps a record from card id to column id.  Card
    ids are strings made up by the component.  (What the handlers write to
    the console is left out of this part of the embedding.) *)

Module Legacy.

(** [interface AssignmentWithId] of that version: [id] is a string. *)
Module Card.
Record t : Type := mk {
  id : string;
  card : AssignmentWithId.t
}.
End Card.

Module Column.
Record t : Type := mk {
  id : string;
  title : string;
  assignments : list Card.t
}.
End Column.

(** [`assignment-${assignment.syllabus_id}-${index}`] *)
Definition cardId (syllabus_id : Z) (index : nat) : string :=
  ("assignment-" ++ decimal syllabus_id ++ "-" ++ decimal (Z.of_nat index))%string.

(** [allAssignments.map((assignment, index) => ...)], from [index] on. *)
Fixpoint mapWithIndex (clock : nat -> Z) (index : nat) (l : list CourseAssignment.t)
  : list Card.t :=
  match l with
  | [] => []
  | a :: l' =>
      Card.mk (cardId (CourseAssignment.syllabus_id a) index)
              (toAssignmentWithId (clock index) a)
      :: mapWithIndex clock (S index) l'
  end.

Definition assignmentsWithId (clock : nat -> Z) (currentData : KanbanData)
  : list Card.t :=
  mapWithIndex clock 0 (allAssignments currentData).

(** ** The weekly board *)

(** The initial [columns] and what the reset effect sets: everything in
    the first column. *)
Definition initialColumns (boardAssignments : list Card.t) : list Column.t :=
  [ Column.mk "not-started" "Not Started" boardAssignments;
    Column.mk "in-progress" "In Progress" [];
    Column.mk "done" "Done" [] ].

(** [{ ...column, assignments: column.assignments.filter(a => a.id !== assignmentId) }] *)
Definition withoutCard (assignmentId : string) (column : Column.t) : Column.t :=
  Column.mk (Column.id column) (Column.title column)
    (filter (fun a => negb (String.eqb (Card.id a) assignmentId))
            (Column.assignments column)).

(** [newColumns.find(col => col.id === newColumnId)] followed by the
    [push] into the column found, the first one with that id. *)
Fixpoint pushInto (newColumnId : string) (assignment : Card.t) (newColumns : list Column.t)
  : list Column.t :=
  match newColumns with
  | [] => []
  | col :: rest =>
      if String.eqb (Column.id col) newColumnId
      then Column.mk (Column.id col) (Column.title col)
             (Column.assignments col ++ [assignment]) :: rest
      else col :: pushInto newColumnId assignment rest
  end.

(** In this version all ids are strings, those of the cards too. *)
Record DragEndEvent : Type := mkDragEnd {
  active : string;
  over : option string
}.

(** [handleDragEnd] of [WeeklyBoard], as the new value of [columns]. *)
Definition handleDragEnd (boardAssignments : list Card.t) (event : DragEndEvent)
  (prevColumns : list Column.t) : list Column.t :=
  match over event with
  | None => prevColumns
  | Some newColumnId =>
      let assignmentId := active event in
      if negb (existsb (String.eqb newColumnId) validColumns) then prevColumns
      else
        match find (fun a => String.eqb (Card.id a) assignmentId) boardAssignments with
        | None => prevColumns
        | Some assignment =>
            pushInto newColumnId assignment (map (withoutCard assignmentId) prevColumns)
        end
  end.

(** [handleDelete] of a card with [handleDeleteAssignment] of [WeeklyBoard],
    [confirmed] being the answer to [window.confirm]. *)
Definition handleDelete (confirmed : bool) (assignmentId : string)
  (prevColumns : list Column.t) : list Column.t :=
  if confirmed then map (withoutCard assignmentId) prevColumns else prevColumns.

(** What the user can do on a weekly board. *)
Inductive Gesture : Type :=
| Drag (event : DragEndEvent)
| Delete (confirmed : bool) (assignmentId : string).

Definition step (boardAssignments : list Card.t) (columns : list Column.t)
  (g : Gesture) : list Column.t :=
  match g with
  | Drag event => handleDragEnd boardAssignments event columns
  | Delete confirmed assignmentId => handleDelete confirmed assignmentId columns
  end.

(** The columns after a sequence of gestures on a freshly mounted board. *)
Definition play (boardAssignments : list Card.t) (gestures : list Gesture)
  : list Column.t :=
  fold_left (step boardAssignments) gestures (initialColumns boardAssignments).

Definition allCards (columns : list Column.t) : list Card.t :=
  concat (map Column.assignments columns).

Definition isConfirmedDelete (g : Gesture) : bool :=
  match g with Delete true _ => true | _ => false end.

(** ** The all-assignments board *)

(** [assignmentStatuses: Record<string, string>], starting as [{}]: the own
    properties, latest write first. *)
Definition StatusRecord : Type := list (string * string).

(** [{ ...prev, [assignmentId]: newColumn }] *)
Definition handleAllAssignmentsMove (assignmentId newColumn : string)
  (prev : StatusRecord) : StatusRecord :=
  (assignmentId, newColumn) :: prev.

(** [delete newStatuses[assignmentId]] on a copy. *)
Definition handleAllAssignmentsDelete (assignmentId : string) (prev : StatusRecord)
  : StatusRecord :=
  filter (fun p => negb (String.eqb (fst p) assignmentId)) prev.

(** [assignmentStatuses[assignment.id] || 'not-started'].  The keys read are
    card ids, which begin with [assignment-]; no property of
    [Object.prototype] has such a name, so a key that was not written reads
    [undefined]. *)
Definition statusOf (assignmentStatuses : StatusRecord) (assignmentId : string) : string :=
  match find (fun p => String.eqb (fst p) assignmentId) assignmentStatuses with
  | Some (_, status) => if String.eqb status "" then "not-started" else status
  | None => "not-started"
  end.

(** The three arrays of the status effect. *)
Record Buckets : Type := mkBuckets {
  notStarted : list Card.t;
  inProgress : list Card.t;
  done : list Card.t
}.

Definition pushByStatus (assignmentStatuses : StatusRecord) (b : Buckets)
  (assignment : Card.t) : Buckets :=
  let status := statusOf assignmentStatuses (Card.id assignment) in
  if String.eqb status "not-started"
  then mkBuckets (notStarted b ++ [assignment]) (inProgress b) (done b)
  else if String.eqb status "in-progress"
  then mkBuckets (notStarted b) (inProgress b ++ [assignment]) (done b)
  else if String.eqb status "done"
  then mkBuckets (notStarted b) (inProgress b) (done b ++ [assignment])
  else b.

Definition distribute (assignmentStatuses : StatusRecord) (boardAssignments : list Card.t)
  : Buckets :=
  fold_left (pushByStatus assignmentStatuses) boardAssignments (mkBuckets [] [] []).

(** [handleDragEnd] of [AllAssignmentsBoard] with [handleAllAssignmentsMove]
    as its callback, as the new value of [assignmentStatuses]. *)
Definition all_handleDragEnd (event : DragEndEvent) (prev : StatusRecord)
  : StatusRecord :=
  match over event with
  | None => prev
  | Some newColumnId =>
      if negb (existsb (String.eqb newColumnId) validColumns) then prev
      else handleAllAssignmentsMove (active event) newColumnId prev
  end.

(** A delete on the all-assignments board: the card asks, the board asks
    again, then [handleAllAssignmentsDelete] runs. *)
Definition all_handleDelete (confirmedCard confirmedBoard : bool) (assignmentId : string)
  (prev : StatusRecord) : StatusRecord :=
  if confirmedCard && confirmedBoard
  then handleAllAssignmentsDelete assignmentId prev else prev.

Inductive AllGesture : Type :=
| AllDrag (event : DragEndEvent)
| AllDelete (confirmedCard confirmedBoard : bool) (assignmentId : string).

Definition all_step (statuses : StatusRecord) (g : AllGesture) : StatusRecord :=
  match g with
  | AllDrag event => all_handleDragEnd event statuses
  | AllDelete c1 c2 assignmentId => all_handleDelete c1 c2 assignmentId statuses
  end.

Definition all_play (gestures : list AllGesture) : StatusRecord :=
  fold_left all_step gestures [].

(** The column a card is shown in, if any: the position of the array that
    holds it. *)
Definition columnOf (assignmentStatuses : StatusRecord) (assignment : Card.t)
  : option string :=
  let status := statusOf assignmentStatuses (Card.id assignment) in
  if existsb (String.eqb status) validColumns then Some status else None.

(** The part of a string after its last dash; the whole string if it has
    none. *)
Fixpoint hasDash (s : string) : bool :=
  match s with
  | EmptyString => false
  | String c s' => Ascii.eqb c "-" || hasDash s'
  end.

Fixpoint lastField (s : string) : string :=
  match s with
  | EmptyString => EmptyString
  | String c s' =>
      if hasDash s' then lastField s'
      else if Ascii.eqb c "-" then s' else s
  end.

End Legacy.

(** What the gestures keep true of the columns of a board: their ids, no
    id on two cards, only cards of the board. *)
Definition LegacyInv (board : list Legacy.Card.t) (cols : list Legacy.Column.t) : Prop :=
  map Legacy.Column.id cols = validColumns
  /\ NoDup (map Legacy.Card.id (Legacy.allCards cols))
  /\ incl (Legacy.allCards cols) board.

(** The array of the status effect that feeds the column with this id. *)
Definition legacyBucket (columnId : string) (b : Legacy.Buckets) : list Legacy.Card.t :=
  if String.eqb columnId "not-started" then Legacy.notStarted b
  else if String.eqb columnId "in-progress" then Legacy.inProgress b
  else if String.eqb columnId "done" then Legacy.done b
  else [].

(** Every column id written into the record is one of the three. *)
Definition validStatuses (st : Legacy.StatusRecord) : Prop :=
  Forall (fun p => In (snd p) validColumns) st.

(* ===================================================================== *)
(** * Deleting a saved syllabus ([App]) *)
(* ===================================================================== *)

(** An element of [savedSyllabi: any[]] as the list of the service has it.
    The [id] is a number of the database or is missing; [handleDeleteConfirm]
    reads nothing else of the syllabus. *)
Module SavedSyllabus.
Record t : Type := mk {
  id : option Z;
  class_name : string;
  course_code : string;
  assignments : list Assignment.t
}.
End SavedSyllabus.

(** How [await deleteSyllabus(id)] ends: it throws (an [Error] with its
    message, or something that is no [Error]) or gives a
    [DatabaseResponse], of which [success] and [error] are read. *)
Inductive DeleteAnswer : Type :=
| DeleteRejected (message : option string)
| DeleteResponse (success : bool) (error : option string).

Module App.

(** The state cells of [App] that the delete dialog reads or writes. *)
Record State : Type := mkState {
  savedSyllabi : list SavedSyllabus.t;
  deleteModalOpen : bool;
  syllabusToDelete : option SavedSyllabus.t;
  error : option string
}.

Definition handleDeleteClick (syllabus : SavedSyllabus.t) (st : State) : State :=
  mkState (savedSyllabi st) true (Some syllabus) (error st).

Definition handleDeleteCancel (st : State) : State :=
  mkState (savedSyllabi st) false None (error st).

(** [s.id !== syllabusToDelete.id] for the number [id]: a missing id is
    different from every number. *)
Definition differentId (id : Z) (s : SavedSyllabus.t) : bool :=
  match SavedSyllabus.id s with
  | Some i => negb (i =? id)
  | None => true
  end.

(** [result.error || 'Failed to delete syllabus']: the empty string is
    falsy. *)
Definition errorOr (error : option string) (default : string) : string :=
  match error with
  | Some EmptyString | None => default
  | Some e => e
  end.

(** [handleDeleteConfirm], with the answer the call of [deleteSyllabus]
    gets if it is made.  Beside the state it gives the ids [deleteSyllabus]
    was called with. *)
Definition handleDeleteConfirm (answer : DeleteAnswer) (st : State) : State * list Z :=
  match syllabusToDelete st with
  | None => (st, [])
  | Some syllabus =>
      match SavedSyllabus.id syllabus with
      | None | Some 0 =>
          (mkState (savedSyllabi st) false None
                   (Some "Cannot delete syllabus: No ID found"), [])
      | Some id =>
          (match answer with
           | DeleteResponse true _ =>
               mkState (filter (differentId id) (savedSyllabi st)) false None (error st)
           | DeleteResponse false e =>
               mkState (savedSyllabi st) (deleteModalOpen st) (syllabusToDelete st)
                       (Some (errorOr e "Failed to delete syllabus"))
           | DeleteRejected message =>
               mkState (savedSyllabi st) (deleteModalOpen st) (syllabusToDelete st)
                       (Some ("Error deleting syllabus: "
                              ++ match message with
                                 | Some m => m
                                 | None => "Unknown error"
                                 end)%string)
           end, [id])
      end
  end.

End App.

(* ===================================================================== *)
(** * Loading a JSON file (the first [App]) *)
(* ===================================================================== *)

(** A value as [JSON.parse] gives it.  Of a number only the text is kept:
    the validator asks for the type of a value, never for a number.  The
    members of an object are in the order of the text. *)
#[local] Set Warnings "-register-all".
Inductive JSON : Type :=
| JNull
| JBool (b : bool)
| JNumber (literal : string)
| JString (s : string)
| JArray (items : list JSON)
| JObject (members : list (string * JSON)).

Module Upload.

(** The own property [key] of a parsed object: of members with the same
    name the last one counts. *)
Fixpoint member (key : string) (members : list (string * JSON)) : option JSON :=
  match members with
  | [] => None
  | (k, v) :: rest =>
      match member key rest with
      | Some v' => Some v'
      | None => if String.eqb k key then Some v else None
      end
  end.

(** [v.key] for the property names the validator reads: a [TypeError] on
    [null], the own property of an object, and [undefined] on whatever else
    [JSON.parse] can give (booleans, numbers, strings and arrays have no
    property of these names). *)
Definition get (v : JSON) (key : string) : Result (option JSON) :=
  match v with
  | JNull => Thrown
  | JObject members => Returned (member key members)
  | _ => Returned None
  end.

(** [typeof v.key === 'string'] *)
Definition isStringProperty (v : JSON) (key : string) : Result bool :=
  match get v key with
  | Returned (Some (JString _)) => Returned true
  | Returned _ => Returned false
  | Thrown => Thrown
  end.

(** [a && b] where [a] may throw and [b] is not evaluated unless [a] is
    true. *)
Definition andThen (a b : Result bool) : Result bool :=
  match a with
  | Returned true => b
  | other => other
  end.

(** [items.every(test)]: stops at the first element that fails or
    throws. *)
Fixpoint every (test : JSON -> Result bool) (items : list JSON) : Result bool :=
  match items with
  | [] => Returned true
  | item :: rest =>
      match test item with
      | Returned true => every test rest
      | other => other
      end
  end.

Definition validAssignment (assignment : JSON) : Result bool :=
  andThen (isStringProperty assignment "name")
    (andThen (isStringProperty assignment "due_date")
       (andThen (isStringProperty assignment "due_time")
          (isStringProperty assignment "submission_link"))).

(** [validateAssignmentData], its result read as the condition of the [if]
    it is called in.  [data &&] keeps [null] from being read; the other
    falsy values ([false], [0], the empty string) stop there too, and the
    truthy values that are no objects fail the first [typeof]: in both cases
    the condition is false. *)
Definition validateAssignmentData (data : JSON) : Result bool :=
  match data with
  | JNull => Returned false
  | _ =>
      andThen (isStringProperty data "class_name")
        (andThen (isStringProperty data "course_code")
           match get data "assignments" with
           | Returned (Some (JArray items)) => every validAssignment items
           | Returned _ => Returned false
           | Thrown => Thrown
           end)
  end.

(** [toLowerCase] on the one-byte characters: the letters A to Z and the
    accented capitals. *)
Definition toLowerCaseChar (c : ascii) : ascii :=
  let n := nat_of_ascii c in
  if ((65 <=? n)%nat && (n <=? 90)%nat)
     || ((192 <=? n)%nat && (n <=? 214)%nat)
     || ((216 <=? n)%nat && (n <=? 222)%nat)
  then ascii_of_nat (n + 32) else c.

Fixpoint toLowerCase (s : string) : string :=
  match s with
  | EmptyString => EmptyString
  | String c s' => String (toLowerCaseChar c) (toLowerCase s')
  end.

Definition endsWith (s suffix : string) : bool :=
  (String.length suffix <=? String.length s)%nat
  && String.eqb (substring (String.length s - String.length suffix)
                           (String.length suffix) s) suffix.

Record State : Type := mkState {
  assignmentData : option JSON;
  error : option string
}.

(** [reader.onload]: [parsed] is what [JSON.parse(content)] gives, [None]
    when it throws. *)
Definition onload (parsed : option JSON) (st : State) : State :=
  match parsed with
  | None =>
      mkState (assignmentData st)
              (Some "Invalid JSON file. Please check the file format.")
  | Some parsedData =>
      match validateAssignmentData parsedData with
      | Returned true => mkState (Some parsedData) None
      | Returned false =>
          mkState (assignmentData st)
                  (Some "Invalid JSON structure. Please ensure the file contains class_name, course_code, and assignments array.")
      | Thrown =>
          mkState (assignmentData st)
                  (Some "Invalid JSON file. Please check the file format.")
      end
  end.

(** [handleFileUpload] for a file that can be read: its name and what its
    text parses to. *)
Definition handleFileUpload (fileName : string) (parsed : option JSON) (st : State) : State :=
  if negb (endsWith (toLowerCase fileName) ".json")
  then mkState (assignmentData st) (Some "Please upload a JSON file (.json)")
  else onload parsed st.

End Upload.

(** An object with a string under [key]. *)
Definition stringField (key : string) (v : JSON) : Prop :=
  exists members s, v = JObject members /\ Upload.member key members = Some (JString s).

Definition wellShapedAssignment (v : JSON) : Prop :=
  stringField "name" v /\ stringField "due_date" v /\ stringField "due_time" v
  /\ stringField "submission_link" v.

(** An object with strings under [class_name] and [course_code] and, under
    [assignments], the array [items]. *)
Definition syllabusWith (items : list JSON) (v : JSON) : Prop :=
  stringField "class_name" v /\ stringField "course_code" v
  /\ exists members, v = JObject members
                     /\ Upload.member "assignments" members = Some (JArray items).

Definition wellShaped (v : JSON) : Prop :=
  exists items, syllabusWith items v /\ Forall wellShapedAssignment items.

(** The same but for a [null] among the assignments with nothing but
    well-shaped assignments before it. *)
Definition nullAmongAssignments (v : JSON) : Prop :=
  exists good rest,
    syllabusWith (good ++ JNull :: rest) v /\ Forall wellShapedAssignment good.

(* ===================================================================== *)
(** * The calendar export ([AssignmentEditor]) *)
(* ===================================================================== *)

Module Editor.

(** [s.split(sep)] for a separator of one character. *)
Fixpoint str_split (sep : ascii) (s : string) : list string :=
  match s with
  | EmptyString => [EmptyString]
  | String c s' =>
      if Ascii.eqb c sep then EmptyString :: str_split sep s'
      else match str_split sep s' with
           | first :: rest => String c first :: rest
           | [] => [String c EmptyString]
           end
  end.

Fixpoint join (sep : string) (l : list string) : string :=
  match l with
  | [] => EmptyString
  | [x] => x
  | x :: rest => (x ++ sep ++ join sep rest)%string
  end.

(** A number of JavaScript as far as this code can make one: an integer or
    [NaN].  The integers are exact below 2^53, that is for hour texts of at
    most fifteen digits; minus zero, which [parseInt] can give, is zero
    here: the code adds one to it before it compares or prints it. *)
Definition JSNumber : Type := option Z.

Definition NaN : JSNumber := None.

Fixpoint trimStart (s : string) : string :=
  match s with
  | String c s' => if is_space c then trimStart s' else s
  | EmptyString => EmptyString
  end.

(** The value of [c] as a digit of radix [R], if it is one. *)
Definition radixDigit (R : Z) (c : ascii) : option Z :=
  let n := Z.of_nat (nat_of_ascii c) in
  let v := if (48 <=? n) && (n <=? 57) then Some (n - 48)
           else if (97 <=? n) && (n <=? 122) then Some (n - 87)
           else if (65 <=? n) && (n <=? 90) then Some (n - 55)
           else None in
  match v with
  | Some d => if d <? R then Some d else None
  | None => None
  end.

(** The value of the longest prefix of digits, [acc] if there is none. *)
Fixpoint digits (R : Z) (acc : JSNumber) (s : string) : JSNumber :=
  match s with
  | String c s' =>
      match radixDigit R c with
      | Some d => digits R (Some (R * match acc with Some a => a | None => 0 end + d)) s'
      | None => acc
      end
  | EmptyString => acc
  end.

(** [parseInt(s)] without a radix: leading white space, a sign, [0x] or
    [0X] for radix 16, then the digits up to the first character that is
    none; [NaN] when there is no digit. *)
Definition parseInt (s : string) : JSNumber :=
  let s := trimStart s in
  let '(sign, s) := match s with
                    | String "-" r => (-1, r)
                    | String "+" r => (1, r)
                    | _ => (1, s)
                    end in
  let '(R, s) := match s with
                 | String "0" (String x r) =>
                     if Ascii.eqb x "x" || Ascii.eqb x "X" then (16, r) else (10, s)
                 | _ => (10, s)
                 end in
  option_map (Z.mul sign) (digits R None s).

Definition add (a : JSNumber) (b : Z) : JSNumber := option_map (fun x => x + b) a.

(** [a % b]: the remainder has the sign of [a]. *)
Definition remainder (a : JSNumber) (b : Z) : JSNumber := option_map (fun x => Z.rem x b) a.

(** [a === b] and [a > b] for a number [b]: false on [NaN]. *)
Definition equals (a : JSNumber) (b : Z) : bool :=
  match a with Some x => x =? b | None => false end.

Definition greater (a : JSNumber) (b : Z) : bool :=
  match a with Some x => b <? x | None => false end.

(** A number and a possibly missing string inside a template literal. *)
Definition numberText (a : JSNumber) : string :=
  match a with Some x => decimal x | None => "NaN" end.

Definition text (s : option string) : string :=
  match s with Some x => x | None => "undefined" end.

Definition isPeriod (period : option string) (name : string) : bool :=
  match period with Some p => String.eqb p name | None => false end.

(** The [try] block of [calculateEndTime].  What could throw in it is
    [split] on a first field that is [undefined]. *)
Definition calculateEndTime_try (startTime : string) : Result string :=
  let parts := str_split " " startTime in
  let period := nth_error parts 1 in
  match nth_error parts 0 with
  | None => Thrown
  | Some time =>
      let fields := str_split ":" time in
      let hours := nth_error fields 0 in
      let minutes := nth_error fields 1 in
      let hour24 := parseInt (text hours) in
      let hour24 :=
        if isPeriod period "PM" && negb (equals hour24 12) then add hour24 12
        else if isPeriod period "AM" && equals hour24 12 then Some 0
        else hour24 in
      let hour24 := remainder (add hour24 1) 24 in
      let '(hour12, newPeriod) :=
        if equals hour24 0 then (Some 12, "AM")
        else if equals hour24 12 then (Some 12, "PM")
        else if greater hour24 12 then (add hour24 (-12), "PM")
        else (hour24, "AM") in
      Returned (numberText hour12 ++ ":" ++ text minutes ++ " " ++ newPeriod)%string
  end.

(** [calculateEndTime]: the [catch] gives the start time back. *)
Definition calculateEndTime (startTime : string) : string :=
  match calculateEndTime_try startTime with
  | Returned endTime => endTime
  | Thrown => startTime
  end.

Definition csvHeaders : list string :=
  [ "Subject"; "Start Date"; "Start Time"; "End Date"; "End Time";
    "All Day Event"; "Description"; "Location"; "Private" ].

Definition quote : string := String (ascii_of_nat 34) EmptyString.

Definition quoted (s : string) : string := (quote ++ s ++ quote)%string.

(** The fields of the row of one assignment, before they are joined. *)
Definition csvFields (courseCode courseName : string) (assignment : Assignment.t)
  : list string :=
  let subject := (courseCode ++ ": " ++ Assignment.name assignment)%string in
  let startDate := Assignment.due_date assignment in
  let endDate := Assignment.due_date assignment in
  let timeString := Assignment.due_time assignment in
  let startTime := timeString in
  let endTime := calculateEndTime timeString in
  let description :=
    match Assignment.submission_link assignment with
    | EmptyString => ("Assignment due for " ++ courseName)%string
    | link => ("Assignment due for " ++ courseName ++ ". Submission link: " ++ link)%string
    end in
  let location := EmptyString in
  [ quoted subject; startDate; startTime; endDate; endTime; "False";
    quoted description; quoted location; "False" ].

Definition newline : string := String (ascii_of_nat 10) EmptyString.

(** [csvContent] of [exportToCalendarCSV], the text of the download. *)
Definition csvContent (courseCode courseName : string) (assignments : list Assignment.t)
  : string :=
  join newline
    (join "," csvHeaders
     :: map (fun assignment => join "," (csvFields courseCode courseName assignment))
            assignments).

(** Whether [c] occurs in [s]. *)
Fixpoint occurs (c : ascii) (s : string) : bool :=
  match s with
  | EmptyString => false
  | String c' s' => Ascii.eqb c' c || occurs c s'
  end.

End Editor.

(** One hour after [hour] o'clock of the clock of twelve hours: the hour
    shown, and whether the half of the day changes. *)
Definition nextHour (hour : Z) : Z := hour mod 12 + 1.

Definition nextPeriod (hour : Z) (period : string) : string :=
  if hour =? 11 then (if String.eqb period "AM" then "PM" else "AM") else period.

(* ===================================================================== *)
(** * Sample data *)
(* ===================================================================== *)

(** One course with five assignments: three due in the week of Monday 13
    October 2025, none in the week after, two in the week of 27 October, the
    last of which has no due time. *)
Definition sampleAssignment (id : Z) (due_date due_time status : string)
  : Assignment.t :=
  Assignment.mk id "Homework" due_date due_time "https://example.edu/submit" status.

Definition sampleSyllabus : AssignmentData.t :=
  AssignmentData.mk 7 "Data Structures" "CS 251"
    [ sampleAssignment 1 "2025-10-14" "9:00 AM" "NOT_STARTED";
      sampleAssignment 2 "2025-10-19" "11:59 PM" "DONE";
      sampleAssignment 3 "2025-10-16" "5:00 PM" "IN_PROGRESS";
      sampleAssignment 4 "2025-10-28" "11:59 PM" "NOT_STARTED";
      sampleAssignment 5 "2025-10-30" "" "ARCHIVED" ].

Definition sampleData : KanbanData := Single sampleSyllabus.

(** A wall clock on Thursday 30 October 2025, 10:00, one millisecond
    further at every reading. *)
Definition sampleClock (i : nat) : Z := local_time 2025 10 30 10 0 + Z.of_nat i.

Definition sampleBoards : list WeeklyBoard.t :=
  Eval vm_compute in weeklyBoards sampleClock sampleData.

Definition emptyBoard : WeeklyBoard.t := WeeklyBoard.mk 0 0 0 "" [].

Definition sampleBoard1 : WeeklyBoard.t := Eval vm_compute in nth 0 sampleBoards emptyBoard.
Definition sampleBoard2 : WeeklyBoard.t := Eval vm_compute in nth 1 sampleBoards emptyBoard.

(** The card of assignment 2, and of assignment 5 as it comes out of the
    fallback. *)
Definition sampleCard2 : AssignmentWithId.t :=
  Eval vm_compute in nth 1 (assignmentsWithId sampleClock sampleData)
                       (AssignmentWithId.mk
                          (withCourse sampleSyllabus (sampleAssignment 0 "" "" "")) 0).
Definition sampleCard5 : AssignmentWithId.t :=
  AssignmentWithId.mk
    (withCourse sampleSyllabus (sampleAssignment 5 "2025-10-30" "" "ARCHIVED"))
    (sampleClock 4).

Definition sampleProps : KanbanViewProps := mkProps sampleData false true.

(** The first week is mounted, the service is about to fail. *)
Definition sampleWorld : World :=
  mkWorld (mkKanbanState (Some 1) weekly (Some sampleData) false)
          (WeeklyBoard_columns sampleBoard1) [] [Rejected].

(** Card 1 is dropped on the column "done"; on card 3; on nothing. *)
Definition dropOnDone : DragEndEvent := mkDragEnd 1 (Some (StrId "done")).
Definition dropOnCard : DragEndEvent := mkDragEnd 1 (Some (NumId 3)).
Definition dropOnNothing : DragEndEvent := mkDragEnd 1 None.

(* ===================================================================== *)
(** * Further sample data *)
(* ===================================================================== *)

(** The service answers the update and then the request for the syllabi,
    with the sample syllabus renamed. *)
Definition renamedSyllabus : AssignmentData.t :=
  AssignmentData.mk 7 "Data Structures II" "CS 251" [].

Definition answeringWorld : World :=
  mkWorld (mkKanbanState (Some 1) weekly None false)
          (WeeklyBoard_columns (WeeklyBoard.mk 1 0 0 "" [])) []
          [Json true None; Json true (Some [renamedSyllabus])].

Definition unifiedProps : KanbanViewProps := mkProps (Many [sampleSyllabus]) true true.

Definition dropMissingCard : DragEndEvent := mkDragEnd 99 (Some (StrId "done")).

(** The cards of the sample as the earlier version makes them, a drag of
    the second card to "done" and a confirmed delete of the first. *)
Definition legacyBoard : list Legacy.Card.t :=
  Legacy.assignmentsWithId sampleClock sampleData.

Definition legacyCard2 : Legacy.Card.t :=
  Legacy.Card.mk "assignment-7-1" sampleCard2.

Definition legacyDrag : Legacy.DragEndEvent :=
  Legacy.mkDragEnd "assignment-7-1" (Some "done").

Definition legacyGestures : list Legacy.Gesture :=
  [ Legacy.Drag legacyDrag; Legacy.Delete false "assignment-7-0";
    Legacy.Drag (Legacy.mkDragEnd "assignment-7-0" (Some "in-progress")) ].

(** Two saved syllabi, the dialog open on the first. *)
Definition savedDataStructures : SavedSyllabus.t :=
  SavedSyllabus.mk (Some 7) "Data Structures" "CS 251" [].

Definition savedAlgorithms : SavedSyllabus.t :=
  SavedSyllabus.mk (Some 8) "Algorithms" "CS 381" [].

Definition sampleAppState : App.State :=
  App.mkState [savedDataStructures; savedAlgorithms] true (Some savedDataStructures) None.

(** What a well-formed file parses to; the first assignment has a member
    more than the validator asks for. *)
Definition sampleFile : JSON :=
  JObject
    [ ("class_name", JString "Data Structures");
      ("course_code", JString "CS 251");
      ("assignments",
       JArray
         [ JObject [ ("name", JString "Homework"); ("due_date", JString "2025-10-19");
                     ("due_time", JString "11:59 PM");
                     ("submission_link", JString "https://example.edu/submit");
                     ("points", JNumber "10") ] ]) ].

(* ===================================================================== *)
(** * Vocabulary of the properties *)
(* ===================================================================== *)

(** Monday 00:00 on the local clock. *)
Definition Monday (t : Z) : Prop := (t + 3 * MS_PER_DAY) mod MS_PER_WEEK = 0.

Abbreviation due := AssignmentWithId.dueDateTime.

Definition leDue (a b : AssignmentWithId.t) : Prop := due a <= due b.

(** The boards the loop appends when it starts at [lo] with number [n]:
    consecutive numbers, Monday-to-Sunday windows that start at [lo] or
    later and at least a week after the previous one, the title built from
    number and window, and as cards the non-empty selection of the window. *)
Fixpoint boardsFrom (sorted : list AssignmentWithId.t) (n lo : Z)
  (bs : list WeeklyBoard.t) : Prop :=
  match bs with
  | [] => True
  | b :: bs' =>
      WeeklyBoard.weekNumber b = n
      /\ lo <= WeeklyBoard.startDate b
      /\ Monday (WeeklyBoard.startDate b)
      /\ WeeklyBoard.endDate b = WeeklyBoard.startDate b + MS_PER_WEEK - 1
      /\ WeeklyBoard.title b
         = boardTitle n (WeeklyBoard.startDate b) (WeeklyBoard.endDate b)
      /\ WeeklyBoard.assignments b
         = filter (inWeek (WeeklyBoard.startDate b) (WeeklyBoard.endDate b)) sorted
      /\ WeeklyBoard.assignments b <> []
      /\ boardsFrom sorted (n + 1) (WeeklyBoard.startDate b + MS_PER_WEEK) bs'
  end.

Definition cardsOf (bs : list WeeklyBoard.t) : list AssignmentWithId.t :=
  concat (map WeeklyBoard.assignments bs).

(** The sorted working list of a run. *)
Definition sortedCards (clock : nat -> Z) (currentData : KanbanData)
  : list AssignmentWithId.t :=
  sortByDue (assignmentsWithId clock currentData).

(** ** Status columns *)

Definition hasStatus (s : string) (a : AssignmentWithId.t) : bool :=
  String.eqb (AssignmentWithId.status a) s.

(** The status is one of the three values of [AssignmentStatus]. *)
Definition knownStatus (a : AssignmentWithId.t) : bool :=
  hasStatus NOT_STARTED a || hasStatus IN_PROGRESS a || hasStatus DONE a.

Definition KnownStatus (a : AssignmentWithId.t) : Prop :=
  AssignmentWithId.status a = NOT_STARTED
  \/ AssignmentWithId.status a = IN_PROGRESS
  \/ AssignmentWithId.status a = DONE.

(** The cards of all three columns, column after column. *)
Definition shown (b : Buckets) : list AssignmentWithId.t :=
  notStarted b ++ inProgress b ++ done b.

(** ** Course colours *)

(** The colour in the words of the specification: a rolling hash over the
    character codes, each step [hash = char_code + ((hash << 5) - hash)],
    then the absolute value modulo the palette size as index into the
    palette. *)
Definition rollingStep (hash char_code : Z) : Z := char_code + (shl hash 5 - hash).

Definition rollingHash (char_codes : list Z) : Z := fold_left rollingStep char_codes 0.

Definition paletteColor (courseCode : string) : option string :=
  nth_error colors
    (Z.to_nat (Z.abs (rollingHash (map charCode (list_ascii_of_string courseCode)))
               mod Z.of_nat (length colors))).

(** ** Drag and drop *)

(** The drop target is one of the three columns. *)
Definition isColumnTarget (x : UniqueIdentifier) : Prop :=
  x = StrId "not-started" \/ x = StrId "in-progress" \/ x = StrId "done".

(** The next request to the service fails. *)
Definition nextRequestFails (w : World) : Prop :=
  match server w with
  | Json _ _ :: _ => False
  | _ => True
  end.

Definition isConsoleLog (e : Effect) : bool :=
  match e with ConsoleLog _ => true | _ => false end.

(* ===================================================================== *)
(** * Properties of the calendar functions *)
(* ===================================================================== *)

Ltac ms_constants :=
  change MS_PER_WEEK with 604800000 in *;
  change MS_PER_DAY with 86400000 in *.

Ltac div_lia := Z.div_mod_to_equations; lia.

(** With weeks starting on Monday, the start of the week of [t] is [t]
    minus the time elapsed since Monday 00:00. *)
Lemma startOfWeek_monday (t : Z) :
  startOfWeek 1 t = t - (t + 3 * MS_PER_DAY) mod MS_PER_WEEK.
Proof.
  unfold startOfWeek, startOfDay, addDays, getDay. ms_constants.
  destruct ((t / 86400000 + 4) mod 7 <? 1) eqn:E;
    [apply Z.ltb_lt in E | apply Z.ltb_ge in E]; div_lia.
Qed.

Lemma endOfWeek_monday (t : Z) :
  endOfWeek 1 t = startOfWeek 1 t + MS_PER_WEEK - 1.
Proof.
  rewrite startOfWeek_monday.
  unfold endOfWeek, endOfDay, startOfDay, addDays, getDay. ms_constants.
  destruct ((t / 86400000 + 4) mod 7 <? 1) eqn:E;
    [apply Z.ltb_lt in E | apply Z.ltb_ge in E]; div_lia.
Qed.

Lemma startOfWeek_is_Monday (t : Z) : Monday (startOfWeek 1 t).
Proof.
  unfold Monday. rewrite startOfWeek_monday. ms_constants. div_lia.
Qed.

Lemma startOfWeek_bounds (t : Z) :
  startOfWeek 1 t <= t < startOfWeek 1 t + MS_PER_WEEK.
Proof.
  rewrite startOfWeek_monday. ms_constants. div_lia.
Qed.

Lemma Monday_startOfWeek (s : Z) : Monday s -> startOfWeek 1 s = s.
Proof.
  unfold Monday. rewrite startOfWeek_monday. intros ->. lia.
Qed.

Lemma Monday_endOfWeek (s : Z) : Monday s -> endOfWeek 1 s = s + MS_PER_WEEK - 1.
Proof.
  intros H. rewrite endOfWeek_monday, Monday_startOfWeek by assumption. reflexivity.
Qed.

Lemma Monday_next (s : Z) : Monday s -> Monday (addDays s 7).
Proof.
  unfold Monday, addDays. ms_constants. intros H. div_lia.
Qed.

Lemma addDays_week (s : Z) : addDays s 7 = s + MS_PER_WEEK.
Proof. reflexivity. Qed.

(** Two Mondays are equal or at least a week apart. *)
Lemma Monday_apart (s s' : Z) : Monday s -> Monday s' -> s < s' -> s + MS_PER_WEEK <= s'.
Proof.
  unfold Monday. ms_constants. intros H H' Hlt. div_lia.
Qed.

(* ===================================================================== *)
(** * The parser on examples *)
(* ===================================================================== *)

Example parse_evening : parse "2025-10-19 11:59 PM" = Some (local_time 2025 10 19 23 59).
Proof. reflexivity. Qed.

Example parse_midnight : parse "2025-10-19 12:00 AM" = Some (local_time 2025 10 19 0 0).
Proof. reflexivity. Qed.

Example parse_noon_lowercase : parse "2025-10-19 12:30 pm" = Some (local_time 2025 10 19 12 30).
Proof. reflexivity. Qed.

Example parse_no_time : parse "2025-10-19 " = None.
Proof. reflexivity. Qed.

Example parse_24h_clock : parse "2025-10-19 13:00 PM" = None.
Proof. reflexivity. Qed.

Example parse_no_such_day : parse "2025-02-30 11:59 PM" = None.
Proof. reflexivity. Qed.

Example parse_leap_day : parse "2024-02-29 8:05 am" = Some (local_time 2024 2 29 8 5).
Proof. reflexivity. Qed.

(** The day period in its other spellings: the bare letter of the narrow
    pattern, the marker with dots and a space, and the worded periods. *)
Example parse_bare_letter : parse "2025-10-19 11:59 P" = Some (local_time 2025 10 19 23 59).
Proof. reflexivity. Qed.

Example parse_bare_letter_am : parse "2025-10-19 11:59 a" = Some (local_time 2025 10 19 11 59).
Proof. reflexivity. Qed.

Example parse_dotted_marker : parse "2025-10-19 9:00 p. m." = Some (local_time 2025 10 19 21 0).
Proof. reflexivity. Qed.

Example parse_word_noon : parse "2025-10-19 12:00 noon" = Some (local_time 2025 10 19 12 0).
Proof. reflexivity. Qed.

Example parse_word_midnight :
  parse "2025-10-19 12:00 midnight" = Some (local_time 2025 10 19 0 0).
Proof. reflexivity. Qed.

Example parse_in_the_evening :
  parse "2025-10-19 9:00 in the evening" = Some (local_time 2025 10 19 21 0).
Proof. reflexivity. Qed.

(** "at night" starts with an [a] and is looked up as [am]; a lone "n" has
    no key and counts as the first half of the day. *)
Example parse_at_night : parse "2025-10-19 9:00 at night" = Some (local_time 2025 10 19 9 0).
Proof. reflexivity. Qed.

Example parse_lone_n : parse "2025-10-19 12:00 n" = Some (local_time 2025 10 19 0 0).
Proof. reflexivity. Qed.

(** What does not parse: no day period, text after it, a clock of 24
    hours, a missing space. *)
Example parse_no_day_period : parse "2025-10-19 11:59" = None.
Proof. reflexivity. Qed.

Example parse_text_after : parse "2025-10-19 11:59 PM EST" = None.
Proof. reflexivity. Qed.

Example parse_hour_23 : parse "2025-10-19 23:59" = None.
Proof. reflexivity. Qed.

Example parse_no_space : parse "2025-10-19 11:59PM" = None.
Proof. reflexivity. Qed.

(* ===================================================================== *)
(** * Properties of the sort *)
(* ===================================================================== *)

Lemma insertByDue_perm a l : Permutation (insertByDue a l) (a :: l).
Proof.
  induction l as [|b l IH]; simpl.
  - reflexivity.
  - destruct (due a <=? due b).
    + reflexivity.
    + rewrite IH. apply perm_swap.
Qed.

Lemma sortByDue_perm l : Permutation (sortByDue l) l.
Proof.
  induction l as [|a l IH]; simpl.
  - constructor.
  - rewrite insertByDue_perm. now constructor.
Qed.

Lemma insertByDue_sorted a l :
  StronglySorted leDue l -> StronglySorted leDue (insertByDue a l).
Proof.
  induction 1 as [|b l Hs IH Hb]; simpl.
  - repeat constructor.
  - destruct (due a <=? due b) eqn:E.
    + apply Z.leb_le in E. constructor.
      * now constructor.
      * constructor; [exact E|].
        eapply Forall_impl; [|exact Hb]. unfold leDue. intros; lia.
    + apply Z.leb_gt in E. constructor; [exact IH|].
      eapply Permutation_Forall; [symmetry; apply insertByDue_perm|].
      constructor; [unfold leDue; lia | exact Hb].
Qed.

Lemma sortByDue_sorted l : StronglySorted leDue (sortByDue l).
Proof.
  induction l; simpl; [constructor | now apply insertByDue_sorted].
Qed.

(** Stability: cards with the same due instant keep their relative order. *)
Lemma insertByDue_stable t a l :
  filter (fun x => due x =? t) (insertByDue a l)
  = filter (fun x => due x =? t) (a :: l).
Proof.
  induction l as [|b l IH]; [reflexivity|].
  simpl insertByDue. destruct (due a <=? due b) eqn:E; [reflexivity|].
  apply Z.leb_gt in E. simpl in *. rewrite IH.
  destruct (due a =? t) eqn:Ea, (due b =? t) eqn:Eb; try reflexivity.
  apply Z.eqb_eq in Ea, Eb. lia.
Qed.

Lemma sortByDue_stable t l :
  filter (fun x => due x =? t) (sortByDue l) = filter (fun x => due x =? t) l.
Proof.
  induction l as [|a l IH]; [reflexivity|].
  simpl sortByDue. rewrite insertByDue_stable. simpl. now rewrite IH.
Qed.

(* ===================================================================== *)
(** * Properties of the week loop *)
(* ===================================================================== *)

Lemma filter_nil_Forall {A} (p : A -> bool) (l : list A) :
  Forall (fun x => p x = false) l -> filter p l = [].
Proof.
  induction 1 as [|x l Hx _ IH]; simpl; [reflexivity|]. now rewrite Hx.
Qed.

Lemma filter_all_Forall {A} (p : A -> bool) (l : list A) :
  Forall (fun x => p x = true) l -> filter p l = l.
Proof.
  induction 1 as [|x l Hx _ IH]; simpl; [reflexivity|]. now rewrite Hx, IH.
Qed.

(** In a sorted list the cards of one week come before all later ones. *)
Lemma filter_week_split (s e : Z) (l : list AssignmentWithId.t) :
  StronglySorted leDue l -> s <= e + 1 ->
  filter (inWeek s e) l ++ filter (fun x => e + 1 <=? due x) l
  = filter (fun x => s <=? due x) l.
Proof.
  intros Hs Hse. induction Hs as [|x l Hs IH Hx]; [reflexivity|].
  simpl. unfold inWeek at 1, isWithinInterval.
  destruct (s <=? due x) eqn:E1; simpl.
  - destruct (due x <=? e) eqn:E2; simpl.
    + assert ((e + 1 <=? due x) = false) as -> by lia.
      now rewrite IH.
    + assert ((e + 1 <=? due x) = true) as -> by lia.
      rewrite <- IH.
      rewrite (filter_nil_Forall (inWeek s e) l); [reflexivity|].
      eapply Forall_impl; [|exact Hx].
      unfold leDue, inWeek, isWithinInterval. intros y Hy. lia.
  - assert ((e + 1 <=? due x) = false) as -> by lia. exact IH.
Qed.

Lemma boardsFrom_weaken sorted n lo lo' bs :
  lo' <= lo -> boardsFrom sorted n lo bs -> boardsFrom sorted n lo' bs.
Proof.
  destruct bs as [|b bs]; simpl; [trivial|]. intuition lia.
Qed.

Lemma weekLoop_spec sorted latestDate boards weekNumber currentWeekStart :
  Monday currentWeekStart ->
  exists bs,
    weekLoop sorted latestDate boards weekNumber currentWeekStart = boards ++ bs
    /\ boardsFrom sorted weekNumber currentWeekStart bs
    /\ (StronglySorted leDue sorted ->
        Forall (fun x => due x <= latestDate) sorted ->
        cardsOf bs = filter (fun x => currentWeekStart <=? due x) sorted).
Proof.
  funelim (weekLoop sorted latestDate boards weekNumber currentWeekStart);
    intros Hmon.
  - (* one more turn *)
    rename H into IH.
    specialize (IH (Monday_next _ Hmon)).
    rewrite (Monday_endOfWeek _ Hmon) in *.
    set (weekEnd := currentWeekStart + MS_PER_WEEK - 1) in *.
    set (weekAssignments := filter (inWeek currentWeekStart weekEnd) sorted) in *.
    destruct IH as (bs & Hrun & Hbs & Hcards).
    rewrite addDays_week in *.
    assert (Hsplit : StronglySorted leDue sorted ->
                     weekAssignments ++ filter (fun x => currentWeekStart + MS_PER_WEEK <=? due x) sorted
                     = filter (fun x => currentWeekStart <=? due x) sorted).
    { intros Hs. subst weekAssignments.
      replace (currentWeekStart + MS_PER_WEEK) with (weekEnd + 1) by (subst weekEnd; lia).
      apply filter_week_split; [exact Hs|]. subst weekEnd. ms_constants. lia. }
    destruct (0 <? Z.of_nat (length weekAssignments)) eqn:E; simpl fst in *; simpl snd in *.
    + apply Z.ltb_lt in E.
      eexists (_ :: bs). split; [|split].
      * rewrite Hrun, <- app_assoc. reflexivity.
      * simpl. repeat split; try reflexivity; try lia; try assumption.
        intros Hnil. fold weekAssignments in Hnil. rewrite Hnil in E. simpl in E. lia.
      * intros Hs Hle. unfold cardsOf in *. simpl.
        rewrite (Hcards Hs Hle). apply (Hsplit Hs).
    + apply Z.ltb_ge in E.
      assert (Hnil : weekAssignments = []).
      { destruct weekAssignments; [reflexivity|]. simpl length in E. lia. }
      exists bs. split; [exact Hrun|]. split.
      * apply boardsFrom_weaken with (lo := currentWeekStart + MS_PER_WEEK);
          [ms_constants; lia | exact Hbs].
      * intros Hs Hle. rewrite (Hcards Hs Hle), <- (Hsplit Hs), Hnil. reflexivity.
  - (* the loop is over *)
    exists []. rewrite app_nil_r. repeat split.
    intros _ Hle. unfold cardsOf. simpl. symmetry. apply filter_nil_Forall.
    eapply Forall_impl; [|exact Hle]. simpl. intros x Hx. lia.
Qed.

Lemma sorted_le_last (l : list AssignmentWithId.t) (d : AssignmentWithId.t) :
  StronglySorted leDue l -> Forall (fun x => due x <= due (last l d)) l.
Proof.
  induction 1 as [|x l Hs IH Hx]; [constructor|].
  destruct l as [|y l'].
  - simpl. constructor; [lia | constructor].
  - change (last (x :: y :: l') d) with (last (y :: l') d).
    constructor; [|exact IH].
    inversion Hx as [|? ? Hxy _]; subst. inversion IH as [|? ? Hy _]; subst.
    unfold leDue in Hxy. lia.
Qed.

(** What [weeklyBoards] returns: boards numbered from 1 over Monday-aligned
    windows, whose cards, read board after board, are the sorted list. *)
Lemma weeklyBoards_spec (clock : nat -> Z) (currentData : KanbanData) :
  (exists lo, boardsFrom (sortedCards clock currentData) 1 lo
                (weeklyBoards clock currentData))
  /\ cardsOf (weeklyBoards clock currentData) = sortedCards clock currentData.
Proof.
  unfold weeklyBoards. fold (sortedCards clock currentData).
  pose proof (sortByDue_sorted (assignmentsWithId clock currentData)) as Hs.
  fold (sortedCards clock currentData) in Hs.
  destruct (sortedCards clock currentData) as [|first rest] eqn:E.
  - split; [exists 0; exact I | reflexivity].
  - cbv zeta.
    destruct (weekLoop_spec (first :: rest) (due (last (first :: rest) first)) [] 1
                (startOfWeek 1 (due first)) (startOfWeek_is_Monday _))
      as (bs & Hrun & Hbs & Hcards).
    rewrite Hrun. simpl app. split; [eexists; exact Hbs|].
    rewrite (Hcards Hs (sorted_le_last _ _ Hs)).
    apply filter_all_Forall.
    pose proof (startOfWeek_bounds (due first)) as Hb.
    constructor; [lia|].
    inversion Hs as [|? ? _ Hall]; subst.
    eapply Forall_impl; [|exact Hall]. unfold leDue. intros x Hx. lia.
Qed.

(** The [i]-th board of a chain. *)
Lemma boardsFrom_nth sorted (bs : list WeeklyBoard.t) :
  forall (i : nat) n lo b,
  boardsFrom sorted n lo bs -> nth_error bs i = Some b ->
  WeeklyBoard.weekNumber b = n + Z.of_nat i
  /\ lo + Z.of_nat i * MS_PER_WEEK <= WeeklyBoard.startDate b
  /\ Monday (WeeklyBoard.startDate b)
  /\ WeeklyBoard.endDate b = WeeklyBoard.startDate b + MS_PER_WEEK - 1
  /\ WeeklyBoard.title b
     = boardTitle (WeeklyBoard.weekNumber b) (WeeklyBoard.startDate b)
         (WeeklyBoard.endDate b)
  /\ WeeklyBoard.assignments b
     = filter (inWeek (WeeklyBoard.startDate b) (WeeklyBoard.endDate b)) sorted
  /\ WeeklyBoard.assignments b <> [].
Proof.
  induction bs as [|b0 bs IH]; intros i n lo b Hbs Hnth.
  - destruct i; discriminate.
  - simpl in Hbs. destruct Hbs as (Hn & Hlo & Hmon & Hend & Htitle & Hsel & Hne & Hrest).
    destruct i as [|i]; simpl in Hnth.
    + injection Hnth as <-. rewrite Hn. repeat split; try assumption; lia.
    + destruct (IH i _ _ _ Hrest Hnth) as (H1 & H2 & H3).
      split; [lia|]. split; [|exact H3].
      ms_constants. lia.
Qed.

(** Later boards start at least a week after earlier ones. *)
Lemma boardsFrom_apart sorted (bs : list WeeklyBoard.t) :
  forall (i j : nat) n lo b1 b2,
  boardsFrom sorted n lo bs ->
  nth_error bs i = Some b1 -> nth_error bs j = Some b2 -> (i < j)%nat ->
  WeeklyBoard.startDate b1 + MS_PER_WEEK <= WeeklyBoard.startDate b2.
Proof.
  induction bs as [|b0 bs IH]; intros i j n lo b1 b2 Hbs H1 H2 Hij.
  - destruct i; discriminate.
  - simpl in Hbs. destruct Hbs as (_ & _ & _ & _ & _ & _ & _ & Hrest).
    destruct j as [|j]; [lia|]. simpl in H2.
    destruct i as [|i]; simpl in H1.
    + injection H1 as <-.
      destruct (boardsFrom_nth _ _ _ _ _ _ Hrest H2) as (_ & Hlo & _).
      ms_constants. lia.
    + apply (IH i j _ _ _ _ Hrest H1 H2). lia.
Qed.

Lemma In_cardsOf (bs : list WeeklyBoard.t) (x : AssignmentWithId.t) :
  In x (cardsOf bs)
  <-> exists k b, nth_error bs k = Some b /\ In x (WeeklyBoard.assignments b).
Proof.
  unfold cardsOf. rewrite in_concat. split.
  - intros (l & Hl & Hx). apply in_map_iff in Hl. destruct Hl as (b & <- & Hb).
    apply In_nth_error in Hb. destruct Hb as (k & Hk). now exists k, b.
  - intros (k & b & Hk & Hx). exists (WeeklyBoard.assignments b). split; [|exact Hx].
    apply in_map. eapply nth_error_In; exact Hk.
Qed.

(** A card lies in the window of the board that shows it. *)
Lemma card_in_window sorted n lo bs (k : nat) b x :
  boardsFrom sorted n lo bs -> nth_error bs k = Some b ->
  In x (WeeklyBoard.assignments b) ->
  WeeklyBoard.startDate b <= due x < WeeklyBoard.startDate b + MS_PER_WEEK.
Proof.
  intros Hbs Hk Hx.
  destruct (boardsFrom_nth _ _ _ _ _ _ Hbs Hk) as (_ & _ & _ & Hend & _ & Hsel & _).
  rewrite Hsel in Hx. apply filter_In in Hx. destruct Hx as (_ & Hx).
  unfold inWeek, isWithinInterval in Hx. rewrite Hend in Hx. lia.
Qed.

(** No card is on two boards. *)
Lemma board_of_card_unique sorted n lo bs (i j : nat) b1 b2 x :
  boardsFrom sorted n lo bs ->
  nth_error bs i = Some b1 -> In x (WeeklyBoard.assignments b1) ->
  nth_error bs j = Some b2 -> In x (WeeklyBoard.assignments b2) ->
  i = j.
Proof.
  intros Hbs Hi Hx1 Hj Hx2.
  pose proof (card_in_window _ _ _ _ _ _ _ Hbs Hi Hx1) as W1.
  pose proof (card_in_window _ _ _ _ _ _ _ Hbs Hj Hx2) as W2.
  destruct (Nat.lt_trichotomy i j) as [Hlt | [Heq | Hgt]]; [|exact Heq|].
  - pose proof (boardsFrom_apart _ _ _ _ _ _ _ _ Hbs Hi Hj Hlt). lia.
  - pose proof (boardsFrom_apart _ _ _ _ _ _ _ _ Hbs Hj Hi Hgt). lia.
Qed.

Lemma mapWithClock_length clock i l : length (mapWithClock clock i l) = length l.
Proof.
  revert i. induction l as [|a l IH]; intros i; simpl; [reflexivity|]. now rewrite IH.
Qed.

Lemma mapWithClock_nth clock l :
  forall i k,
  nth_error (mapWithClock clock i l) k
  = option_map (toAssignmentWithId (clock (i + k)%nat)) (nth_error l k).
Proof.
  induction l as [|a l IH]; intros i k.
  - destruct k; reflexivity.
  - destruct k as [|k]; simpl.
    + now rewrite Nat.add_0_r.
    + rewrite IH. now rewrite Nat.add_succ_r.
Qed.

Lemma mapWithClock_fields clock i l :
  map AssignmentWithId.fields (mapWithClock clock i l) = l.
Proof.
  revert i. induction l as [|a l IH]; intros i; simpl; [reflexivity|]. now rewrite IH.
Qed.

Lemma card_on_one_board clock currentData x :
  In x (assignmentsWithId clock currentData) ->
  exists! k, exists b,
    nth_error (weeklyBoards clock currentData) k = Some b
    /\ In x (WeeklyBoard.assignments b).
Proof.
  intros Hx.
  destruct (weeklyBoards_spec clock currentData) as ((lo & Hbs) & Hcards).
  assert (Hin : In x (cardsOf (weeklyBoards clock currentData))).
  { rewrite Hcards. unfold sortedCards.
    eapply Permutation_in; [symmetry; apply sortByDue_perm | exact Hx]. }
  apply In_cardsOf in Hin. destruct Hin as (k & b & Hk & Hb).
  exists k. split; [now exists b|].
  intros k' (b' & Hk' & Hb').
  exact (board_of_card_unique _ _ _ _ _ _ _ _ _ Hbs Hk Hb Hk' Hb').
Qed.

Lemma cards_count clock currentData :
  list_sum (map (fun b => length (WeeklyBoard.assignments b))
                (weeklyBoards clock currentData))
  = length (allAssignments currentData).
Proof.
  destruct (weeklyBoards_spec clock currentData) as (_ & Hcards).
  unfold sortedCards in Hcards.
  rewrite <- (mapWithClock_length clock 0 (allAssignments currentData)).
  fold (assignmentsWithId clock currentData).
  rewrite <- (Permutation_length (sortByDue_perm (assignmentsWithId clock currentData))).
  rewrite <- Hcards. unfold cardsOf. rewrite length_concat, map_map. reflexivity.
Qed.

(** Any assignment in the input gives at least one board. *)
Lemma weeklyBoards_nonempty (clock : nat -> Z) (currentData : KanbanData) :
  allAssignments currentData <> [] -> weeklyBoards clock currentData <> [].
Proof.
  intros Hne Hnil. pose proof (cards_count clock currentData) as Hsum.
  rewrite Hnil in Hsum. simpl in Hsum.
  destruct (allAssignments currentData); [now apply Hne | discriminate].
Qed.

(** C1.  The boards hold the input, each assignment exactly once: read
    board after board, the cards are a rearrangement of the input cards (the
    sorted input, in fact), and without their due instants a rearrangement
    of the input assignments; every input card is on one board and one
    only; and the card counts of the boards add up to the number of input
    assignments.  This holds for every input, the non-empty ones in
    particular. *)
Theorem weeklyBoards_exactly_once (clock : nat -> Z) (currentData : KanbanData) :
  let input := assignmentsWithId clock currentData in
  let boards := weeklyBoards clock currentData in
  cardsOf boards = sortByDue input
  /\ Permutation (cardsOf boards) input
  /\ Permutation (map AssignmentWithId.fields (cardsOf boards))
                 (allAssignments currentData)
  /\ (forall x, In x input ->
      exists! k, exists b,
        nth_error boards k = Some b /\ In x (WeeklyBoard.assignments b))
  /\ list_sum (map (fun b => length (WeeklyBoard.assignments b)) boards)
     = length (allAssignments currentData).
Proof.
  cbv zeta.
  destruct (weeklyBoards_spec clock currentData) as (_ & Hcards).
  unfold sortedCards in Hcards.
  split; [exact Hcards|]. split; [|split; [|split]].
  - rewrite Hcards. apply sortByDue_perm.
  - rewrite Hcards.
    transitivity (map AssignmentWithId.fields (assignmentsWithId clock currentData)).
    + apply Permutation_map, sortByDue_perm.
    + unfold assignmentsWithId. now rewrite mapWithClock_fields.
  - intros x Hx. now apply card_on_one_board.
  - apply cards_count.
Qed.

(** C2.  The [k]-th board (counting from 0) carries week number [k + 1], so
    the numbers rise by one from 1 without gaps; every board has at least
    one card, namely the cards due in its window, so a week without cards
    has no board and takes no number; every window runs from a Monday 00:00 to the last millisecond of the
    following Sunday; and the window of a board ends before the window of
    any later board starts. *)
Theorem weeklyBoards_ordered (clock : nat -> Z) (currentData : KanbanData) :
  let boards := weeklyBoards clock currentData in
  (forall (k : nat) b, nth_error boards k = Some b ->
     WeeklyBoard.weekNumber b = Z.of_nat k + 1
     /\ WeeklyBoard.assignments b <> []
     /\ WeeklyBoard.assignments b
        = filter (inWeek (WeeklyBoard.startDate b) (WeeklyBoard.endDate b))
                 (sortByDue (assignmentsWithId clock currentData))
     /\ Monday (WeeklyBoard.startDate b)
     /\ WeeklyBoard.endDate b = WeeklyBoard.startDate b + MS_PER_WEEK - 1)
  /\ (forall (i j : nat) b1 b2,
        nth_error boards i = Some b1 -> nth_error boards j = Some b2 ->
        (i < j)%nat ->
        WeeklyBoard.weekNumber b1 < WeeklyBoard.weekNumber b2
        /\ WeeklyBoard.startDate b1 <= WeeklyBoard.endDate b1
        /\ WeeklyBoard.endDate b1 < WeeklyBoard.startDate b2).
Proof.
  cbv zeta.
  destruct (weeklyBoards_spec clock currentData) as ((lo & Hbs) & _).
  split.
  - intros k b Hk.
    destruct (boardsFrom_nth _ _ _ _ _ _ Hbs Hk) as (Hn & _ & Hmon & Hend & _ & Hsel & Hne).
    repeat split; try assumption. lia.
  - intros i j b1 b2 Hi Hj Hij.
    destruct (boardsFrom_nth _ _ _ _ _ _ Hbs Hi) as (Hn1 & _ & _ & Hend & _).
    destruct (boardsFrom_nth _ _ _ _ _ _ Hbs Hj) as (Hn2 & _).
    pose proof (boardsFrom_apart _ _ _ _ _ _ _ _ Hbs Hi Hj Hij) as Hapart.
    rewrite Hend. ms_constants. lia.
Qed.

(** C7.  With no assignment in the input there is no board at all. *)
Theorem weeklyBoards_empty (clock : nat -> Z) (currentData : KanbanData) :
  allAssignments currentData = [] -> weeklyBoards clock currentData = [].
Proof.
  intros H. unfold weeklyBoards, assignmentsWithId. rewrite H. reflexivity.
Qed.

(** C3.  The pair "2025-10-19" / "11:59 PM" gets the instant 19 October
    2025, 23:59:00.000 on the local clock, whatever the wall clock reads;
    "2025-10-19" with an empty time does not parse; and an assignment whose
    strings do not parse gets the reading of the wall clock taken while it
    is processed as its instant, and is on one board and one only. *)
Theorem due_instant_parsed_or_now :
  (forall now a,
     Assignment.due_date (CourseAssignment.assignment a) = "2025-10-19" ->
     Assignment.due_time (CourseAssignment.assignment a) = "11:59 PM" ->
     due (toAssignmentWithId now a) = local_time 2025 10 19 23 59)
  /\ (local_time 2025 10 19 23 59 = 1760918340000
      /\ civil_from_days (local_time 2025 10 19 23 59 / MS_PER_DAY) = (2025, 10, 19)
      /\ local_time 2025 10 19 23 59 mod MS_PER_DAY
         = 23 * MS_PER_HOUR + 59 * MS_PER_MINUTE)
  /\ parse ("2025-10-19" ++ " " ++ "") = None
  /\ (forall clock currentData (i : nat) a,
        nth_error (allAssignments currentData) i = Some a ->
        parse (dateTimeString a) = None ->
        let x := AssignmentWithId.mk a (clock i) in
        nth_error (assignmentsWithId clock currentData) i = Some x
        /\ exists! k, exists b,
             nth_error (weeklyBoards clock currentData) k = Some b
             /\ In x (WeeklyBoard.assignments b)).
Proof.
  split; [|split; [|split]].
  - intros now a Hd Ht. unfold toAssignmentWithId, dateTimeString.
    rewrite Hd, Ht. reflexivity.
  - repeat split; reflexivity.
  - reflexivity.
  - intros clock currentData i a Hi Hfail. cbv zeta.
    assert (Hx : nth_error (assignmentsWithId clock currentData) i
                 = Some (AssignmentWithId.mk a (clock i))).
    { unfold assignmentsWithId. rewrite mapWithClock_nth, Hi. simpl.
      unfold toAssignmentWithId. now rewrite Hfail. }
    split; [exact Hx|].
    apply card_on_one_board. eapply nth_error_In; exact Hx.
Qed.

(* ===================================================================== *)
(** * Properties of the status columns *)
(* ===================================================================== *)

Lemma knownStatus_spec a : knownStatus a = true <-> KnownStatus a.
Proof.
  unfold knownStatus, KnownStatus, hasStatus.
  rewrite !orb_true_iff, !String.eqb_eq. tauto.
Qed.

Lemma fold_pushByStatus (l : list AssignmentWithId.t) (b : Buckets) :
  fold_left pushByStatus l b
  = mkBuckets (notStarted b ++ filter (hasStatus NOT_STARTED) l)
              (inProgress b ++ filter (hasStatus IN_PROGRESS) l)
              (done b ++ filter (hasStatus DONE) l).
Proof.
  revert b. induction l as [|a l IH]; intros b.
  - simpl. rewrite !app_nil_r. now destruct b.
  - simpl fold_left. rewrite IH. unfold pushByStatus, hasStatus. simpl filter.
    destruct (String.eqb (AssignmentWithId.status a) NOT_STARTED) eqn:E1.
    + apply String.eqb_eq in E1. rewrite E1. simpl. now rewrite <- app_assoc.
    + destruct (String.eqb (AssignmentWithId.status a) IN_PROGRESS) eqn:E2.
      * apply String.eqb_eq in E2. rewrite E2. simpl. now rewrite <- app_assoc.
      * destruct (String.eqb (AssignmentWithId.status a) DONE) eqn:E3; simpl.
        -- now rewrite <- app_assoc.
        -- reflexivity.
Qed.

Lemma distribute_filter (l : list AssignmentWithId.t) :
  distribute l
  = mkBuckets (filter (hasStatus NOT_STARTED) l)
              (filter (hasStatus IN_PROGRESS) l)
              (filter (hasStatus DONE) l).
Proof. unfold distribute. now rewrite fold_pushByStatus. Qed.

Lemma filter_step {A} (p : A -> bool) (a : A) (l : list A) :
  filter p (a :: l) = if p a then a :: filter p l else filter p l.
Proof. reflexivity. Qed.

Lemma status_values_differ :
  NOT_STARTED <> IN_PROGRESS /\ NOT_STARTED <> DONE /\ IN_PROGRESS <> DONE.
Proof. repeat split; discriminate. Qed.

(** Case analysis on the status of a card: the three tests of the [switch],
    of which at most one succeeds. *)
Ltac by_status a :=
  unfold knownStatus, hasStatus;
  destruct status_values_differ as (D1 & D2 & D3);
  destruct (String.eqb_spec (AssignmentWithId.status a) NOT_STARTED) as [E1|E1];
  destruct (String.eqb_spec (AssignmentWithId.status a) IN_PROGRESS) as [E2|E2];
  destruct (String.eqb_spec (AssignmentWithId.status a) DONE) as [E3|E3];
  try congruence; cbn [orb negb].

(** Every card is in one of the three columns or, when its status is none
    of the three values, in none. *)
Lemma shown_and_dropped (l : list AssignmentWithId.t) :
  Permutation (shown (distribute l) ++ filter (fun a => negb (knownStatus a)) l) l.
Proof.
  rewrite distribute_filter. unfold shown. cbn [notStarted inProgress done].
  rewrite <- !app_assoc.
  induction l as [|a l IH]; [constructor|].
  rewrite !filter_step. by_status a; cbn [app].
  - now constructor.
  - apply Permutation_sym, Permutation_cons_app, Permutation_sym, IH.
  - rewrite app_assoc.
    apply Permutation_sym, Permutation_cons_app. rewrite <- app_assoc.
    apply Permutation_sym, IH.
  - rewrite 2!app_assoc.
    apply Permutation_sym, Permutation_cons_app. rewrite <- 2!app_assoc.
    apply Permutation_sym, IH.
Qed.

Lemma In_shown (l : list AssignmentWithId.t) (a : AssignmentWithId.t) :
  In a (shown (distribute l)) <-> In a l /\ KnownStatus a.
Proof.
  rewrite distribute_filter. unfold shown. cbn [notStarted inProgress done].
  rewrite !in_app_iff, !filter_In. unfold hasStatus, KnownStatus.
  rewrite !String.eqb_eq. tauto.
Qed.

Lemma In_statusColumns (l : list AssignmentWithId.t) (col : Column.t) a :
  In col (statusColumns l) -> In a (Column.assignments col) ->
  In a (shown (distribute l)).
Proof.
  unfold statusColumns, shown. simpl.
  intros [<- | [<- | [<- | []]]]; simpl; rewrite !in_app_iff; tauto.
Qed.

(** C4.  The three arrays are the cards with status NOT_STARTED, with
    status IN_PROGRESS and with status DONE, each in the order of the
    board's sequence ([filter] keeps the order, and the columns of a
    sequence cut in two are the columns of the first part followed by those
    of the second); [setColumns] receives exactly the three columns
    not-started, in-progress, done with those cards; and for cards A, B, C
    with statuses DONE, NOT_STARTED, IN_PROGRESS the columns are [B], [C]
    and [A]. *)
Theorem columns_by_status :
  (forall l,
     distribute l
     = mkBuckets (filter (hasStatus NOT_STARTED) l)
                 (filter (hasStatus IN_PROGRESS) l)
                 (filter (hasStatus DONE) l))
  /\ (forall l1 l2,
        notStarted (distribute (l1 ++ l2))
        = notStarted (distribute l1) ++ notStarted (distribute l2)
        /\ inProgress (distribute (l1 ++ l2))
           = inProgress (distribute l1) ++ inProgress (distribute l2)
        /\ done (distribute (l1 ++ l2))
           = done (distribute l1) ++ done (distribute l2))
  /\ (forall l,
        map Column.id (statusColumns l) = ["not-started"; "in-progress"; "done"]
        /\ map Column.assignments (statusColumns l)
           = [notStarted (distribute l); inProgress (distribute l);
              done (distribute l)])
  /\ (forall A B C,
        AssignmentWithId.status A = DONE ->
        AssignmentWithId.status B = NOT_STARTED ->
        AssignmentWithId.status C = IN_PROGRESS ->
        distribute [A; B; C] = mkBuckets [B] [C] [A]).
Proof.
  split; [exact distribute_filter|]. split; [|split].
  - intros l1 l2. rewrite !distribute_filter. cbn [notStarted inProgress done].
    now rewrite !filter_app.
  - intros l. split; reflexivity.
  - intros A B C HA HB HC. rewrite distribute_filter.
    unfold hasStatus. simpl. rewrite HA, HB, HC. reflexivity.
Qed.

(** C10.  A card whose status is none of the three values is in no column;
    the columns hold exactly the cards of the board with a known status;
    together they are a rearrangement of the board's cards if and only if
    every card has a known status; and in general the number of cards
    shown falls short of the board's by the number of cards with another
    status. *)
Theorem unknown_status_in_no_column (l : list AssignmentWithId.t) :
  (forall a, ~ KnownStatus a ->
     forall col, In col (statusColumns l) -> ~ In a (Column.assignments col))
  /\ (forall a, In a (shown (distribute l)) <-> In a l /\ KnownStatus a)
  /\ (Permutation (shown (distribute l)) l <-> Forall KnownStatus l)
  /\ (length (shown (distribute l))
      + length (filter (fun a => negb (knownStatus a)) l) = length l)%nat.
Proof.
  assert (Hlen : (length (shown (distribute l))
                  + length (filter (fun a => negb (knownStatus a)) l)
                  = length l)%nat).
  { rewrite <- length_app. apply Permutation_length, shown_and_dropped. }
  split; [|split; [|split]].
  - intros a Ha col Hcol Hin.
    apply Ha. exact (proj2 (proj1 (In_shown l a) (In_statusColumns l col a Hcol Hin))).
  - intros a. apply In_shown.
  - split.
    + intros Hperm. apply Permutation_length in Hperm.
      assert (Hnil : filter (fun a => negb (knownStatus a)) l = []).
      { destruct (filter (fun a => negb (knownStatus a)) l); [reflexivity|].
        simpl in Hlen. lia. }
      apply Forall_forall. intros a Ha. apply knownStatus_spec.
      destruct (knownStatus a) eqn:E; [reflexivity|].
      assert (Hin : In a (filter (fun a => negb (knownStatus a)) l)).
      { apply filter_In. split; [exact Ha|]. now rewrite E. }
      rewrite Hnil in Hin. destruct Hin.
    + intros Hall.
      assert (Hnil : filter (fun a => negb (knownStatus a)) l = []).
      { apply filter_nil_Forall. eapply Forall_impl; [|exact Hall].
        intros a Ha. apply knownStatus_spec in Ha. now rewrite Ha. }
      pose proof (shown_and_dropped l) as Hp. rewrite Hnil, app_nil_r in Hp. exact Hp.
  - exact Hlen.
Qed.

(* ===================================================================== *)
(** * Properties of the week selection *)
(* ===================================================================== *)

(** Week numbers identify the boards of a chain. *)
Lemma find_by_weekNumber sorted n lo bs (k : nat) b :
  boardsFrom sorted n lo bs -> nth_error bs k = Some b ->
  find (fun board => WeeklyBoard.weekNumber board =? WeeklyBoard.weekNumber b) bs
  = Some b.
Proof.
  intros Hbs Hk.
  destruct (find _ bs) as [b'|] eqn:F.
  - apply find_some in F. destruct F as (Hin & Heq). apply Z.eqb_eq in Heq.
    apply In_nth_error in Hin. destruct Hin as (k' & Hk').
    destruct (boardsFrom_nth _ _ _ _ _ _ Hbs Hk) as (Hn & _).
    destruct (boardsFrom_nth _ _ _ _ _ _ Hbs Hk') as (Hn' & _).
    assert (k' = k) by lia. subst k'. congruence.
  - pose proof (find_none _ _ F b (nth_error_In _ _ Hk)) as Hb.
    cbv beta in Hb. rewrite Z.eqb_refl in Hb. discriminate.
Qed.

(** At most one board of a chain has [today] in its window. *)
Lemma current_week_unique sorted n lo bs today b1 b2 :
  boardsFrom sorted n lo bs -> In b1 bs -> In b2 bs ->
  isCurrentWeek today b1 = true -> isCurrentWeek today b2 = true -> b1 = b2.
Proof.
  intros Hbs H1 H2 C1 C2.
  apply In_nth_error in H1, H2. destruct H1 as (i & Hi), H2 as (j & Hj).
  destruct (boardsFrom_nth _ _ _ _ _ _ Hbs Hi) as (_ & _ & _ & Hend1 & _).
  destruct (boardsFrom_nth _ _ _ _ _ _ Hbs Hj) as (_ & _ & _ & Hend2 & _).
  unfold isCurrentWeek, isWithinInterval in C1, C2. rewrite Hend1 in C1. rewrite Hend2 in C2.
  destruct (Nat.lt_trichotomy i j) as [Hlt | [Heq | Hgt]].
  - pose proof (boardsFrom_apart _ _ _ _ _ _ _ _ Hbs Hi Hj Hlt). lia.
  - subst j. congruence.
  - pose proof (boardsFrom_apart _ _ _ _ _ _ _ _ Hbs Hj Hi Hgt). lia.
Qed.

(** C9.  With boards available, no week selected yet and the board type
    still [weekly] (its value on load), the effect selects a week number,
    and the board that number designates is the board whose window contains
    the reading [today] of the wall clock, if there is one, and the first
    board otherwise.  The other state cells are left alone. *)
Theorem autoSelect_current_or_first (clock : nat -> Z) (currentData : KanbanData)
  (today : Z) (st : KanbanState) :
  let boards := weeklyBoards clock currentData in
  boards <> [] ->
  selectedWeek st = None ->
  selectedBoardType st = weekly ->
  let st' := autoSelect today boards st in
  (forall b, In b boards -> isCurrentWeek today b = true ->
     selectedWeek st' = Some (WeeklyBoard.weekNumber b)
     /\ selectedBoard boards st' = Some b)
  /\ ((forall b, In b boards -> isCurrentWeek today b = false) ->
      selectedBoard boards st' = hd_error boards)
  /\ selectedBoardType st' = selectedBoardType st
  /\ freshData st' = freshData st
  /\ isRefreshing st' = isRefreshing st.
Proof.
  cbv zeta. intros Hne Hnull Hweekly.
  destruct (weeklyBoards_spec clock currentData) as ((lo & Hbs) & _).
  set (boards := weeklyBoards clock currentData) in *.
  unfold autoSelect. rewrite Hnull, Hweekly.
  destruct boards as [|first rest] eqn:Eb; [congruence|].
  rewrite <- Eb in *. assert (Hlen : (0 <? Z.of_nat (length boards)) = true).
  { rewrite Eb. apply Z.ltb_lt. simpl length. lia. }
  rewrite Hlen. cbn [isNull isWeekly andb].
  destruct (find (isCurrentWeek today) boards) as [currentWeek|] eqn:F.
  - apply find_some in F. destruct F as (Hin & Hcur).
    split; [|split; [|repeat split; cbn; congruence]].
    + intros b Hb Hbcur.
      assert (b = currentWeek) as ->
        by exact (current_week_unique _ _ _ _ _ _ _ Hbs Hb Hin Hbcur Hcur).
      split; [reflexivity|]. unfold selectedBoard. cbn [setSelectedWeek selectedWeek].
      apply In_nth_error in Hin. destruct Hin as (k & Hk).
      exact (find_by_weekNumber _ _ _ _ _ _ Hbs Hk).
    + intros Hnone. rewrite (Hnone _ Hin) in Hcur. discriminate.
  - split; [|split; [|repeat split; cbn; congruence]].
    + intros b Hb Hbcur. rewrite (find_none _ _ F _ Hb) in Hbcur. discriminate.
    + intros _. rewrite Eb. unfold selectedBoard. cbn [setSelectedWeek selectedWeek hd_error].
      rewrite <- Eb.
      apply (find_by_weekNumber _ _ _ _ 0%nat first Hbs). now rewrite Eb.
Qed.

(* ===================================================================== *)
(** * Properties of the course colours *)
(* ===================================================================== *)

Lemma hashLoop_fold (courseCode : string) (hash : Z) :
  hashLoop courseCode hash
  = fold_left rollingStep (map charCode (list_ascii_of_string courseCode)) hash.
Proof.
  revert hash. induction courseCode as [|c rest IH]; intros hash; simpl.
  - reflexivity.
  - now rewrite IH.
Qed.

Lemma ToInt32_range (x : Z) : -2147483648 <= ToInt32 x < 2147483648.
Proof. unfold ToInt32. div_lia. Qed.

Lemma ToInt32_small (x : Z) : -2147483648 <= x < 2147483648 -> ToInt32 x = x.
Proof. unfold ToInt32. intros H. div_lia. Qed.

(** While the hash is small the step is the familiar [31 * hash + code]. *)
Lemma rollingStep_small (hash c : Z) :
  -67108864 <= hash < 67108864 -> rollingStep hash c = c + 31 * hash.
Proof.
  intros H. unfold rollingStep, shl.
  rewrite (ToInt32_small hash) by lia.
  change (5 mod 32) with 5. rewrite Z.shiftl_mul_pow2 by lia.
  change (2 ^ 5) with 32. rewrite ToInt32_small by lia. lia.
Qed.

Lemma charCode_range (c : ascii) : 0 <= charCode c <= 255.
Proof.
  unfold charCode. pose proof (nat_ascii_bounded c). lia.
Qed.

(** The hash grows by less than 2^31 + 256 per character, which is why the
    number arithmetic of the loop is exact on strings of any realistic
    length. *)
Lemma hashLoop_bound (courseCode : string) (hash : Z) :
  Z.abs (hashLoop courseCode hash)
  <= Z.abs hash + Z.of_nat (String.length courseCode) * 2147483904.
Proof.
  revert hash. induction courseCode as [|c rest IH]; intros hash.
  - simpl. lia.
  - cbn [hashLoop String.length]. specialize (IH (charCode c + (shl hash 5 - hash))).
    pose proof (charCode_range c). pose proof (ToInt32_range (Z.shiftl (ToInt32 hash) (5 mod 32))).
    unfold shl in *. lia.
Qed.

Lemma colorIndex_range (courseCode : string) :
  0 <= colorIndex courseCode < Z.of_nat (length colors).
Proof.
  unfold colorIndex. apply Z.mod_pos_bound. simpl. lia.
Qed.

(** C8.  [generateCourseColor] is the function of the specification's
    description; being a function of the course code alone, equal codes get
    equal colours on every call; and its result is always defined and is an
    element of the palette. *)
Theorem generateCourseColor_palette (courseCode : string) :
  generateCourseColor courseCode = paletteColor courseCode
  /\ (forall other, other = courseCode ->
        generateCourseColor other = generateCourseColor courseCode)
  /\ exists color,
       generateCourseColor courseCode = Some color /\ In color colors.
Proof.
  split; [|split].
  - unfold generateCourseColor, paletteColor, colorIndex, rollingHash.
    now rewrite hashLoop_fold.
  - intros other ->. reflexivity.
  - pose proof (colorIndex_range courseCode) as Hr.
    unfold generateCourseColor.
    destruct (nth_error colors (Z.to_nat (colorIndex courseCode))) as [color|] eqn:E.
    + exists color. split; [reflexivity|]. eapply nth_error_In; exact E.
    + apply nth_error_None in E. lia.
Qed.

Example color_CS251 : generateCourseColor "CS 251" = Some "#FFEAA7".
Proof. vm_compute. reflexivity. Qed.

Example color_CS252 : generateCourseColor "CS 252" = Some "#DDA0DD".
Proof. vm_compute. reflexivity. Qed.

(** The hash leaves the 32-bit range: only the shift wraps, not the sum. *)
Example hash_not_wrapped :
  hashLoop "A very long course code name 12345" 0 = 8070353573.
Proof. vm_compute. reflexivity. Qed.

(* ===================================================================== *)
(** * Properties of the drag-end handlers *)
(* ===================================================================== *)

Lemma includes_validColumns (x : UniqueIdentifier) :
  includes validColumns x = true <-> isColumnTarget x.
Proof.
  unfold isColumnTarget. destruct x as [s|n]; simpl.
  - rewrite !orb_true_iff, !String.eqb_eq. split.
    + intros [-> | [-> | [-> | H]]]; auto. discriminate.
    + intros [H | [H | H]]; injection H as ->; auto.
  - split; [discriminate|]. intros [H | [H | H]]; discriminate.
Qed.

Lemma statusMap_some (columnId status : string) :
  statusMap columnId = Some status ->
  includes validColumns (StrId columnId) = true.
Proof.
  unfold statusMap. simpl.
  destruct (String.eqb_spec columnId "not-started") as [->|_]; [reflexivity|].
  destruct (String.eqb_spec columnId "in-progress") as [->|_]; [reflexivity|].
  destruct (String.eqb_spec columnId "done") as [->|_]; [reflexivity|].
  discriminate.
Qed.

Lemma skipn_own_length {A} (l l' : list A) : skipn (length l) (l ++ l') = l'.
Proof. induction l; simpl; auto. Qed.

Lemma newEffects_app (w w' : World) (es : list Effect) :
  trace w' = trace w ++ es -> newEffects w w' = es.
Proof. unfold newEffects. intros ->. apply skipn_own_length. Qed.

(** C5.  When the gesture ends on no drop target, or on one that is not
    one of the three columns, [handleDragEnd] of [WeeklyBoard] returns
    normally having issued no request: it only writes to the console, and
    every state cell, the columns and the pending answers of the service
    are as before.  [handleDragEnd] of [AllAssignmentsBoard] does nothing
    at all. *)
Theorem drop_outside_columns_is_noop (props : KanbanViewProps) (board : WeeklyBoard.t)
  (event : DragEndEvent) (w : World) :
  (forall x, over event = Some x -> ~ isColumnTarget x) ->
  let out := WeeklyBoard_handleDragEnd props board event w in
  fst out = Returned tt
  /\ kanban (snd out) = kanban w
  /\ columns (snd out) = columns w
  /\ server (snd out) = server w
  /\ forallb isConsoleLog (newEffects w (snd out)) = true
  /\ filter isRequest (newEffects w (snd out)) = []
  /\ ~ surfacedToUser w (snd out)
  /\ AllAssignmentsBoard_handleDragEnd props event w = (Returned tt, w).
Proof.
  intros Hover. cbv zeta.
  unfold WeeklyBoard_handleDragEnd, AllAssignmentsBoard_handleDragEnd.
  destruct (over event) as [x|] eqn:E.
  - assert (Hx : includes validColumns x = false).
    { destruct (includes validColumns x) eqn:I; [|reflexivity].
      apply includes_validColumns in I. now destruct (Hover x eq_refl). }
    rewrite Hx. cbn. unfold surfacedToUser.
    rewrite !(newEffects_app w _ [ConsoleLog "Drag end:";
      ConsoleLog "Invalid drop target - returning to original position"])
      by (cbn; now rewrite <- app_assoc).
    repeat split; try reflexivity.
    cbn. intros [H | [H | H]]; congruence.
  - cbn. unfold surfacedToUser.
    rewrite !(newEffects_app w _ [ConsoleLog "Drag end:";
      ConsoleLog "No drop target - returning to original position"])
      by (cbn; now rewrite <- app_assoc).
    repeat split; try reflexivity.
    cbn. intros [H | [H | H]]; congruence.
Qed.

(** A failing request throws, after having been recorded. *)
Lemma request_fails (e : Effect) (w : World) :
  nextRequestFails w ->
  request e w = (Thrown, mkWorld (kanban w) (columns w) (trace w ++ [e]) (tl (server w))).
Proof.
  unfold nextRequestFails, request.
  destruct (server w) as [|[|success data] rest]; intros H;
    [reflexivity | reflexivity | destruct H].
Qed.

Lemma updateAssignmentStatus_fails (assignmentId : Z) (status : string) (w : World) :
  nextRequestFails w ->
  updateAssignmentStatus assignmentId status w
  = (Thrown, mkWorld (kanban w) (columns w)
               (trace w ++ [UpdateAssignmentStatus assignmentId status])
               (tl (server w))).
Proof.
  intros H. unfold updateAssignmentStatus, mbind. now rewrite request_fails.
Qed.

(** C6, as the code has it.  When the card is dropped on a column and the
    status update fails, [handleDragEnd] of [WeeklyBoard] catches the
    failure and returns normally; the state cells, the working copy
    [freshData] among them, and the columns are as before the drag, so the
    move is not reflected; the handler has issued the one update request
    and no other request, so there is no retry and no refetch; and the
    failure has been written to the console with [console.error], while
    nothing has been put in front of the user. *)
Theorem failed_update_is_only_logged (props : KanbanViewProps) (board : WeeklyBoard.t)
  (event : DragEndEvent) (w : World) (columnId newStatus : string)
  (card : AssignmentWithId.t) :
  over event = Some (StrId columnId) ->
  statusMap columnId = Some newStatus ->
  findInColumns (columns w) (active event) = Some card ->
  nextRequestFails w ->
  let out := WeeklyBoard_handleDragEnd props board event w in
  fst out = Returned tt
  /\ kanban (snd out) = kanban w
  /\ columns (snd out) = columns w
  /\ newEffects w (snd out)
     = [ ConsoleLog "Drag end:"; ConsoleLog "Moving assignment:";
         UpdateAssignmentStatus (active event) newStatus;
         ConsoleError "Failed to update assignment status:" ]
  /\ filter isRequest (newEffects w (snd out))
     = [ UpdateAssignmentStatus (active event) newStatus ]
  /\ ~ surfacedToUser w (snd out).
Proof.
  intros Hover Hmap Hfind Hfail. cbv zeta.
  assert (Hout : WeeklyBoard_handleDragEnd props board event w
                 = (Returned tt,
                    mkWorld (kanban w) (columns w)
                      (trace w ++ [ ConsoleLog "Drag end:"; ConsoleLog "Moving assignment:";
                                    UpdateAssignmentStatus (active event) newStatus;
                                    ConsoleError "Failed to update assignment status:" ])
                      (tl (server w)))).
  { unfold WeeklyBoard_handleDragEnd. rewrite Hover.
    rewrite (statusMap_some _ _ Hmap). cbn [negb statusMapAt]. rewrite Hmap.
    unfold mbind at 1. cbn [emit].
    unfold mbind at 1. cbn [emit kanban columns trace server].
    unfold mbind at 1. cbn [getColumns columns]. rewrite Hfind.
    unfold tryCatch, mbind at 1.
    rewrite updateAssignmentStatus_fails by exact Hfail.
    unfold emit. cbn [kanban columns trace server]. rewrite <- !app_assoc. reflexivity. }
  rewrite Hout. cbn [fst snd kanban columns]. unfold surfacedToUser.
  rewrite !(newEffects_app w _
             [ ConsoleLog "Drag end:"; ConsoleLog "Moving assignment:";
               UpdateAssignmentStatus (active event) newStatus;
               ConsoleError "Failed to update assignment status:" ])
    by reflexivity.
  repeat split; try reflexivity.
  cbn. intros [H | [H | H]]; congruence.
Qed.

(* ===================================================================== *)
(** * The sample run *)
(* ===================================================================== *)

(** Five assignments over three calendar weeks, the middle one empty: two
    boards, numbered 1 and 2, with three and two cards. *)
Example sample_boards :
  map (fun b => (WeeklyBoard.weekNumber b, WeeklyBoard.title b,
                 map AssignmentWithId.id (WeeklyBoard.assignments b)))
      (weeklyBoards sampleClock sampleData)
  = [ (1, "Week 1 [10/13 - 10/19]", [1; 3; 2]);
      (2, "Week 2 [10/27 - 11/02]", [4; 5]) ].
Proof. vm_compute. reflexivity. Qed.

(** The columns of the two boards; the card with status ARCHIVED is in none. *)
Example sample_columns :
  map (fun b => map (fun c => (Column.id c, map AssignmentWithId.id (Column.assignments c)))
                    (WeeklyBoard_columns b))
      (weeklyBoards sampleClock sampleData)
  = [ [("not-started", [1]); ("in-progress", [3]); ("done", [2])];
      [("not-started", [4]); ("in-progress", []); ("done", [])] ].
Proof. vm_compute. reflexivity. Qed.

(** A drop on "done" with the service answering: the update, the refetch,
    the callback to the parent, and the working copy replaced. *)
Example sample_successful_move :
  let answer := AssignmentData.mk 7 "Data Structures" "CS 251" [] in
  let w := mkWorld (kanban sampleWorld) (columns sampleWorld) []
                   [Json true None; Json true (Some [answer])] in
  let out := WeeklyBoard_handleDragEnd sampleProps sampleBoard1 dropOnDone w in
  trace (snd out)
  = [ ConsoleLog "Drag end:"; ConsoleLog "Moving assignment:";
      UpdateAssignmentStatus 1 "DONE"; GetAllSyllabi;
      OnDataRefresh (Single answer); ConsoleLog "Assignment moved" ]
  /\ freshData (kanban (snd out)) = Some (Single answer)
  /\ isRefreshing (kanban (snd out)) = false.
Proof. vm_compute. repeat split. Qed.

(** What does reach the user: the confirmation dialog of a delete, and
    the state change of a successful move. *)
Example sample_delete_is_surfaced :
  surfacedToUser sampleWorld
    (snd (AssignmentCard_handleDelete false sampleCard2 sampleWorld)).
Proof. right. right. vm_compute. reflexivity. Qed.

Example sample_successful_move_is_surfaced :
  let answer := AssignmentData.mk 7 "Data Structures" "CS 251" [] in
  let w := mkWorld (kanban sampleWorld) (columns sampleWorld) []
                   [Json true None; Json true (Some [answer])] in
  surfacedToUser w (snd (WeeklyBoard_handleDragEnd sampleProps sampleBoard1 dropOnDone w)).
Proof. left. vm_compute. discriminate. Qed.

(* ===================================================================== *)
(** * The theorems on the sample data *)
(* ===================================================================== *)

Lemma sampleBoard1_nth : nth_error (weeklyBoards sampleClock sampleData) 0 = Some sampleBoard1.
Proof. vm_compute. reflexivity. Defined.

Lemma sampleBoard2_nth : nth_error (weeklyBoards sampleClock sampleData) 1 = Some sampleBoard2.
Proof. vm_compute. reflexivity. Defined.

Lemma sampleCard2_input : In sampleCard2 (assignmentsWithId sampleClock sampleData).
Proof. vm_compute. right. left. reflexivity. Defined.

(** Card 2 of the sample is on exactly one board. *)
Lemma weeklyBoards_exactly_once_witness :
  In sampleCard2 (assignmentsWithId sampleClock sampleData)
  /\ exists! k, exists b,
       nth_error (weeklyBoards sampleClock sampleData) k = Some b
       /\ In sampleCard2 (WeeklyBoard.assignments b).
Proof.
  split; [exact sampleCard2_input|].
  exact (proj1 (proj2 (proj2 (proj2 (weeklyBoards_exactly_once sampleClock sampleData))))
           sampleCard2 sampleCard2_input).
Defined.

(** The two boards of the sample: numbers 1 and 2, and the first window
    ends before the second starts. *)
Lemma weeklyBoards_ordered_witness :
  WeeklyBoard.weekNumber sampleBoard1 < WeeklyBoard.weekNumber sampleBoard2
  /\ WeeklyBoard.startDate sampleBoard1 <= WeeklyBoard.endDate sampleBoard1
  /\ WeeklyBoard.endDate sampleBoard1 < WeeklyBoard.startDate sampleBoard2.
Proof.
  apply (proj2 (weeklyBoards_ordered sampleClock sampleData) 0%nat 1%nat
           sampleBoard1 sampleBoard2 sampleBoard1_nth sampleBoard2_nth).
  repeat constructor.
Defined.

(** Assignment 5 of the sample has no due time: its card carries the clock
    reading and is on exactly one board. *)
Lemma due_instant_parsed_or_now_witness :
  nth_error (assignmentsWithId sampleClock sampleData) 4 = Some sampleCard5
  /\ exists! k, exists b,
       nth_error (weeklyBoards sampleClock sampleData) k = Some b
       /\ In sampleCard5 (WeeklyBoard.assignments b).
Proof.
  apply (proj2 (proj2 (proj2 due_instant_parsed_or_now)) sampleClock sampleData 4%nat
           (withCourse sampleSyllabus (sampleAssignment 5 "2025-10-30" "" "ARCHIVED"))).
  - vm_compute. reflexivity.
  - vm_compute. reflexivity.
Defined.

Lemma weeklyBoards_empty_witness :
  allAssignments (Many []) = [] /\ weeklyBoards sampleClock (Many []) = [].
Proof.
  split; [reflexivity|].
  apply (weeklyBoards_empty sampleClock (Many [])). reflexivity.
Defined.

(** Cards A, B, C with statuses DONE, NOT_STARTED, IN_PROGRESS. *)
Lemma columns_by_status_witness :
  let card id status :=
    AssignmentWithId.mk
      (withCourse sampleSyllabus (sampleAssignment id "2025-10-14" "9:00 AM" status)) 0 in
  distribute [card 1 DONE; card 2 NOT_STARTED; card 3 IN_PROGRESS]
  = mkBuckets [card 2 NOT_STARTED] [card 3 IN_PROGRESS] [card 1 DONE].
Proof.
  cbv zeta.
  apply (proj2 (proj2 (proj2 columns_by_status))); reflexivity.
Defined.

(** Card 5 of the sample, with status ARCHIVED, is in no column of its board. *)
Lemma unknown_status_in_no_column_witness :
  ~ KnownStatus sampleCard5
  /\ In sampleCard5 (WeeklyBoard.assignments sampleBoard2)
  /\ forall col, In col (WeeklyBoard_columns sampleBoard2) ->
                 ~ In sampleCard5 (Column.assignments col).
Proof.
  assert (H : ~ KnownStatus sampleCard5).
  { intros [H | [H | H]]; vm_compute in H; discriminate H. }
  split; [exact H|]. split.
  - vm_compute. right. left. reflexivity.
  - exact (proj1 (unknown_status_in_no_column (WeeklyBoard.assignments sampleBoard2))
             sampleCard5 H).
Defined.

Lemma generateCourseColor_palette_witness :
  generateCourseColor "CS 251" = generateCourseColor "CS 251"
  /\ exists color, generateCourseColor "CS 251" = Some color /\ In color colors.
Proof.
  split.
  - apply (proj1 (proj2 (generateCourseColor_palette "CS 251"))). reflexivity.
  - apply (proj2 (proj2 (generateCourseColor_palette "CS 251"))).
Defined.

(** On Thursday 30 October 2025 the second board of the sample is selected. *)
Lemma autoSelect_current_or_first_witness :
  selectedBoard (weeklyBoards sampleClock sampleData)
    (autoSelect (sampleClock 0) (weeklyBoards sampleClock sampleData) initialKanbanState)
  = Some sampleBoard2.
Proof.
  assert (Hne : weeklyBoards sampleClock sampleData <> []).
  { vm_compute. discriminate. }
  apply (proj1 (autoSelect_current_or_first sampleClock sampleData (sampleClock 0)
                  initialKanbanState Hne eq_refl eq_refl) sampleBoard2).
  - vm_compute. right. left. reflexivity.
  - vm_compute. reflexivity.
Defined.

(** A drop on a card and a drop on nothing change nothing. *)
Lemma drop_outside_columns_is_noop_witness :
  snd (WeeklyBoard_handleDragEnd sampleProps sampleBoard1 dropOnCard sampleWorld)
  = mkWorld (kanban sampleWorld) (columns sampleWorld)
      [ ConsoleLog "Drag end:";
        ConsoleLog "Invalid drop target - returning to original position" ]
      (server sampleWorld)
  /\ filter isRequest
       (newEffects sampleWorld
          (snd (WeeklyBoard_handleDragEnd sampleProps sampleBoard1 dropOnNothing sampleWorld)))
     = [].
Proof.
  split; [vm_compute; reflexivity|].
  apply (drop_outside_columns_is_noop sampleProps sampleBoard1 dropOnNothing sampleWorld).
  intros x Hx. discriminate Hx.
Defined.

(** The drop of card 1 on "done" while the service fails. *)
Lemma failed_update_is_only_logged_witness :
  nextRequestFails sampleWorld
  /\ newEffects sampleWorld
       (snd (WeeklyBoard_handleDragEnd sampleProps sampleBoard1 dropOnDone sampleWorld))
     = [ ConsoleLog "Drag end:"; ConsoleLog "Moving assignment:";
         UpdateAssignmentStatus 1 DONE;
         ConsoleError "Failed to update assignment status:" ].
Proof.
  split; [exact I|].
  refine (proj1 (proj2 (proj2 (proj2
    (failed_update_is_only_logged sampleProps sampleBoard1 dropOnDone sampleWorld
       "done" DONE
       (AssignmentWithId.mk
          (withCourse sampleSyllabus
             (sampleAssignment 1 "2025-10-14" "9:00 AM" "NOT_STARTED"))
          (local_time 2025 10 14 9 0))
       eq_refl eq_refl _ I))))).
  vm_compute. reflexivity.
Defined.

(** C6 as the specification states it fails on the sample: card 1 is
    dropped on "done", the update request is issued and fails, and nothing
    is put in front of the user: no state cell differs, no dialog opens. *)
Lemma failed_update_is_not_surfaced :
  let out := WeeklyBoard_handleDragEnd sampleProps sampleBoard1 dropOnDone sampleWorld in
  nextRequestFails sampleWorld
  /\ In (UpdateAssignmentStatus 1 DONE) (newEffects sampleWorld (snd out))
  /\ ~ surfacedToUser sampleWorld (snd out).
Proof.
  cbv zeta. split; [exact I|]. split.
  - vm_compute. right. right. left. reflexivity.
  - intros [H | [H | H]]; vm_compute in H; [now apply H | now apply H | discriminate H].
Defined.

(* ===================================================================== *)
(** * Further properties: [refreshData] *)
(* ===================================================================== *)

(** One run of [refreshData], whatever the service answers. *)
Lemma refreshData_run (props : KanbanViewProps) (w : World) :
  refreshData props w
  = (Returned tt,
     mkWorld
       (mkKanbanState (selectedWeek (kanban w)) (selectedBoardType (kanban w))
          (Some (fst (refreshOutcome props (hd_error (server w))))) false)
       (columns w)
       (trace w ++ GetAllSyllabi :: snd (refreshOutcome props (hd_error (server w))))
       (tl (server w))).
Proof.
  unfold refreshData, refreshOutcome, getAllSyllabi, request, callOnDataRefresh,
    tryFinally, tryCatch, mbind, setKanban, emit, ret.
  destruct (server w) as [|[|[|] [fresh|]] rest]; cbn;
    try (rewrite <- ?app_assoc; reflexivity).
  destruct (isUnified props); cbn.
  - destruct (onDataRefresh props); cbn; rewrite <- ?app_assoc; reflexivity.
  - destruct (currentSyllabusId (data props)) as [wanted|]; cbn; [|reflexivity].
    destruct (find _ fresh) as [m|]; cbn; [|reflexivity].
    destruct (onDataRefresh props); cbn; rewrite <- ?app_assoc; reflexivity.
Qed.

Lemma newEffects_mk (w : World) k c s (es : list Effect) :
  newEffects w (mkWorld k c (trace w ++ es) s) = es.
Proof. now apply newEffects_app. Qed.

Lemma refreshOutcome_effects (props : KanbanViewProps) (answer : option Response) :
  filter isRequest (snd (refreshOutcome props answer)) = []
  /\ filter isUpdateRequest (snd (refreshOutcome props answer)) = []
  /\ existsb isDialog (snd (refreshOutcome props answer)) = false.
Proof.
  unfold refreshOutcome.
  destruct answer as [[|[|] [fresh|]]|]; cbn; auto.
  destruct (isUnified props); cbn.
  - destruct (onDataRefresh props); cbn; auto.
  - destruct (currentSyllabusId (data props)); cbn; auto.
    destruct (find _ fresh); cbn; auto.
    destruct (onDataRefresh props); cbn; auto.
Qed.

(** X1.  [refreshData] always comes back normally: it sends exactly one
    request, the one for all syllabi, uses up one answer of the service,
    ends with [isRefreshing] false and some working copy in [freshData],
    and touches neither the week selection nor the columns. *)
Theorem refreshData_settles (props : KanbanViewProps) (w : World) :
  let out := refreshData props w in
  fst out = Returned tt
  /\ isRefreshing (kanban (snd out)) = false
  /\ (exists d, freshData (kanban (snd out)) = Some d)
  /\ selectedWeek (kanban (snd out)) = selectedWeek (kanban w)
  /\ selectedBoardType (kanban (snd out)) = selectedBoardType (kanban w)
  /\ columns (snd out) = columns w
  /\ server (snd out) = tl (server w)
  /\ filter isRequest (newEffects w (snd out)) = [GetAllSyllabi].
Proof.
  cbv zeta. rewrite refreshData_run. cbn [fst snd]. rewrite newEffects_mk.
  cbn [kanban columns server trace
    isRefreshing freshData selectedWeek selectedBoardType].
  repeat split; try reflexivity.
  - eexists. reflexivity.
  - cbn [filter isRequest].
    now rewrite (proj1 (refreshOutcome_effects props _)).
Qed.

(** X2.  When the request for the syllabi fails, or its answer does not
    carry [success] together with [data], the working copy becomes the
    [data] prop, whatever copy was held before, and the parent is not
    told. *)
Theorem refreshData_failure_restores_prop (props : KanbanViewProps) (w : World) :
  (forall fresh, hd_error (server w) <> Some (Json true (Some fresh))) ->
  let out := refreshData props w in
  freshData (kanban (snd out)) = Some (data props)
  /\ forall d, ~ In (OnDataRefresh d) (newEffects w (snd out)).
Proof.
  intros Hfail. cbv zeta. rewrite refreshData_run. cbn [fst snd].
  rewrite newEffects_mk. cbn [kanban freshData].
  unfold refreshOutcome.
  destruct (hd_error (server w)) as [[|[|] [fresh|]]|] eqn:E; cbn;
    try (split; [reflexivity | intros d [H | [H | []]]; discriminate H]);
    try (split; [reflexivity | intros d [H | []]; discriminate H]).
  now destruct (Hfail fresh).
Qed.

(** X3.  In the unified view a successful answer becomes the working copy
    as it is, all syllabi of it, and the parent is told of it exactly when
    it passed [onDataRefresh]. *)
Theorem refreshData_unified_success (props : KanbanViewProps) (w : World)
  (freshSyllabi : list AssignmentData.t) :
  isUnified props = true ->
  hd_error (server w) = Some (Json true (Some freshSyllabi)) ->
  let out := refreshData props w in
  freshData (kanban (snd out)) = Some (Many freshSyllabi)
  /\ newEffects w (snd out)
     = GetAllSyllabi
       :: (if onDataRefresh props then [OnDataRefresh (Many freshSyllabi)] else []).
Proof.
  intros Hu Hans. cbv zeta. rewrite refreshData_run. cbn [fst snd].
  rewrite newEffects_mk. cbn [kanban freshData].
  unfold refreshOutcome. rewrite Hans, Hu. cbn. split; reflexivity.
Qed.

(** X4.  In the view of a single syllabus the working copy after a refresh
    is again a single syllabus with the same id: the first syllabus of a
    successful answer that has this id, and the [data] prop itself when
    there is none, for instance because the syllabus is gone from the
    service. *)
Theorem refreshData_single_keeps_syllabus (props : KanbanViewProps) (w : World)
  (syllabus : AssignmentData.t) :
  isUnified props = false ->
  data props = Single syllabus ->
  let out := refreshData props w in
  (exists s, freshData (kanban (snd out)) = Some (Single s)
             /\ AssignmentData.id s = AssignmentData.id syllabus)
  /\ (forall freshSyllabi,
        hd_error (server w) = Some (Json true (Some freshSyllabi)) ->
        (forall s, In s freshSyllabi ->
                   AssignmentData.id s <> AssignmentData.id syllabus) ->
        freshData (kanban (snd out)) = Some (Single syllabus)
        /\ newEffects w (snd out) = [GetAllSyllabi]).
Proof.
  intros Hu Hdata. cbv zeta. rewrite refreshData_run. cbn [fst snd].
  rewrite newEffects_mk. cbn [kanban freshData].
  unfold refreshOutcome. rewrite Hu, Hdata. cbn [currentSyllabusId]. split.
  - destruct (hd_error (server w)) as [[|[|] [fresh|]]|]; cbn;
      try (exists syllabus; split; reflexivity).
    destruct (find _ fresh) as [m|] eqn:F; cbn.
    + apply find_some in F. destruct F as (_ & Hid). apply Z.eqb_eq in Hid.
      exists m. split; [reflexivity | exact Hid].
    + exists syllabus. split; reflexivity.
  - intros fresh Hans Hnone. rewrite Hans.
    destruct (find _ fresh) as [m|] eqn:F; cbn.
    + apply find_some in F. destruct F as (Hin & Hid). apply Z.eqb_eq in Hid.
      now destruct (Hnone m Hin).
    + split; reflexivity.
Qed.

(* ===================================================================== *)
(** * Further properties: the drag-end handlers *)
(* ===================================================================== *)

Lemma updateAssignmentStatus_ok (assignmentId : Z) (status : string) (w : World)
  success body rest :
  server w = Json success body :: rest ->
  updateAssignmentStatus assignmentId status w
  = (Returned tt, mkWorld (kanban w) (columns w)
                    (trace w ++ [UpdateAssignmentStatus assignmentId status]) rest).
Proof.
  intros H. unfold updateAssignmentStatus, mbind, request, ret. rewrite H. reflexivity.
Qed.

(** The [try] block of [handleDragEnd] of [WeeklyBoard]. *)
Lemma WeeklyBoard_try_run (props : KanbanViewProps) (assignmentId weekNumber : Z)
  (newStatus newColumn : string) (w : World) :
  tryCatch
    (updateAssignmentStatus assignmentId newStatus ;;
     refreshData props ;;
     handleAssignmentMove assignmentId newColumn weekNumber)
    (emit (ConsoleError "Failed to update assignment status:")) w
  = match server w with
    | Json _ _ :: rest =>
        (Returned tt,
         mkWorld (refreshed props (hd_error rest) (kanban w)) (columns w)
           (trace w
            ++ UpdateAssignmentStatus assignmentId newStatus :: GetAllSyllabi
               :: snd (refreshOutcome props (hd_error rest))
               ++ [ConsoleLog "Assignment moved"])
           (tl rest))
    | _ =>
        (Returned tt,
         mkWorld (kanban w) (columns w)
           (trace w ++ [ UpdateAssignmentStatus assignmentId newStatus;
                         ConsoleError "Failed to update assignment status:" ])
           (tl (server w)))
    end.
Proof.
  destruct (server w) as [|[|success body] rest] eqn:E.
  - unfold tryCatch, mbind at 1.
    rewrite updateAssignmentStatus_fails by (unfold nextRequestFails; now rewrite E).
    unfold emit. cbn. rewrite E, <- app_assoc. reflexivity.
  - unfold tryCatch, mbind at 1.
    rewrite updateAssignmentStatus_fails by (unfold nextRequestFails; now rewrite E).
    unfold emit. cbn. rewrite E, <- app_assoc. reflexivity.
  - unfold tryCatch, mbind at 1.
    rewrite (updateAssignmentStatus_ok _ _ _ _ _ _ E).
    unfold mbind. rewrite refreshData_run. unfold handleAssignmentMove, emit, refreshed.
    cbn. rewrite <- !app_assoc. reflexivity.
Qed.

(** How [handleDragEnd] of [WeeklyBoard] runs once the target is a column
    and the card is found. *)
Lemma WeeklyBoard_handleDragEnd_found (props : KanbanViewProps) (board : WeeklyBoard.t)
  (event : DragEndEvent) (w : World) (columnId newStatus : string)
  (card : AssignmentWithId.t) :
  over event = Some (StrId columnId) ->
  statusMap columnId = Some newStatus ->
  findInColumns (columns w) (active event) = Some card ->
  WeeklyBoard_handleDragEnd props board event w
  = match server w with
    | Json _ _ :: rest =>
        (Returned tt,
         mkWorld (refreshed props (hd_error rest) (kanban w)) (columns w)
           (trace w
            ++ ConsoleLog "Drag end:" :: ConsoleLog "Moving assignment:"
               :: UpdateAssignmentStatus (active event) newStatus :: GetAllSyllabi
               :: snd (refreshOutcome props (hd_error rest))
               ++ [ConsoleLog "Assignment moved"])
           (tl rest))
    | _ =>
        (Returned tt,
         mkWorld (kanban w) (columns w)
           (trace w ++ [ ConsoleLog "Drag end:"; ConsoleLog "Moving assignment:";
                         UpdateAssignmentStatus (active event) newStatus;
                         ConsoleError "Failed to update assignment status:" ])
           (tl (server w)))
    end.
Proof.
  intros Hover Hmap Hfind.
  unfold WeeklyBoard_handleDragEnd. rewrite Hover.
  rewrite (statusMap_some _ _ Hmap). cbn [negb statusMapAt]. rewrite Hmap.
  unfold mbind at 1. cbn [emit].
  unfold mbind at 1. cbn [emit kanban columns trace server].
  unfold mbind at 1. cbn [getColumns columns]. rewrite Hfind.
  rewrite WeeklyBoard_try_run. cbn [kanban columns trace server].
  destruct (server w) as [|[|success body] rest]; rewrite <- !app_assoc; reflexivity.
Qed.

Lemma includes_statusMap (x : UniqueIdentifier) :
  includes validColumns x = true ->
  exists columnId newStatus, x = StrId columnId /\ statusMap columnId = Some newStatus.
Proof.
  intros H. apply includes_validColumns in H.
  destruct H as [-> | [-> | ->]]; eexists; eexists; split; reflexivity.
Qed.

(** The shapes a run of [handleDragEnd] of [WeeklyBoard] can have. *)
Lemma WeeklyBoard_handleDragEnd_shape (props : KanbanViewProps) (board : WeeklyBoard.t)
  (event : DragEndEvent) (w : World) :
  exists st es srv,
    WeeklyBoard_handleDragEnd props board event w
    = (Returned tt, mkWorld st (columns w) (trace w ++ es) srv)
    /\ selectedWeek st = selectedWeek (kanban w)
    /\ selectedBoardType st = selectedBoardType (kanban w)
    /\ existsb isDialog es = false
    /\ (filter isRequest es = [] /\ st = kanban w /\ srv = server w
        \/ exists columnId newStatus,
             over event = Some (StrId columnId)
             /\ statusMap columnId = Some newStatus
             /\ (filter isRequest es
                 = [UpdateAssignmentStatus (active event) newStatus]
                 /\ st = kanban w /\ nextRequestFails w
                 \/ filter isRequest es
                    = [UpdateAssignmentStatus (active event) newStatus; GetAllSyllabi]
                    /\ ~ nextRequestFails w)).
Proof.
  destruct (over event) as [x|] eqn:Hover.
  - destruct (includes validColumns x) eqn:Hinc.
    + destruct (includes_statusMap x Hinc) as (columnId & newStatus & -> & Hmap).
      destruct (findInColumns (columns w) (active event)) as [card|] eqn:Hfind.
      * rewrite (WeeklyBoard_handleDragEnd_found _ _ _ _ _ _ _ Hover Hmap Hfind).
        destruct (server w) as [|[|success body] rest] eqn:Hsrv.
        -- do 3 eexists. split; [reflexivity|]. repeat split.
           right. exists columnId, newStatus. repeat split; try assumption.
           left. repeat split. unfold nextRequestFails. now rewrite Hsrv.
        -- do 3 eexists. split; [reflexivity|]. repeat split.
           right. exists columnId, newStatus. repeat split; try assumption.
           left. repeat split. unfold nextRequestFails. now rewrite Hsrv.
        -- do 3 eexists. split; [reflexivity|].
           destruct (refreshOutcome_effects props (hd_error rest)) as (Hreq & _ & Hdlg).
           repeat split.
           ++ cbn. rewrite existsb_app, Hdlg. reflexivity.
           ++ right. exists columnId, newStatus. repeat split; try assumption.
              right. split.
              ** cbn. rewrite filter_app, Hreq. reflexivity.
              ** unfold nextRequestFails. rewrite Hsrv. tauto.
      * unfold WeeklyBoard_handleDragEnd. rewrite Hover, Hinc. cbn [negb statusMapAt].
        rewrite Hmap.
        unfold mbind at 1. cbn [emit].
        unfold mbind at 1. cbn [emit kanban columns trace server].
        unfold mbind at 1. cbn [getColumns columns]. rewrite Hfind.
        unfold mbind, emit. cbn. rewrite <- !app_assoc.
        do 3 eexists. split; [reflexivity|]. repeat split. left. repeat split.
    + unfold WeeklyBoard_handleDragEnd. rewrite Hover, Hinc. cbn [negb].
      unfold mbind, emit. cbn. rewrite <- !app_assoc.
      do 3 eexists. split; [reflexivity|]. repeat split. left. repeat split.
  - unfold WeeklyBoard_handleDragEnd. rewrite Hover.
    unfold mbind, emit. cbn. rewrite <- !app_assoc.
    do 3 eexists. split; [reflexivity|]. repeat split. left. repeat split.
Qed.

(** X5.  Whatever the gesture and whatever the service answers,
    [handleDragEnd] of [WeeklyBoard] comes back normally, opens no dialog,
    and leaves the columns, the selected week and the board type as they
    are: it never moves a card itself.  It sends nothing, or one status
    update for the dragged card with the status of the target column, or
    that update followed by one request for the syllabi; the second request
    is sent exactly when the update was answered. *)
Theorem WeeklyBoard_handleDragEnd_frame (props : KanbanViewProps) (board : WeeklyBoard.t)
  (event : DragEndEvent) (w : World) :
  let out := WeeklyBoard_handleDragEnd props board event w in
  fst out = Returned tt
  /\ columns (snd out) = columns w
  /\ selectedWeek (kanban (snd out)) = selectedWeek (kanban w)
  /\ selectedBoardType (kanban (snd out)) = selectedBoardType (kanban w)
  /\ existsb isDialog (newEffects w (snd out)) = false
  /\ (filter isRequest (newEffects w (snd out)) = []
      /\ kanban (snd out) = kanban w /\ server (snd out) = server w
      \/ exists columnId newStatus,
           over event = Some (StrId columnId)
           /\ statusMap columnId = Some newStatus
           /\ (filter isRequest (newEffects w (snd out))
               = [UpdateAssignmentStatus (active event) newStatus]
               /\ kanban (snd out) = kanban w /\ nextRequestFails w
               \/ filter isRequest (newEffects w (snd out))
                  = [UpdateAssignmentStatus (active event) newStatus; GetAllSyllabi]
                  /\ ~ nextRequestFails w)).
Proof.
  cbv zeta.
  destruct (WeeklyBoard_handleDragEnd_shape props board event w)
    as (st & es & srv & -> & Hweek & Htype & Hdlg & Hreq).
  cbn [fst snd kanban columns server]. rewrite newEffects_mk.
  repeat split; assumption.
Qed.

(** X6.  When the card is dropped on a column, is found in the columns and
    the update is answered, the handler sends the update with the status of
    that column, then refetches once, and ends with the state cells exactly
    as [refreshData] leaves them for the second answer: the working copy is
    replaced, the columns are not; the last thing it does is tell the
    parent, which logs. *)
Theorem WeeklyBoard_handleDragEnd_success (props : KanbanViewProps) (board : WeeklyBoard.t)
  (event : DragEndEvent) (w : World) (columnId newStatus : string)
  (card : AssignmentWithId.t) success body rest :
  over event = Some (StrId columnId) ->
  statusMap columnId = Some newStatus ->
  findInColumns (columns w) (active event) = Some card ->
  server w = Json success body :: rest ->
  let out := WeeklyBoard_handleDragEnd props board event w in
  newEffects w (snd out)
  = ConsoleLog "Drag end:" :: ConsoleLog "Moving assignment:"
    :: UpdateAssignmentStatus (active event) newStatus :: GetAllSyllabi
    :: snd (refreshOutcome props (hd_error rest)) ++ [ConsoleLog "Assignment moved"]
  /\ kanban (snd out) = refreshed props (hd_error rest) (kanban w)
  /\ freshData (kanban (snd out)) = Some (fst (refreshOutcome props (hd_error rest)))
  /\ columns (snd out) = columns w
  /\ server (snd out) = tl rest.
Proof.
  intros Hover Hmap Hfind Hsrv. cbv zeta.
  rewrite (WeeklyBoard_handleDragEnd_found _ _ _ _ _ _ _ Hover Hmap Hfind), Hsrv.
  cbn [snd]. rewrite newEffects_mk. repeat split.
Qed.

(** X7.  A drop on a column for a card that is in none of the columns (it
    was deleted from them, say) sends nothing and changes nothing; the
    handler only logs. *)
Theorem WeeklyBoard_handleDragEnd_card_missing (props : KanbanViewProps)
  (board : WeeklyBoard.t) (event : DragEndEvent) (w : World) (x : UniqueIdentifier) :
  over event = Some x ->
  isColumnTarget x ->
  findInColumns (columns w) (active event) = None ->
  let out := WeeklyBoard_handleDragEnd props board event w in
  fst out = Returned tt
  /\ kanban (snd out) = kanban w
  /\ columns (snd out) = columns w
  /\ server (snd out) = server w
  /\ newEffects w (snd out)
     = [ ConsoleLog "Drag end:"; ConsoleLog "Moving assignment:";
         ConsoleLog "Assignment not found:"; ConsoleLog "Available assignments:" ].
Proof.
  intros Hover Hcol Hfind. cbv zeta.
  apply includes_validColumns in Hcol.
  destruct (includes_statusMap x Hcol) as (columnId & newStatus & -> & Hmap).
  assert (Hout : WeeklyBoard_handleDragEnd props board event w
                 = (Returned tt,
                    mkWorld (kanban w) (columns w)
                      (trace w ++ [ ConsoleLog "Drag end:"; ConsoleLog "Moving assignment:";
                                    ConsoleLog "Assignment not found:";
                                    ConsoleLog "Available assignments:" ])
                      (server w))).
  { unfold WeeklyBoard_handleDragEnd. rewrite Hover, Hcol. cbn [negb statusMapAt].
    rewrite Hmap.
    unfold mbind at 1. cbn [emit].
    unfold mbind at 1. cbn [emit kanban columns trace server].
    unfold mbind at 1. cbn [getColumns columns]. rewrite Hfind.
    unfold mbind, emit. cbn. rewrite <- !app_assoc. reflexivity. }
  rewrite Hout. cbn [fst snd kanban columns server]. rewrite newEffects_mk.
  repeat split.
Qed.

(** [handleAllAssignmentsMove] never throws; it always sends the update. *)
Lemma handleAllAssignmentsMove_run (props : KanbanViewProps) (assignmentId : Z)
  (newColumn newStatus : string) (w : World) :
  statusMap newColumn = Some newStatus ->
  handleAllAssignmentsMove props assignmentId newColumn w
  = match server w with
    | Json _ _ :: rest =>
        (Returned tt,
         mkWorld (refreshed props (hd_error rest) (kanban w)) (columns w)
           (trace w
            ++ UpdateAssignmentStatus assignmentId newStatus :: GetAllSyllabi
               :: snd (refreshOutcome props (hd_error rest)))
           (tl rest))
    | _ =>
        (Returned tt,
         mkWorld (kanban w) (columns w)
           (trace w ++ [ UpdateAssignmentStatus assignmentId newStatus;
                         ConsoleError "Failed to update assignment status:" ])
           (tl (server w)))
    end.
Proof.
  intros Hmap. unfold handleAllAssignmentsMove. rewrite Hmap.
  destruct (server w) as [|[|success body] rest] eqn:E.
  - unfold tryCatch, mbind at 1.
    rewrite updateAssignmentStatus_fails by (unfold nextRequestFails; now rewrite E).
    unfold emit. cbn. rewrite E, <- app_assoc. reflexivity.
  - unfold tryCatch, mbind at 1.
    rewrite updateAssignmentStatus_fails by (unfold nextRequestFails; now rewrite E).
    unfold emit. cbn. rewrite E, <- app_assoc. reflexivity.
  - unfold tryCatch, mbind at 1.
    rewrite (updateAssignmentStatus_ok _ _ _ _ _ _ E).
    rewrite refreshData_run. unfold refreshed. cbn. rewrite <- !app_assoc. reflexivity.
Qed.

(** X8.  On the all-assignments board a drop on a column whose update is
    answered makes the handler send that same update a second time: after
    its own update and refetch it calls [handleAllAssignmentsMove], which
    updates and refetches again.  Two identical status updates are sent
    whatever the later answers are. *)
Theorem AllAssignmentsBoard_drop_updates_twice (props : KanbanViewProps)
  (event : DragEndEvent) (w : World) (columnId newStatus : string) success body rest :
  over event = Some (StrId columnId) ->
  statusMap columnId = Some newStatus ->
  server w = Json success body :: rest ->
  let out := AllAssignmentsBoard_handleDragEnd props event w in
  fst out = Returned tt
  /\ filter isUpdateRequest (newEffects w (snd out))
     = [ UpdateAssignmentStatus (active event) newStatus;
         UpdateAssignmentStatus (active event) newStatus ]
  /\ columns (snd out) = columns w.
Proof.
  intros Hover Hmap Hsrv. cbv zeta.
  assert (Hout : exists st es srv,
             AllAssignmentsBoard_handleDragEnd props event w
             = (Returned tt, mkWorld st (columns w) (trace w ++ es) srv)
             /\ filter isUpdateRequest es
                = [ UpdateAssignmentStatus (active event) newStatus;
                    UpdateAssignmentStatus (active event) newStatus ]).
  { unfold AllAssignmentsBoard_handleDragEnd. rewrite Hover.
    rewrite (statusMap_some _ _ Hmap). cbn [negb statusMapAt columnName]. rewrite Hmap.
    unfold tryCatch, mbind at 1.
    rewrite (updateAssignmentStatus_ok _ _ _ _ _ _ Hsrv).
    unfold mbind at 1. rewrite refreshData_run.
    rewrite (handleAllAssignmentsMove_run _ _ _ _ _ Hmap).
    cbn [kanban columns trace server].
    destruct (refreshOutcome_effects props (hd_error rest)) as (_ & Hupd1 & _).
    destruct (tl rest) as [|[|success2 body2] rest2] eqn:E2;
      rewrite <- !app_assoc; do 3 eexists; (split; [reflexivity|]);
      cbn [app filter isUpdateRequest]; rewrite !filter_app, Hupd1; cbn;
      try reflexivity.
    destruct (refreshOutcome_effects props (hd_error rest2)) as (_ & Hupd2 & _).
    now rewrite Hupd2. }
  destruct Hout as (st & es & srv & -> & Hupd).
  cbn [fst snd columns]. rewrite newEffects_mk. repeat split. exact Hupd.
Qed.

(** X9.  On the all-assignments board too a failing update is caught and
    only logged: one request, no refetch, no second attempt, every state
    cell and the columns as before. *)
Theorem AllAssignmentsBoard_failed_update (props : KanbanViewProps)
  (event : DragEndEvent) (w : World) (columnId newStatus : string) :
  over event = Some (StrId columnId) ->
  statusMap columnId = Some newStatus ->
  nextRequestFails w ->
  let out := AllAssignmentsBoard_handleDragEnd props event w in
  fst out = Returned tt
  /\ kanban (snd out) = kanban w
  /\ columns (snd out) = columns w
  /\ newEffects w (snd out)
     = [ UpdateAssignmentStatus (active event) newStatus;
         ConsoleError "Failed to update assignment status:" ].
Proof.
  intros Hover Hmap Hfail. cbv zeta.
  assert (Hout : AllAssignmentsBoard_handleDragEnd props event w
                 = (Returned tt,
                    mkWorld (kanban w) (columns w)
                      (trace w ++ [ UpdateAssignmentStatus (active event) newStatus;
                                    ConsoleError "Failed to update assignment status:" ])
                      (tl (server w)))).
  { unfold AllAssignmentsBoard_handleDragEnd. rewrite Hover.
    rewrite (statusMap_some _ _ Hmap). cbn [negb statusMapAt columnName]. rewrite Hmap.
    unfold tryCatch, mbind at 1.
    rewrite updateAssignmentStatus_fails by exact Hfail.
    unfold emit. cbn [fst snd kanban columns trace server].
    rewrite <- app_assoc. reflexivity. }
  rewrite Hout. cbn [fst snd kanban columns]. rewrite newEffects_mk. repeat split.
Qed.

(* ===================================================================== *)
(** * Further properties: deleting a card *)
(* ===================================================================== *)

Lemma removeFromColumn_cards (assignmentId : Z) (column : Column.t) a :
  In a (Column.assignments (removeFromColumn assignmentId column))
  <-> In a (Column.assignments column) /\ AssignmentWithId.id a <> assignmentId.
Proof.
  unfold removeFromColumn. cbn [Column.assignments]. rewrite filter_In.
  rewrite negb_true_iff, Z.eqb_neq. tauto.
Qed.

Lemma findInColumns_removed (assignmentId : Z) (cols : list Column.t) :
  findInColumns (map (removeFromColumn assignmentId) cols) assignmentId = None.
Proof.
  induction cols as [|c cols IH]; [reflexivity|].
  cbn [map findInColumns].
  destruct (find _ (Column.assignments (removeFromColumn _ c))) as [a|] eqn:F.
  - apply find_some in F. destruct F as (Hin & Hid).
    apply removeFromColumn_cards in Hin. apply Z.eqb_eq in Hid. tauto.
  - exact IH.
Qed.

(** X10.  A confirmed delete on a weekly board is local to the columns:
    afterwards no column holds a card with that id, every other card is in
    the column it was in, the columns keep their ids and titles; nothing
    is sent to the service and the state cells of the view, the working
    copy among them, are as before.  A declined delete changes nothing but
    for the dialog. *)
Theorem WeeklyBoard_delete_is_local (w : World) (assignment : AssignmentWithId.t) :
  let yes := AssignmentCard_handleDelete true assignment w in
  let no := AssignmentCard_handleDelete false assignment w in
  fst yes = Returned tt
  /\ kanban (snd yes) = kanban w
  /\ server (snd yes) = server w
  /\ filter isRequest (newEffects w (snd yes)) = []
  /\ map Column.id (columns (snd yes)) = map Column.id (columns w)
  /\ map Column.title (columns (snd yes)) = map Column.title (columns w)
  /\ (forall (k : nat) before after a,
        nth_error (columns w) k = Some before ->
        nth_error (columns (snd yes)) k = Some after ->
        (In a (Column.assignments after)
         <-> In a (Column.assignments before)
             /\ AssignmentWithId.id a <> AssignmentWithId.id assignment))
  /\ findInColumns (columns (snd yes)) (AssignmentWithId.id assignment) = None
  /\ no = (Returned tt,
           mkWorld (kanban w) (columns w)
             (trace w ++ [WindowConfirm "Are you sure you want to delete?"])
             (server w)).
Proof.
  cbv zeta.
  assert (Hyes : AssignmentCard_handleDelete true assignment w
                 = (Returned tt,
                    mkWorld (kanban w)
                      (map (removeFromColumn (AssignmentWithId.id assignment)) (columns w))
                      (trace w ++ [ WindowConfirm "Are you sure you want to delete?";
                                    ConsoleLog "Assignment deleted from week" ])
                      (server w))).
  { unfold AssignmentCard_handleDelete, WeeklyBoard_handleDeleteAssignment,
      mbind, emit, setColumns. cbn. rewrite <- app_assoc. reflexivity. }
  rewrite Hyes. cbn [fst snd kanban columns server]. rewrite newEffects_mk.
  split; [reflexivity|]. split; [reflexivity|]. split; [reflexivity|].
  split; [reflexivity|]. split; [|split; [|split; [|split]]].
  - rewrite map_map. apply map_ext. reflexivity.
  - rewrite map_map. apply map_ext. reflexivity.
  - intros k before after a Hb Ha. rewrite nth_error_map, Hb in Ha.
    injection Ha as <-. apply removeFromColumn_cards.
  - apply findInColumns_removed.
  - reflexivity.
Qed.

(** X11.  On the all-assignments board a delete asks twice, once in the
    card and once more in the board, and then does nothing: whatever the
    answers, no column changes, no state cell changes and nothing is sent;
    two confirmations only produce a line on the console. *)
Theorem AllAssignmentsBoard_delete_does_nothing (w : World)
  (assignment : AssignmentWithId.t) (confirmedCard confirmedBoard : bool) :
  let out :=
    AssignmentCard_handleDelete_onAllBoard confirmedCard confirmedBoard assignment w in
  fst out = Returned tt
  /\ kanban (snd out) = kanban w
  /\ columns (snd out) = columns w
  /\ server (snd out) = server w
  /\ filter isRequest (newEffects w (snd out)) = []
  /\ length (filter isDialog (newEffects w (snd out)))
     = (if confirmedCard then 2 else 1)%nat.
Proof.
  cbv zeta.
  assert (Hout : exists es,
             AssignmentCard_handleDelete_onAllBoard confirmedCard confirmedBoard
               assignment w
             = (Returned tt, mkWorld (kanban w) (columns w) (trace w ++ es) (server w))
             /\ filter isRequest es = []
             /\ length (filter isDialog es) = (if confirmedCard then 2 else 1)%nat).
  { unfold AssignmentCard_handleDelete_onAllBoard,
      AllAssignmentsBoard_handleDeleteAssignment, handleAllAssignmentsDelete,
      mbind, emit, ret.
    destruct confirmedCard, confirmedBoard; cbn; rewrite <- ?app_assoc;
      eexists; (split; [reflexivity|]); split; reflexivity. }
  destruct Hout as (es & -> & Hreq & Hdlg).
  cbn [fst snd kanban columns server]. rewrite newEffects_mk. repeat split; assumption.
Qed.

(* ===================================================================== *)
(** * Further properties: which board is shown *)
(* ===================================================================== *)

(** X12.  At most one weekly board is marked as the current week. *)
Theorem at_most_one_current_week (clock : nat -> Z) (currentData : KanbanData)
  (today : Z) (b1 b2 : WeeklyBoard.t) :
  In b1 (weeklyBoards clock currentData) ->
  In b2 (weeklyBoards clock currentData) ->
  isCurrentWeek today b1 = true ->
  isCurrentWeek today b2 = true ->
  b1 = b2.
Proof.
  destruct (weeklyBoards_spec clock currentData) as ((lo & Hbs) & _).
  intros H1 H2 C1 C2. exact (current_week_unique _ _ _ _ _ _ _ Hbs H1 H2 C1 C2).
Qed.

(** X13.  A click on the button of a week shows that week: the board found
    for the stored number is the board of the button, the board type is
    [weekly], and the auto-selection leaves the choice alone. *)
Theorem clickWeek_selects_board (clock : nat -> Z) (currentData : KanbanData)
  (today : Z) (board : WeeklyBoard.t) (st : KanbanState) :
  let boards := weeklyBoards clock currentData in
  In board boards ->
  selectedBoard boards (clickWeek board st) = Some board
  /\ selectedBoardType (clickWeek board st) = weekly
  /\ autoSelect today boards (clickWeek board st) = clickWeek board st.
Proof.
  cbv zeta. intros Hin.
  destruct (weeklyBoards_spec clock currentData) as ((lo & Hbs) & _).
  apply In_nth_error in Hin. destruct Hin as (k & Hk).
  split; [|split].
  - unfold selectedBoard, clickWeek. cbn [selectedWeek].
    exact (find_by_weekNumber _ _ _ _ _ _ Hbs Hk).
  - reflexivity.
  - unfold autoSelect, clickWeek. cbn [selectedWeek isNull].
    now rewrite andb_false_r.
Qed.

(** X14.  The selection is a week number, not a week.  Once a number [n] is
    stored the auto-selection never runs again, and the board shown is the
    [n]-th board of the current list, whatever week that now is; when the
    list has fewer than [n] boards no board is shown. *)
Theorem selection_is_by_number (clock : nat -> Z) (currentData : KanbanData)
  (today : Z) (st : KanbanState) (n : Z) :
  let boards := weeklyBoards clock currentData in
  selectedWeek st = Some n ->
  autoSelect today boards st = st
  /\ selectedBoard boards st
     = if (1 <=? n) && (n <=? Z.of_nat (length boards))
       then nth_error boards (Z.to_nat (n - 1))
       else None.
Proof.
  cbv zeta. intros Hsel.
  destruct (weeklyBoards_spec clock currentData) as ((lo & Hbs) & _).
  split.
  - unfold autoSelect. rewrite Hsel. cbn [isNull]. now rewrite andb_false_r.
  - unfold selectedBoard. rewrite Hsel.
    destruct ((1 <=? n) && (n <=? Z.of_nat (length (weeklyBoards clock currentData))))
      eqn:Hrange.
    + apply andb_prop in Hrange. destruct Hrange as (H1 & H2).
      apply Z.leb_le in H1, H2.
      destruct (nth_error (weeklyBoards clock currentData) (Z.to_nat (n - 1)))
        as [b|] eqn:Hk.
      * destruct (boardsFrom_nth _ _ _ _ _ _ Hbs Hk) as (Hn & _).
        replace n with (WeeklyBoard.weekNumber b) by lia.
        exact (find_by_weekNumber _ _ _ _ _ _ Hbs Hk).
      * apply nth_error_None in Hk. lia.
    + destruct (find _ (weeklyBoards clock currentData)) as [b|] eqn:F; [|reflexivity].
      apply find_some in F. destruct F as (Hin & Heq). apply Z.eqb_eq in Heq.
      apply In_nth_error in Hin. destruct Hin as (k & Hk).
      destruct (boardsFrom_nth _ _ _ _ _ _ Hbs Hk) as (Hn & _).
      assert (Hlt : (k < length (weeklyBoards clock currentData))%nat).
      { apply nth_error_Some. now rewrite Hk. }
      apply andb_false_iff in Hrange.
      destruct Hrange as [H | H]; apply Z.leb_gt in H; lia.
Qed.

(* ===================================================================== *)
(** * Further properties: the colour table *)
(* ===================================================================== *)

Lemma In_addToSet (x y : string) (set : list string) :
  In x (addToSet y set) <-> x = y \/ In x set.
Proof.
  induction set as [|z set IH]; simpl.
  - intuition congruence.
  - destruct (String.eqb_spec y z) as [->|Hne]; simpl.
    + intuition congruence.
    + rewrite IH. intuition congruence.
Qed.

Lemma In_fold_addToSet (xs acc : list string) (x : string) :
  In x (fold_left (fun set y => addToSet y set) xs acc) <-> In x xs \/ In x acc.
Proof.
  revert acc. induction xs as [|y xs IH]; intros acc; simpl.
  - tauto.
  - rewrite IH, In_addToSet. intuition congruence.
Qed.

Lemma In_uniqueOf (xs : list string) (x : string) : In x (uniqueOf xs) <-> In x xs.
Proof. unfold uniqueOf. rewrite In_fold_addToSet. simpl. tauto. Qed.

Lemma fold_writeColor (codes : list string) (acc : ColorRecord) :
  colorsOfKeys acc ->
  let result :=
    fold_left (fun colors courseCode =>
                 writeColor courseCode (generateCourseColor courseCode) colors)
              codes acc in
  colorsOfKeys result
  /\ (forall k, (In k codes /\ k <> "__proto__") \/ In k (map fst acc) ->
                In k (map fst result))
  /\ (forall k, In k (map fst result) ->
                (In k codes /\ k <> "__proto__") \/ In k (map fst acc)).
Proof.
  revert acc. induction codes as [|c codes IH]; intros acc Hacc; cbv zeta; simpl.
  - split; [exact Hacc|]. split; tauto.
  - assert (Hw : colorsOfKeys (writeColor c (generateCourseColor c) acc)).
    { unfold writeColor. destruct (String.eqb c "__proto__"); [exact Hacc|].
      constructor; [reflexivity | exact Hacc]. }
    destruct (IH _ Hw) as (H1 & H2 & H3). cbv zeta in H2, H3.
    split; [exact H1|]. split.
    + intros k Hk. apply H2. unfold writeColor.
      destruct (String.eqb_spec c "__proto__") as [->|Hne]; simpl.
      * destruct Hk as [([<- | Hin] & Hp) | Hin]; [congruence | auto | auto].
      * destruct Hk as [([<- | Hin] & Hp) | Hin]; auto.
    + intros k Hk. apply H3 in Hk. unfold writeColor in Hk.
      destruct (String.eqb_spec c "__proto__") as [->|Hne]; simpl in Hk.
      * destruct Hk as [(Hin & Hp) | Hin]; auto.
      * destruct Hk as [(Hin & Hp) | [<- | Hin]]; auto.
Qed.

Lemma readColor_own (k : string) (colors : ColorRecord) :
  colorsOfKeys colors -> In k (map fst colors) -> k <> "__proto__" ->
  readColor k colors = generateCourseColor k.
Proof.
  intros Hinv Hin Hp. unfold readColor.
  destruct (String.eqb_spec k "__proto__") as [->|_]; [congruence|].
  destruct (find _ colors) as [[k' v]|] eqn:F.
  - apply find_some in F. destruct F as (Hin' & Heq). simpl in Heq.
    apply String.eqb_eq in Heq. subst k'.
    unfold colorsOfKeys in Hinv. rewrite Forall_forall in Hinv.
    exact (Hinv _ Hin').
  - apply in_map_iff in Hin. destruct Hin as ([k' v] & Hk & Hin'). simpl in Hk. subst k'.
    pose proof (find_none _ _ F _ Hin') as Hf. simpl in Hf.
    rewrite String.eqb_refl in Hf. discriminate.
Qed.

Lemma readColor_absent (k : string) (colors : ColorRecord) :
  ~ In k (map fst colors) -> readColor k colors = None.
Proof.
  intros Hnot. unfold readColor. destruct (String.eqb k "__proto__"); [reflexivity|].
  destruct (find _ colors) as [[k' v]|] eqn:F; [|reflexivity].
  apply find_some in F. destruct F as (Hin & Heq). simpl in Heq.
  apply String.eqb_eq in Heq. subst k'.
  destruct Hnot. apply in_map_iff. now exists (k, v).
Qed.

Lemma generateCourseColor_some (courseCode : string) :
  exists color, generateCourseColor courseCode = Some color /\ In color colors.
Proof.
  pose proof (colorIndex_range courseCode) as Hr. unfold generateCourseColor.
  destruct (nth_error colors (Z.to_nat (colorIndex courseCode))) as [color|] eqn:E.
  - exists color. split; [reflexivity|]. eapply nth_error_In; exact E.
  - apply nth_error_None in E. lia.
Qed.

(** The course codes on the weekly boards are those of the input. *)
Lemma codes_on_boards (clock : nat -> Z) (currentData : KanbanData) (code : string) :
  In code (flat_map (fun board =>
                       map AssignmentWithId.courseCode (WeeklyBoard.assignments board))
                    (weeklyBoards clock currentData))
  <-> In code (map CourseAssignment.courseCode (allAssignments currentData)).
Proof.
  destruct (weeklyBoards_spec clock currentData) as (_ & Hcards).
  assert (Hperm : Permutation
                    (map AssignmentWithId.fields (cardsOf (weeklyBoards clock currentData)))
                    (allAssignments currentData)).
  { rewrite Hcards. unfold sortedCards.
    transitivity (map AssignmentWithId.fields (assignmentsWithId clock currentData)).
    - apply Permutation_map, sortByDue_perm.
    - unfold assignmentsWithId. now rewrite mapWithClock_fields. }
  rewrite flat_map_concat_map.
  assert (Heq : concat (map (fun board =>
                               map AssignmentWithId.courseCode
                                   (WeeklyBoard.assignments board))
                            (weeklyBoards clock currentData))
                = map CourseAssignment.courseCode
                      (map AssignmentWithId.fields
                           (cardsOf (weeklyBoards clock currentData)))).
  { unfold cardsOf. rewrite map_map, concat_map, map_map. reflexivity. }
  rewrite Heq. split; intros H.
  - eapply Permutation_in; [apply Permutation_map, Hperm | exact H].
  - eapply Permutation_in; [apply Permutation_map, Permutation_sym, Hperm | exact H].
Qed.

(** X15.  The colour table, although built from the weekly boards, has a
    colour for every card of the input, on whichever board it is shown and
    whatever the clock read when the card was made: the colour is the one
    [generateCourseColor] gives for the course code, an element of the
    palette.  The one exception is the course code [__proto__], for which
    the table never has a colour.  The table has no entry for any other
    code. *)
Theorem courseColors_cover_all_cards (clock clock' : nat -> Z)
  (currentData : KanbanData) (isUnified : bool) :
  let table := courseColors (weeklyBoards clock currentData) in
  (forall a,
     In a (AllAssignmentsBoard.assignments
             (allAssignmentsBoard clock' currentData isUnified)) ->
     AssignmentWithId.courseCode a <> "__proto__" ->
     readColor (AssignmentWithId.courseCode a) table
     = generateCourseColor (AssignmentWithId.courseCode a)
     /\ exists color,
          readColor (AssignmentWithId.courseCode a) table = Some color
          /\ In color colors)
  /\ readColor "__proto__" table = None
  /\ (forall code,
        ~ In code (map CourseAssignment.courseCode (allAssignments currentData)) ->
        readColor code table = None).
Proof.
  cbv zeta. unfold courseColors.
  destruct (fold_writeColor
              (uniqueOf (flat_map (fun board =>
                   map AssignmentWithId.courseCode (WeeklyBoard.assignments board))
                   (weeklyBoards clock currentData))) [] (Forall_nil _))
    as (Hinv & Hkeys & Hkeys').
  cbv zeta in Hkeys, Hkeys'. split; [|split].
  - intros a Ha Hp. cbn [allAssignmentsBoard AllAssignmentsBoard.assignments] in Ha.
    assert (Hcode : In (AssignmentWithId.courseCode a)
                       (map CourseAssignment.courseCode (allAssignments currentData))).
    { unfold AssignmentWithId.courseCode. apply in_map.
      rewrite <- (mapWithClock_fields clock' 0 (allAssignments currentData)).
      apply in_map. exact Ha. }
    apply (codes_on_boards clock) in Hcode. apply In_uniqueOf in Hcode.
    assert (Hread : readColor (AssignmentWithId.courseCode a) _
                    = generateCourseColor (AssignmentWithId.courseCode a))
      by (apply (readColor_own _ _ Hinv); [apply Hkeys; left; split; assumption | exact Hp]).
    split; [exact Hread|]. rewrite Hread. apply generateCourseColor_some.
  - reflexivity.
  - intros code Hnot. apply readColor_absent. intros Hin.
    apply Hkeys' in Hin. destruct Hin as [(Hin & _) | []].
    apply In_uniqueOf, codes_on_boards in Hin. contradiction.
Qed.

(* ===================================================================== *)
(** * Further properties: columns, statuses and counts *)
(* ===================================================================== *)

(** X16.  The status a drop on a column asks for is the status that puts a
    card into that column: a card of the board whose status is the one
    mapped to a column id is in the column with that id and in no other
    column.  So once the service has stored the update and the refetch has
    brought it back, the card shows where it was dropped. *)
Theorem status_of_column_round_trip (l : list AssignmentWithId.t)
  (columnId newStatus : string) (a : AssignmentWithId.t) :
  statusMap columnId = Some newStatus ->
  In a l ->
  AssignmentWithId.status a = newStatus ->
  (exists col, columnById columnId (statusColumns l) = Some col
               /\ In a (Column.assignments col))
  /\ (forall col, In col (statusColumns l) ->
                  In a (Column.assignments col) -> Column.id col = columnId).
Proof.
  intros Hmap Hin Hst.
  unfold statusColumns, columnById. rewrite distribute_filter.
  cbn [notStarted inProgress done].
  unfold statusMap in Hmap.
  destruct (String.eqb_spec columnId "not-started") as [->|N1];
    [|destruct (String.eqb_spec columnId "in-progress") as [->|N2];
      [|destruct (String.eqb_spec columnId "done") as [->|N3]; [|discriminate]]];
    injection Hmap as <-; split.
  - eexists. cbn. split; [reflexivity|]. cbn. apply filter_In. split; [exact Hin|].
    unfold hasStatus. rewrite Hst. apply String.eqb_refl.
  - intros col [<- | [<- | [<- | []]]] Ha; cbn in *; [reflexivity | |];
      apply filter_In in Ha; destruct Ha as (_ & Ha); unfold hasStatus in Ha;
      rewrite Hst in Ha; discriminate Ha.
  - eexists. cbn. split; [reflexivity|]. cbn. apply filter_In. split; [exact Hin|].
    unfold hasStatus. rewrite Hst. apply String.eqb_refl.
  - intros col [<- | [<- | [<- | []]]] Ha; cbn in *; [| reflexivity |];
      apply filter_In in Ha; destruct Ha as (_ & Ha); unfold hasStatus in Ha;
      rewrite Hst in Ha; discriminate Ha.
  - eexists. cbn. split; [reflexivity|]. cbn. apply filter_In. split; [exact Hin|].
    unfold hasStatus. rewrite Hst. apply String.eqb_refl.
  - intros col [<- | [<- | [<- | []]]] Ha; cbn in *; [| | reflexivity];
      apply filter_In in Ha; destruct Ha as (_ & Ha); unfold hasStatus in Ha;
      rewrite Hst in Ha; discriminate Ha.
Qed.

Lemma filter_length_perm {A} (p : A -> bool) (l l' : list A) :
  Permutation l l' -> length (filter p l) = length (filter p l').
Proof.
  induction 1 as [|x l l' _ IH|x y l|l l' l'' _ IH1 _ IH2]; simpl.
  - reflexivity.
  - destruct (p x); simpl; now rewrite IH.
  - destruct (p x), (p y); reflexivity.
  - now rewrite IH1.
Qed.

Lemma filter_length_concat {A} (p : A -> bool) (ls : list (list A)) :
  length (filter p (concat ls)) = list_sum (map (fun l => length (filter p l)) ls).
Proof.
  induction ls as [|l ls IH]; simpl; [reflexivity|].
  now rewrite filter_app, length_app, IH.
Qed.

Lemma filter_length_fields (s : string) (l : list AssignmentWithId.t) :
  length (filter (hasStatus s) l)
  = length (filter (fun f => String.eqb
                               (Assignment.status (CourseAssignment.assignment f)) s)
                   (map AssignmentWithId.fields l)).
Proof.
  induction l as [|a l IH]; simpl; [reflexivity|].
  unfold hasStatus at 1, AssignmentWithId.status.
  destruct (String.eqb _ s); simpl; now rewrite IH.
Qed.

(** The cards with a given status: as many on the all-assignments board as
    on the weekly boards together. *)
Lemma status_count_splits (clock clock' : nat -> Z) (currentData : KanbanData)
  (s : string) :
  length (filter (hasStatus s) (assignmentsWithId clock' currentData))
  = list_sum (map (fun b => length (filter (hasStatus s) (WeeklyBoard.assignments b)))
                  (weeklyBoards clock currentData)).
Proof.
  destruct (weeklyBoards_spec clock currentData) as (_ & Hcards).
  rewrite <- (map_map WeeklyBoard.assignments (fun l => length (filter (hasStatus s) l))).
  rewrite <- filter_length_concat. fold (cardsOf (weeklyBoards clock currentData)).
  rewrite Hcards. unfold sortedCards.
  rewrite (filter_length_perm _ _ _ (sortByDue_perm (assignmentsWithId clock currentData))).
  rewrite !filter_length_fields. unfold assignmentsWithId.
  now rewrite !mapWithClock_fields.
Qed.

(** X17.  The counts of the all-assignments board are the sums of the
    counts of the weekly boards, in total and column by column, although
    the two are computed apart and with clock readings of their own. *)
Theorem all_board_counts_are_weekly_sums (clock clock' : nat -> Z)
  (currentData : KanbanData) (isUnified : bool) :
  let everything :=
    AllAssignmentsBoard.assignments (allAssignmentsBoard clock' currentData isUnified) in
  let boards := weeklyBoards clock currentData in
  let sumOver (count : WeeklyBoard.t -> nat) := list_sum (map count boards) in
  length everything = sumOver (fun b => length (WeeklyBoard.assignments b))
  /\ length (notStarted (distribute everything))
     = sumOver (fun b => length (notStarted (distribute (WeeklyBoard.assignments b))))
  /\ length (inProgress (distribute everything))
     = sumOver (fun b => length (inProgress (distribute (WeeklyBoard.assignments b))))
  /\ length (done (distribute everything))
     = sumOver (fun b => length (done (distribute (WeeklyBoard.assignments b)))).
Proof.
  cbv zeta. cbn [allAssignmentsBoard AllAssignmentsBoard.assignments].
  split; [|split; [|split]].
  - rewrite cards_count. unfold assignmentsWithId. apply mapWithClock_length.
  - rewrite distribute_filter. cbn [notStarted].
    rewrite (status_count_splits clock clock'). f_equal. apply map_ext.
    intros b. now rewrite distribute_filter.
  - rewrite distribute_filter. cbn [inProgress].
    rewrite (status_count_splits clock clock'). f_equal. apply map_ext.
    intros b. now rewrite distribute_filter.
  - rewrite distribute_filter. cbn [done].
    rewrite (status_count_splits clock clock'). f_equal. apply map_ext.
    intros b. now rewrite distribute_filter.
Qed.

(* ===================================================================== *)
(** * Further properties: the order and the weeks of the cards *)
(* ===================================================================== *)

Lemma filter_sorted (p : AssignmentWithId.t -> bool) (l : list AssignmentWithId.t) :
  StronglySorted leDue l -> StronglySorted leDue (filter p l).
Proof.
  induction 1 as [|x l Hs IH Hx]; simpl; [constructor|].
  destruct (p x); [|exact IH]. constructor; [exact IH|].
  rewrite Forall_forall in *. intros y Hy. apply filter_In in Hy. now apply Hx.
Qed.

(** X18.  Read board after board the cards are in ascending order of their
    due instants, so every board lists its cards earliest first, and cards
    with the same due instant keep the order they have in the input. *)
Theorem cards_in_due_order (clock : nat -> Z) (currentData : KanbanData) :
  let boards := weeklyBoards clock currentData in
  StronglySorted leDue (cardsOf boards)
  /\ (forall (k : nat) b, nth_error boards k = Some b ->
        StronglySorted leDue (WeeklyBoard.assignments b))
  /\ (forall t,
        filter (fun x => due x =? t) (cardsOf boards)
        = filter (fun x => due x =? t) (assignmentsWithId clock currentData)).
Proof.
  cbv zeta.
  destruct (weeklyBoards_spec clock currentData) as ((lo & Hbs) & Hcards).
  pose proof (sortByDue_sorted (assignmentsWithId clock currentData)) as Hs.
  split; [|split].
  - rewrite Hcards. exact Hs.
  - intros k b Hk.
    destruct (boardsFrom_nth _ _ _ _ _ _ Hbs Hk) as (_ & _ & _ & _ & _ & Hsel & _).
    rewrite Hsel. apply filter_sorted. exact Hs.
  - intros t. rewrite Hcards. apply sortByDue_stable.
Qed.

Lemma Monday_is_startOfWeek (s t : Z) :
  Monday s -> s <= t < s + MS_PER_WEEK -> startOfWeek 1 t = s.
Proof.
  unfold Monday. rewrite startOfWeek_monday. ms_constants. intros H1 H2. div_lia.
Qed.

(** X19.  The window of a board is the calendar week, Monday to Sunday, of
    each of its cards; two cards of the input are on the same board exactly
    when their due instants fall in the same calendar week. *)
Theorem board_is_calendar_week (clock : nat -> Z) (currentData : KanbanData) :
  let boards := weeklyBoards clock currentData in
  (forall (k : nat) b x,
     nth_error boards k = Some b -> In x (WeeklyBoard.assignments b) ->
     WeeklyBoard.startDate b = startOfWeek 1 (due x)
     /\ WeeklyBoard.endDate b = endOfWeek 1 (due x))
  /\ (forall x y,
        In x (assignmentsWithId clock currentData) ->
        In y (assignmentsWithId clock currentData) ->
        ((exists (k : nat) b, nth_error boards k = Some b
                      /\ In x (WeeklyBoard.assignments b)
                      /\ In y (WeeklyBoard.assignments b))
         <-> startOfWeek 1 (due x) = startOfWeek 1 (due y))).
Proof.
  cbv zeta.
  destruct (weeklyBoards_spec clock currentData) as ((lo & Hbs) & Hcards).
  assert (Hweek : forall (k : nat) b x,
             nth_error (weeklyBoards clock currentData) k = Some b ->
             In x (WeeklyBoard.assignments b) ->
             WeeklyBoard.startDate b = startOfWeek 1 (due x)
             /\ WeeklyBoard.endDate b = endOfWeek 1 (due x)).
  { intros k b x Hk Hx.
    destruct (boardsFrom_nth _ _ _ _ _ _ Hbs Hk) as (_ & _ & Hmon & Hend & _).
    pose proof (card_in_window _ _ _ _ _ _ _ Hbs Hk Hx) as Hwin.
    pose proof (Monday_is_startOfWeek _ _ Hmon Hwin) as Hsow.
    split; [now rewrite Hsow|]. rewrite endOfWeek_monday, Hsow. exact Hend. }
  split; [exact Hweek|].
  intros x y Hx Hy. split.
  - intros (k & b & Hk & Hbx & Hby).
    destruct (Hweek _ _ _ Hk Hbx) as (E1 & _). destruct (Hweek _ _ _ Hk Hby) as (E2 & _).
    congruence.
  - intros Hsame.
    destruct (card_on_one_board _ _ _ Hx) as (i & (bx & Hi & Hbx) & _).
    destruct (card_on_one_board _ _ _ Hy) as (j & (by_ & Hj & Hby) & _).
    destruct (Hweek _ _ _ Hi Hbx) as (E1 & _). destruct (Hweek _ _ _ Hj Hby) as (E2 & _).
    assert (i = j).
    { destruct (Nat.lt_trichotomy i j) as [Hlt | [Heq | Hgt]]; [|exact Heq|].
      - pose proof (boardsFrom_apart _ _ _ _ _ _ _ _ Hbs Hi Hj Hlt) as Ha.
        ms_constants. lia.
      - pose proof (boardsFrom_apart _ _ _ _ _ _ _ _ Hbs Hj Hi Hgt) as Ha.
        ms_constants. lia. }
    subst j. assert (by_ = bx) by congruence. subst by_.
    exists i, bx. auto.
Qed.

(** X20.  With assignments in the input there is at least one board, and
    never more boards than assignments. *)
Theorem board_count_bounds (clock : nat -> Z) (currentData : KanbanData) :
  allAssignments currentData <> [] ->
  (1 <= length (weeklyBoards clock currentData)
   <= length (allAssignments currentData))%nat.
Proof.
  intros Hne. split.
  - pose proof (weeklyBoards_nonempty clock currentData Hne) as H.
    destruct (weeklyBoards clock currentData); [congruence | simpl; lia].
  - rewrite <- (cards_count clock currentData).
    destruct (weeklyBoards_spec clock currentData) as ((lo & Hbs) & _).
    revert Hbs. generalize 1, lo.
    induction (weeklyBoards clock currentData) as [|b bs IH]; intros n lo' Hbs.
    + simpl. lia.
    + simpl in Hbs. destruct Hbs as (_ & _ & _ & _ & _ & _ & Hne' & Hrest).
      specialize (IH _ _ Hrest). simpl.
      destruct (WeeklyBoard.assignments b); [congruence | simpl; lia].
Qed.

Lemma Monday_midnight (s : Z) : Monday s -> s mod MS_PER_DAY = 0.
Proof. unfold Monday. ms_constants. intros H. div_lia. Qed.

Lemma Monday_getDay (s : Z) : Monday s -> getDay s = 1 /\ getDay (addDays s 6) = 0.
Proof.
  unfold Monday, getDay, addDays. ms_constants. intros H. split; div_lia.
Qed.

Lemma format_last_day (s : Z) :
  s mod MS_PER_DAY = 0 ->
  format_MM_dd (s + MS_PER_WEEK - 1) = format_MM_dd (addDays s 6).
Proof.
  intros H. unfold format_MM_dd, addDays.
  replace ((s + MS_PER_WEEK - 1) / MS_PER_DAY) with ((s + 6 * MS_PER_DAY) / MS_PER_DAY);
    [reflexivity|].
  ms_constants. div_lia.
Qed.

(** X21.  The title of the [k]-th board (counting from 0) reads
    "Week k+1 [MM/dd - MM/dd]" with the dates of the Monday the window
    starts on and of the Sunday six days later. *)
Theorem board_title (clock : nat -> Z) (currentData : KanbanData) (k : nat)
  (b : WeeklyBoard.t) :
  nth_error (weeklyBoards clock currentData) k = Some b ->
  WeeklyBoard.title b
  = ("Week " ++ decimal (Z.of_nat k + 1)
     ++ " [" ++ format_MM_dd (WeeklyBoard.startDate b)
     ++ " - " ++ format_MM_dd (addDays (WeeklyBoard.startDate b) 6) ++ "]")%string
  /\ getDay (WeeklyBoard.startDate b) = 1
  /\ getDay (addDays (WeeklyBoard.startDate b) 6) = 0.
Proof.
  intros Hk.
  destruct (weeklyBoards_spec clock currentData) as ((lo & Hbs) & _).
  destruct (boardsFrom_nth _ _ _ _ _ _ Hbs Hk) as (Hn & _ & Hmon & Hend & Htitle & _).
  split; [|exact (Monday_getDay _ Hmon)].
  rewrite Htitle, Hend, Hn. unfold boardTitle.
  rewrite (format_last_day _ (Monday_midnight _ Hmon)).
  replace (1 + Z.of_nat k) with (Z.of_nat k + 1) by lia. reflexivity.
Qed.

(* ===================================================================== *)
(** * The earlier version: card ids *)
(* ===================================================================== *)

Lemma append_assoc_string (a b c : string) : ((a ++ b) ++ c = a ++ (b ++ c))%string.
Proof. induction a as [|x a IH]; simpl; [reflexivity | now rewrite IH]. Qed.

Lemma hasDash_append (a b : string) :
  Legacy.hasDash (a ++ b) = Legacy.hasDash a || Legacy.hasDash b.
Proof.
  induction a as [|x a IH]; simpl; [reflexivity|]. now rewrite IH, orb_assoc.
Qed.

Lemma lastField_after_dash (p d : string) :
  Legacy.hasDash d = false -> Legacy.lastField (p ++ String "-" d) = d.
Proof.
  intros Hd. induction p as [|x p IH]; simpl.
  - now rewrite Hd.
  - rewrite hasDash_append. simpl. rewrite orb_true_r. exact IH.
Qed.

Lemma uint_no_dash (u : Decimal.uint) :
  Legacy.hasDash (DecimalString.NilEmpty.string_of_uint u) = false.
Proof. induction u; simpl; auto. Qed.

Lemma decimal_no_dash (n : Z) : 0 <= n -> Legacy.hasDash (decimal n) = false.
Proof.
  intros Hn. unfold decimal. destruct n as [|p|p]; [reflexivity| |lia].
  simpl. unfold DecimalString.NilZero.string_of_uint.
  destruct (Pos.to_uint p); try reflexivity; apply uint_no_dash.
Qed.

Lemma decimal_inj (n m : Z) : decimal n = decimal m -> n = m.
Proof.
  unfold decimal. intros H. apply DecimalZ.to_int_inj.
  assert (Hnil : forall z, Z.to_int z <> Decimal.Pos Decimal.Nil
                           /\ Z.to_int z <> Decimal.Neg Decimal.Nil).
  { intros [|p|p]; simpl; split; try discriminate; intros E; injection E as E;
      now apply DecimalPos.Unsigned.to_uint_nonnil in E. }
  pose proof (DecimalString.NilZero.isi (Z.to_int n) (proj1 (Hnil n)) (proj2 (Hnil n))) as Hn.
  pose proof (DecimalString.NilZero.isi (Z.to_int m) (proj1 (Hnil m)) (proj2 (Hnil m))) as Hm.
  rewrite H in Hn. congruence.
Qed.

Lemma cardId_index (syllabus_id : Z) (index : nat) :
  Legacy.lastField (Legacy.cardId syllabus_id index) = decimal (Z.of_nat index).
Proof.
  unfold Legacy.cardId.
  change ("-" ++ decimal (Z.of_nat index))%string
    with (String "-" (decimal (Z.of_nat index))).
  rewrite <- append_assoc_string.
  apply lastField_after_dash, decimal_no_dash. lia.
Qed.

Lemma mapWithIndex_ids (clock : nat -> Z) (l : list CourseAssignment.t) :
  forall index c,
  In c (Legacy.mapWithIndex clock index l) ->
  exists k, (index <= k)%nat
            /\ Legacy.lastField (Legacy.Card.id c) = decimal (Z.of_nat k).
Proof.
  induction l as [|a l IH]; intros index c Hin; simpl in Hin; [destruct Hin|].
  destruct Hin as [<- | Hin].
  - exists index. split; [lia|]. apply cardId_index.
  - destruct (IH _ _ Hin) as (k & Hk & E). exists k. split; [lia | exact E].
Qed.

Lemma legacy_ids_NoDup (clock : nat -> Z) (l : list CourseAssignment.t) (index : nat) :
  NoDup (map Legacy.Card.id (Legacy.mapWithIndex clock index l)).
Proof.
  revert index. induction l as [|a l IH]; intros index; simpl.
  - constructor.
  - constructor; [|apply IH].
    intros Hin. apply in_map_iff in Hin. destruct Hin as (c & Hid & Hc).
    destruct (mapWithIndex_ids _ _ _ _ Hc) as (k & Hk & E).
    rewrite Hid, cardId_index in E. apply decimal_inj in E. lia.
Qed.

(** X22.  In the earlier version the ids made up for the cards are
    pairwise distinct, whatever the ids of the syllabi: the position of the
    card in the flattened input is the part of the id after its last
    dash. *)
Theorem legacy_card_ids_distinct (clock : nat -> Z) (currentData : KanbanData) :
  NoDup (map Legacy.Card.id (Legacy.assignmentsWithId clock currentData))
  /\ forall (k : nat) c,
       nth_error (Legacy.assignmentsWithId clock currentData) k = Some c ->
       Legacy.lastField (Legacy.Card.id c) = decimal (Z.of_nat k).
Proof.
  unfold Legacy.assignmentsWithId. split.
  - apply legacy_ids_NoDup.
  - assert (H : forall l index (k : nat) c,
               nth_error (Legacy.mapWithIndex clock index l) k = Some c ->
               Legacy.lastField (Legacy.Card.id c) = decimal (Z.of_nat (index + k))).
    { induction l as [|a l IH]; intros index k c Hk.
      - destruct k; discriminate.
      - destruct k as [|k]; simpl in Hk.
        + injection Hk as <-. rewrite Nat.add_0_r. apply cardId_index.
        + rewrite (IH _ _ _ Hk). f_equal. lia. }
    intros k c Hk. exact (H _ _ _ _ Hk).
Qed.

(* ===================================================================== *)
(** * The earlier version: the weekly board *)
(* ===================================================================== *)

Lemma find_by_id (l : list Legacy.Card.t) (c : Legacy.Card.t) :
  NoDup (map Legacy.Card.id l) -> In c l ->
  find (fun a => String.eqb (Legacy.Card.id a) (Legacy.Card.id c)) l = Some c.
Proof.
  induction l as [|x l IH]; intros Hnd Hin; [destruct Hin|].
  simpl in *. inversion Hnd as [|? ? Hx Hnd']; subst.
  destruct Hin as [-> | Hin].
  - now rewrite String.eqb_refl.
  - destruct (String.eqb_spec (Legacy.Card.id x) (Legacy.Card.id c)) as [E|_].
    + destruct Hx. rewrite E. now apply in_map.
    + now apply IH.
Qed.

Lemma allCards_without (assignmentId : string) (cols : list Legacy.Column.t) :
  Legacy.allCards (map (Legacy.withoutCard assignmentId) cols)
  = filter (fun a => negb (String.eqb (Legacy.Card.id a) assignmentId))
           (Legacy.allCards cols).
Proof.
  unfold Legacy.allCards. induction cols as [|col cols IH]; simpl; [reflexivity|].
  now rewrite filter_app, IH.
Qed.

Lemma ids_without (assignmentId : string) (cols : list Legacy.Column.t) :
  map Legacy.Column.id (map (Legacy.withoutCard assignmentId) cols)
  = map Legacy.Column.id cols.
Proof. rewrite map_map. apply map_ext. reflexivity. Qed.

Lemma ids_pushInto (t : string) (c : Legacy.Card.t) (cols : list Legacy.Column.t) :
  map Legacy.Column.id (Legacy.pushInto t c cols) = map Legacy.Column.id cols.
Proof.
  induction cols as [|col cols IH]; simpl; [reflexivity|].
  destruct (String.eqb (Legacy.Column.id col) t); simpl; [reflexivity | now rewrite IH].
Qed.

Lemma allCards_pushInto (t : string) (c : Legacy.Card.t) (cols : list Legacy.Column.t) :
  In t (map Legacy.Column.id cols) ->
  Permutation (Legacy.allCards (Legacy.pushInto t c cols)) (c :: Legacy.allCards cols).
Proof.
  unfold Legacy.allCards. induction cols as [|col cols IH]; intros Hin; [destruct Hin|].
  simpl. destruct (String.eqb_spec (Legacy.Column.id col) t) as [E|Hne]; simpl.
  - rewrite <- app_assoc. simpl. apply Permutation_sym, Permutation_middle.
  - destruct Hin as [E | Hin]; [contradiction|].
    rewrite (IH Hin). apply Permutation_sym, Permutation_middle.
Qed.

(** Keeping some of the cards keeps their ids distinct. *)
Lemma ids_filter_NoDup (keep : Legacy.Card.t -> bool) (cards : list Legacy.Card.t) :
  NoDup (map Legacy.Card.id cards) ->
  NoDup (map Legacy.Card.id (filter keep cards)).
Proof.
  induction cards as [|c cards IH]; simpl; intros Hids; [constructor|].
  apply NoDup_cons_iff in Hids. destruct Hids as (Hfresh & Hrest).
  destruct (keep c); simpl; [|now apply IH].
  constructor; [|now apply IH].
  intros Hin. apply Hfresh. apply in_map_iff in Hin. destruct Hin as (c' & E & Hc').
  apply filter_In in Hc'. apply in_map_iff. exists c'. tauto.
Qed.

Lemma extract_by_id (l : list Legacy.Card.t) (c : Legacy.Card.t) :
  NoDup (map Legacy.Card.id l) -> In c l ->
  Permutation
    (c :: filter (fun a => negb (String.eqb (Legacy.Card.id a) (Legacy.Card.id c))) l) l.
Proof.
  induction l as [|x l IH]; intros Hnd Hin; [destruct Hin|].
  simpl in *. inversion Hnd as [|? ? Hx Hnd']; subst.
  destruct Hin as [-> | Hin].
  - rewrite String.eqb_refl. simpl. constructor.
    rewrite filter_all_Forall; [reflexivity|].
    apply Forall_forall. intros y Hy.
    destruct (String.eqb_spec (Legacy.Card.id y) (Legacy.Card.id c)) as [E|_];
      [|reflexivity].
    destruct Hx. rewrite <- E. now apply in_map.
  - destruct (String.eqb_spec (Legacy.Card.id x) (Legacy.Card.id c)) as [E|_]; simpl.
    + destruct Hx. rewrite E. now apply in_map.
    + rewrite perm_swap. constructor. now apply IH.
Qed.

Lemma existsb_validColumns (t : string) :
  existsb (String.eqb t) validColumns = true <-> In t validColumns.
Proof.
  rewrite existsb_exists. split.
  - intros (x & Hx & E). apply String.eqb_eq in E. now subst.
  - intros H. exists t. split; [exact H | apply String.eqb_refl].
Qed.

Lemma legacy_drag_moves (board : list Legacy.Card.t) (event : Legacy.DragEndEvent)
  (cols : list Legacy.Column.t) (t : string) (c : Legacy.Card.t) :
  Legacy.over event = Some t -> In t validColumns ->
  NoDup (map Legacy.Card.id board) -> In c board ->
  Legacy.Card.id c = Legacy.active event ->
  Legacy.handleDragEnd board event cols
  = Legacy.pushInto t c (map (Legacy.withoutCard (Legacy.Card.id c)) cols).
Proof.
  intros Hover Ht Hnd Hc Hid. unfold Legacy.handleDragEnd. rewrite Hover.
  rewrite (proj2 (existsb_validColumns t) Ht). cbn [negb].
  rewrite <- Hid, (find_by_id _ _ Hnd Hc). reflexivity.
Qed.

Lemma legacy_step_inv (board : list Legacy.Card.t) (cols : list Legacy.Column.t)
  (g : Legacy.Gesture) :
  NoDup (map Legacy.Card.id board) ->
  LegacyInv board cols ->
  LegacyInv board (Legacy.step board cols g)
  /\ (Legacy.isConfirmedDelete g = false ->
      Permutation (Legacy.allCards cols) board ->
      Permutation (Legacy.allCards (Legacy.step board cols g)) board).
Proof.
  intros Hnd (Hids & Hcards & Hincl).
  destruct g as [event | confirmed assignmentId]; simpl.
  - unfold Legacy.handleDragEnd.
    destruct (Legacy.over event) as [t|]; [|repeat split; auto].
    destruct (existsb (String.eqb t) validColumns) eqn:Hvalid;
      cbn [negb]; [|repeat split; auto].
    apply existsb_validColumns in Hvalid.
    destruct (find _ board) as [c|] eqn:F; [|repeat split; auto].
    apply find_some in F. destruct F as (Hc & Hid). apply String.eqb_eq in Hid.
    assert (Hperm : Permutation
              (Legacy.allCards
                 (Legacy.pushInto t c (map (Legacy.withoutCard (Legacy.active event)) cols)))
              (c :: filter (fun a => negb (String.eqb (Legacy.Card.id a)
                                                      (Legacy.active event)))
                           (Legacy.allCards cols))).
    { rewrite allCards_pushInto by (rewrite ids_without, Hids; exact Hvalid).
      now rewrite allCards_without. }
    split; [split; [|split]|].
    + now rewrite ids_pushInto, ids_without.
    + eapply Permutation_NoDup; [apply Permutation_map, Permutation_sym, Hperm|].
      simpl. constructor; [|now apply ids_filter_NoDup].
      intros Hin. apply in_map_iff in Hin. destruct Hin as (y & E & Hy).
      apply filter_In in Hy. destruct Hy as (_ & Hy).
      rewrite <- Hid, E, String.eqb_refl in Hy. discriminate.
    + intros x Hx. eapply Permutation_in in Hx; [|exact Hperm].
      destruct Hx as [<- | Hx]; [exact Hc|].
      apply filter_In in Hx. apply Hincl, Hx.
    + intros _ Hfull. rewrite Hperm, <- Hid.
      rewrite extract_by_id; [exact Hfull | exact Hcards |].
      eapply Permutation_in; [apply Permutation_sym, Hfull | exact Hc].
  - unfold Legacy.handleDelete. destruct confirmed; simpl.
    + split; [|discriminate]. split; [|split].
      * now rewrite ids_without.
      * rewrite allCards_without. now apply ids_filter_NoDup.
      * rewrite allCards_without. intros x Hx. apply filter_In in Hx. apply Hincl, Hx.
    + repeat split; auto.
Qed.

Lemma legacy_fold_inv (board : list Legacy.Card.t) (gestures : list Legacy.Gesture) :
  NoDup (map Legacy.Card.id board) ->
  forall cols,
  LegacyInv board cols ->
  LegacyInv board (fold_left (Legacy.step board) gestures cols)
  /\ (forallb (fun g => negb (Legacy.isConfirmedDelete g)) gestures = true ->
      Permutation (Legacy.allCards cols) board ->
      Permutation (Legacy.allCards (fold_left (Legacy.step board) gestures cols)) board).
Proof.
  intros Hnd. induction gestures as [|g gestures IH]; intros cols Hinv; simpl.
  - split; [exact Hinv | intros _ H; exact H].
  - destruct (legacy_step_inv board cols g Hnd Hinv) as (Hinv' & Hperm').
    destruct (IH _ Hinv') as (IH1 & IH2). split; [exact IH1|].
    intros Hall Hperm. apply andb_prop in Hall. destruct Hall as (Hg & Hall).
    apply negb_true_iff in Hg. exact (IH2 Hall (Hperm' Hg Hperm)).
Qed.

(** X23.  On a weekly board of the earlier version, with distinct card
    ids, no sequence of drags and deletes ever puts a card into two columns
    or brings in a card that is not of the board, and the columns keep
    their three ids; as long as no delete is confirmed, the columns
    together hold exactly the cards of the board. *)
Theorem legacy_gestures_keep_cards (board : list Legacy.Card.t)
  (gestures : list Legacy.Gesture) :
  NoDup (map Legacy.Card.id board) ->
  let cols := Legacy.play board gestures in
  LegacyInv board cols
  /\ (forallb (fun g => negb (Legacy.isConfirmedDelete g)) gestures = true ->
      Permutation (Legacy.allCards cols) board).
Proof.
  intros Hnd. cbv zeta. unfold Legacy.play.
  assert (Hinit : LegacyInv board (Legacy.initialColumns board)
                  /\ Permutation (Legacy.allCards (Legacy.initialColumns board)) board).
  { unfold LegacyInv, Legacy.initialColumns, Legacy.allCards. simpl.
    rewrite app_nil_r. repeat split; auto using incl_refl. }
  destruct Hinit as (Hinv & Hperm).
  destruct (legacy_fold_inv board gestures Hnd _ Hinv) as (H1 & H2).
  split; [exact H1 | intros Hall; exact (H2 Hall Hperm)].
Qed.

Lemma pushInto_nth (t : string) (c : Legacy.Card.t) (cols : list Legacy.Column.t) :
  NoDup (map Legacy.Column.id cols) ->
  forall k : nat,
  nth_error (Legacy.pushInto t c cols) k
  = option_map
      (fun col =>
         if String.eqb (Legacy.Column.id col) t
         then Legacy.Column.mk (Legacy.Column.id col) (Legacy.Column.title col)
                (Legacy.Column.assignments col ++ [c])
         else col)
      (nth_error cols k).
Proof.
  induction cols as [|col cols IH]; intros Hnd k.
  - destruct k; reflexivity.
  - simpl in Hnd. inversion Hnd as [|? ? Hx Hnd']; subst. simpl.
    destruct (String.eqb_spec (Legacy.Column.id col) t) as [E|Hne].
    + destruct k as [|k]; simpl.
      * now rewrite E, String.eqb_refl.
      * destruct (nth_error cols k) as [col'|] eqn:Hk; simpl; [|reflexivity].
        destruct (String.eqb_spec (Legacy.Column.id col') t) as [E'|_]; [|reflexivity].
        destruct Hx. rewrite E, <- E'. apply in_map. eapply nth_error_In; exact Hk.
    + destruct k as [|k]; simpl.
      * destruct (String.eqb_spec (Legacy.Column.id col) t); [contradiction | reflexivity].
      * apply IH, Hnd'.
Qed.

(** X24.  One drag on a weekly board of the earlier version: every column
    loses the dragged card, the target column gets it as its last card, and
    nothing else changes; afterwards the card is in the target column and
    in no other. *)
Theorem legacy_drag_result (board : list Legacy.Card.t) (event : Legacy.DragEndEvent)
  (cols : list Legacy.Column.t) (t : string) (c : Legacy.Card.t) :
  Legacy.over event = Some t -> In t validColumns ->
  NoDup (map Legacy.Card.id board) -> In c board ->
  Legacy.Card.id c = Legacy.active event ->
  map Legacy.Column.id cols = validColumns ->
  let cols' := Legacy.handleDragEnd board event cols in
  (forall (k : nat) col,
     nth_error cols k = Some col ->
     nth_error cols' k
     = Some (Legacy.Column.mk (Legacy.Column.id col) (Legacy.Column.title col)
               (filter (fun a => negb (String.eqb (Legacy.Card.id a) (Legacy.Card.id c)))
                       (Legacy.Column.assignments col)
                ++ (if String.eqb (Legacy.Column.id col) t then [c] else []))))
  /\ (forall col', In col' cols' ->
        (In c (Legacy.Column.assignments col') <-> Legacy.Column.id col' = t)).
Proof.
  intros Hover Ht Hnd Hc Hid Hids. cbv zeta.
  rewrite (legacy_drag_moves _ _ _ _ _ Hover Ht Hnd Hc Hid).
  assert (Hnth : forall (k : nat) col,
             nth_error cols k = Some col ->
             nth_error (Legacy.pushInto t c
                          (map (Legacy.withoutCard (Legacy.Card.id c)) cols)) k
             = Some (Legacy.Column.mk (Legacy.Column.id col) (Legacy.Column.title col)
                       (filter (fun a => negb (String.eqb (Legacy.Card.id a)
                                                          (Legacy.Card.id c)))
                               (Legacy.Column.assignments col)
                        ++ (if String.eqb (Legacy.Column.id col) t then [c] else [])))).
  { intros k col Hk. rewrite pushInto_nth.
    - rewrite nth_error_map, Hk. simpl.
      destruct (String.eqb (Legacy.Column.id col) t); [reflexivity|].
      unfold Legacy.withoutCard. now rewrite app_nil_r.
    - rewrite ids_without, Hids. repeat constructor; simpl; intuition discriminate. }
  split; [exact Hnth|].
  intros col' Hin. apply In_nth_error in Hin. destruct Hin as (k & Hk).
  destruct (nth_error cols k) as [col|] eqn:Hcol.
  - rewrite (Hnth _ _ Hcol) in Hk. injection Hk as <-. simpl.
    rewrite in_app_iff, filter_In, String.eqb_refl. simpl.
    destruct (String.eqb_spec (Legacy.Column.id col) t) as [E|Hne]; simpl.
    + tauto.
    + split; [intros [(_ & H) | []]; discriminate H | contradiction].
  - assert (Hlen : length (Legacy.pushInto t c
                             (map (Legacy.withoutCard (Legacy.Card.id c)) cols))
                   = length cols).
    { rewrite <- (length_map Legacy.Column.id), ids_pushInto, ids_without.
      apply length_map. }
    apply nth_error_None in Hcol.
    assert (k < length cols)%nat; [|lia].
    rewrite <- Hlen. apply nth_error_Some. now rewrite Hk.
Qed.

(* ===================================================================== *)
(** * The earlier version: the all-assignments board *)
(* ===================================================================== *)

Lemma legacy_fold_pushByStatus (st : Legacy.StatusRecord) (l : list Legacy.Card.t)
  (b : Legacy.Buckets) :
  let inColumn c a := String.eqb (Legacy.statusOf st (Legacy.Card.id a)) c in
  fold_left (Legacy.pushByStatus st) l b
  = Legacy.mkBuckets (Legacy.notStarted b ++ filter (inColumn "not-started") l)
                     (Legacy.inProgress b ++ filter (inColumn "in-progress") l)
                     (Legacy.done b ++ filter (inColumn "done") l).
Proof.
  cbv zeta. revert b. induction l as [|a l IH]; intros b.
  - simpl. rewrite !app_nil_r. now destruct b.
  - simpl fold_left. rewrite IH. unfold Legacy.pushByStatus. simpl filter.
    destruct (String.eqb_spec (Legacy.statusOf st (Legacy.Card.id a)) "not-started")
      as [E|N1].
    + rewrite E. simpl. now rewrite <- app_assoc.
    + destruct (String.eqb_spec (Legacy.statusOf st (Legacy.Card.id a)) "in-progress")
        as [E|N2].
      * rewrite E. simpl. now rewrite <- app_assoc.
      * destruct (String.eqb_spec (Legacy.statusOf st (Legacy.Card.id a)) "done")
          as [E|N3]; simpl; [now rewrite <- app_assoc | reflexivity].
Qed.

(** A card is in the array of a column exactly when it is a card of the
    board and the record sends it to that column. *)
Lemma In_legacyBucket (st : Legacy.StatusRecord) (board : list Legacy.Card.t)
  (columnId : string) (a : Legacy.Card.t) :
  In columnId validColumns ->
  (In a (legacyBucket columnId (Legacy.distribute st board))
   <-> In a board /\ Legacy.columnOf st a = Some columnId).
Proof.
  intros Hc. unfold Legacy.distribute. rewrite legacy_fold_pushByStatus. cbv zeta.
  unfold legacyBucket, Legacy.columnOf. cbn [Legacy.notStarted Legacy.inProgress
    Legacy.done app].
  destruct Hc as [<- | [<- | [<- | []]]]; cbn [String.eqb Ascii.eqb Bool.eqb];
    rewrite filter_In;
    (split; intros (Hin & H); (split; [exact Hin|]));
    [ apply String.eqb_eq in H; rewrite H; reflexivity
    | destruct (existsb _ validColumns); [injection H as ->; apply String.eqb_refl
                                         | discriminate]
    | apply String.eqb_eq in H; rewrite H; reflexivity
    | destruct (existsb _ validColumns); [injection H as ->; apply String.eqb_refl
                                         | discriminate]
    | apply String.eqb_eq in H; rewrite H; reflexivity
    | destruct (existsb _ validColumns); [injection H as ->; apply String.eqb_refl
                                         | discriminate] ].
Qed.

(** X25.  A drop on a column of the earlier all-assignments board sends
    the cards with the dragged id to that column, where the recomputed
    columns show them, and leaves every other card in the column it had; a
    drop anywhere else changes nothing. *)
Theorem legacy_all_drop (statuses : Legacy.StatusRecord) (event : Legacy.DragEndEvent)
  (board : list Legacy.Card.t) :
  let statuses' := Legacy.all_handleDragEnd event statuses in
  (forall t, Legacy.over event = Some t -> In t validColumns ->
     (forall a, Legacy.Card.id a = Legacy.active event ->
        Legacy.columnOf statuses' a = Some t
        /\ (In a board -> In a (legacyBucket t (Legacy.distribute statuses' board))))
     /\ (forall a, Legacy.Card.id a <> Legacy.active event ->
           Legacy.columnOf statuses' a = Legacy.columnOf statuses a))
  /\ ((forall t, Legacy.over event = Some t -> ~ In t validColumns) ->
      statuses' = statuses).
Proof.
  cbv zeta. unfold Legacy.all_handleDragEnd. split.
  - intros t Hover Ht. rewrite Hover.
    rewrite (proj2 (existsb_validColumns t) Ht). cbn [negb].
    unfold Legacy.handleAllAssignmentsMove.
    assert (Hcol : forall a, Legacy.Card.id a = Legacy.active event ->
                     Legacy.columnOf ((Legacy.active event, t) :: statuses) a = Some t).
    { intros a Ha. unfold Legacy.columnOf, Legacy.statusOf. cbn [find fst].
      rewrite Ha, String.eqb_refl.
      destruct (String.eqb_spec t "") as [->|_].
      - destruct Ht as [H | [H | [H | []]]]; discriminate H.
      - now rewrite (proj2 (existsb_validColumns t) Ht). }
    split.
    + intros a Ha. split; [exact (Hcol a Ha)|].
      intros Hin. apply (In_legacyBucket _ _ _ _ Ht). split; [exact Hin | exact (Hcol a Ha)].
    + intros a Ha. unfold Legacy.columnOf, Legacy.statusOf. cbn [find fst].
      destruct (String.eqb_spec (Legacy.active event) (Legacy.Card.id a)) as [E|_];
        [congruence | reflexivity].
  - intros Hnot. destruct (Legacy.over event) as [t|]; [|reflexivity].
    destruct (existsb (String.eqb t) validColumns) eqn:E; [|reflexivity].
    apply existsb_validColumns in E. now destruct (Hnot t eq_refl).
Qed.

Lemma find_after_delete (assignmentId key : string) (st : Legacy.StatusRecord) :
  find (fun p => String.eqb (fst p) key) (Legacy.handleAllAssignmentsDelete assignmentId st)
  = if String.eqb key assignmentId then None
    else find (fun p => String.eqb (fst p) key) st.
Proof.
  unfold Legacy.handleAllAssignmentsDelete.
  induction st as [|[k v] st IH]; simpl.
  - now destruct (String.eqb key assignmentId).
  - destruct (String.eqb_spec k assignmentId) as [->|Hne]; simpl.
    + rewrite IH. destruct (String.eqb_spec key assignmentId) as [->|Hk].
      * reflexivity.
      * destruct (String.eqb_spec assignmentId key); [congruence | reflexivity].
    + destruct (String.eqb_spec k key) as [->|Hk].
      * destruct (String.eqb_spec key assignmentId); [congruence | reflexivity].
      * exact IH.
Qed.

(** X26.  A delete on the earlier all-assignments board, confirmed twice,
    removes no card: it forgets the column of the cards with that id, which
    sends them back to "not-started", and leaves every other card where it
    is; unless both questions are confirmed nothing changes. *)
Theorem legacy_all_delete_resets (statuses : Legacy.StatusRecord) (assignmentId : string)
  (confirmedCard confirmedBoard : bool) (board : list Legacy.Card.t) :
  let statuses' :=
    Legacy.all_handleDelete confirmedCard confirmedBoard assignmentId statuses in
  (confirmedCard && confirmedBoard = true ->
     (forall a, Legacy.Card.id a = assignmentId ->
        Legacy.columnOf statuses' a = Some "not-started"
        /\ (In a board ->
            In a (legacyBucket "not-started" (Legacy.distribute statuses' board))))
     /\ (forall a, Legacy.Card.id a <> assignmentId ->
           Legacy.columnOf statuses' a = Legacy.columnOf statuses a))
  /\ (confirmedCard && confirmedBoard = false -> statuses' = statuses).
Proof.
  cbv zeta. unfold Legacy.all_handleDelete. split.
  - intros ->.
    assert (Hcol : forall a, Legacy.Card.id a = assignmentId ->
                     Legacy.columnOf
                       (Legacy.handleAllAssignmentsDelete assignmentId statuses) a
                     = Some "not-started").
    { intros a Ha. unfold Legacy.columnOf, Legacy.statusOf.
      rewrite find_after_delete, Ha, String.eqb_refl. reflexivity. }
    split.
    + intros a Ha. split; [exact (Hcol a Ha)|]. intros Hin.
      apply In_legacyBucket; [left; reflexivity|]. split; [exact Hin | exact (Hcol a Ha)].
    + intros a Ha. unfold Legacy.columnOf, Legacy.statusOf. rewrite find_after_delete.
      destruct (String.eqb_spec (Legacy.Card.id a) assignmentId); [contradiction|].
      reflexivity.
  - intros ->. reflexivity.
Qed.

Lemma all_step_valid (st : Legacy.StatusRecord) (g : Legacy.AllGesture) :
  validStatuses st -> validStatuses (Legacy.all_step st g).
Proof.
  intros H. destruct g as [event | c1 c2 assignmentId]; simpl.
  - unfold Legacy.all_handleDragEnd. destruct (Legacy.over event) as [t|]; [|exact H].
    destruct (existsb (String.eqb t) validColumns) eqn:E; cbn [negb]; [|exact H].
    apply existsb_validColumns in E. constructor; [exact E | exact H].
  - unfold Legacy.all_handleDelete, Legacy.handleAllAssignmentsDelete.
    destruct (c1 && c2); [|exact H].
    unfold validStatuses in *. rewrite Forall_forall in *.
    intros p Hp. apply filter_In in Hp. apply H, Hp.
Qed.

Lemma valid_columnOf (st : Legacy.StatusRecord) (a : Legacy.Card.t) :
  validStatuses st ->
  exists c, In c validColumns /\ Legacy.columnOf st a = Some c
            /\ Legacy.statusOf st (Legacy.Card.id a) = c.
Proof.
  intros H. unfold Legacy.columnOf.
  assert (Hin : In (Legacy.statusOf st (Legacy.Card.id a)) validColumns).
  { unfold Legacy.statusOf.
    destruct (find _ st) as [[k v]|] eqn:F; [|left; reflexivity].
    apply find_some in F. destruct F as (Hp & _).
    unfold validStatuses in H. rewrite Forall_forall in H. specialize (H _ Hp). simpl in H.
    destruct (String.eqb v ""); [left; reflexivity | exact H]. }
  exists (Legacy.statusOf st (Legacy.Card.id a)).
  split; [exact Hin|]. split; [|reflexivity].
  now rewrite (proj2 (existsb_validColumns _) Hin).
Qed.

(** X27.  On the earlier all-assignments board no sequence of drops and
    deletes makes a card disappear: the record only ever holds the three
    column ids, every card of the board has a column, and the three columns
    together are a rearrangement of the cards of the board. *)
Theorem legacy_all_gestures_keep_cards (gestures : list Legacy.AllGesture)
  (board : list Legacy.Card.t) :
  let statuses := Legacy.all_play gestures in
  let b := Legacy.distribute statuses board in
  validStatuses statuses
  /\ (forall a, exists c, In c validColumns /\ Legacy.columnOf statuses a = Some c)
  /\ Permutation (Legacy.notStarted b ++ Legacy.inProgress b ++ Legacy.done b) board.
Proof.
  cbv zeta.
  assert (Hvalid : validStatuses (Legacy.all_play gestures)).
  { unfold Legacy.all_play. assert (H0 : validStatuses []) by constructor.
    revert H0. generalize (@nil (string * string)) as st.
    induction gestures as [|g gestures IH]; intros st H0; simpl; [exact H0|].
    apply IH, all_step_valid, H0. }
  split; [exact Hvalid|]. split.
  - intros a. destruct (valid_columnOf _ a Hvalid) as (c & Hc & Hcol & _). now exists c.
  - unfold Legacy.distribute. rewrite legacy_fold_pushByStatus. cbv zeta.
    cbn [Legacy.notStarted Legacy.inProgress Legacy.done app].
    induction board as [|a board IH]; [constructor|].
    rewrite !filter_step.
    destruct (valid_columnOf _ a Hvalid) as (c & Hc & _ & Hst). rewrite Hst.
    destruct Hc as [<- | [<- | [<- | []]]]; cbn [String.eqb Ascii.eqb Bool.eqb app].
    + now constructor.
    + apply Permutation_sym, Permutation_cons_app, Permutation_sym, IH.
    + rewrite app_assoc.
      apply Permutation_sym, Permutation_cons_app. rewrite <- app_assoc.
      apply Permutation_sym, IH.
Qed.

(* ===================================================================== *)
(** * Further properties: deleting a saved syllabus *)
(* ===================================================================== *)

Lemma filter_differentId (id : Z) (l : list SavedSyllabus.t) (s : SavedSyllabus.t) :
  In s (filter (App.differentId id) l) <-> In s l /\ SavedSyllabus.id s <> Some id.
Proof.
  rewrite filter_In. unfold App.differentId.
  destruct (SavedSyllabus.id s) as [i|].
  - destruct (Z.eqb_spec i id) as [->|Hne]; simpl.
    + split; [intros [_ H]; discriminate H | intros [_ H]; now elim H].
    + split; intros [H _]; (split; [exact H|]); [congruence | reflexivity].
  - split; intros [H _]; (split; [exact H|]); [discriminate | reflexivity].
Qed.

Lemma handleDeleteConfirm_cases (answer : DeleteAnswer) (st : App.State) :
  (App.syllabusToDelete st = None /\ App.handleDeleteConfirm answer st = (st, []))
  \/ (exists s, App.syllabusToDelete st = Some s
                /\ (SavedSyllabus.id s = None \/ SavedSyllabus.id s = Some 0)
                /\ App.handleDeleteConfirm answer st
                   = (App.mkState (App.savedSyllabi st) false None
                        (Some "Cannot delete syllabus: No ID found"), []))
  \/ (exists s id st', App.syllabusToDelete st = Some s /\ SavedSyllabus.id s = Some id
                       /\ id <> 0
                       /\ App.handleDeleteConfirm answer st = (st', [id])
                       /\ st' = match answer with
                                | DeleteResponse true _ =>
                                    App.mkState (filter (App.differentId id) (App.savedSyllabi st))
                                      false None (App.error st)
                                | DeleteResponse false e =>
                                    App.mkState (App.savedSyllabi st) (App.deleteModalOpen st)
                                      (App.syllabusToDelete st)
                                      (Some (App.errorOr e "Failed to delete syllabus"))
                                | DeleteRejected message =>
                                    App.mkState (App.savedSyllabi st) (App.deleteModalOpen st)
                                      (App.syllabusToDelete st)
                                      (Some ("Error deleting syllabus: "
                                             ++ match message with
                                                | Some m => m
                                                | None => "Unknown error"
                                                end)%string)
                                end).
Proof.
  unfold App.handleDeleteConfirm.
  destruct (App.syllabusToDelete st) as [s|] eqn:Hs; [|left; split; reflexivity].
  right.
  destruct (SavedSyllabus.id s) as [[|p|p]|] eqn:Hid.
  - left. exists s. repeat split; [now right].
  - right. exists s, (Z.pos p). eexists. repeat split; [exact Hid | lia].
  - right. exists s, (Z.neg p). eexists. repeat split; [exact Hid | lia].
  - left. exists s. repeat split; [now left].
Qed.

(** X28.  [handleDeleteConfirm] asks the service at most once, and only
    for an id that is a number other than 0; a syllabus whose id is missing
    or 0 is refused with a message and the dialog is closed.  The list of
    saved syllabi changes only when the service answers with [success]: then
    every syllabus with that id leaves it, the others stay as they are, the
    dialog is closed and an earlier error message is left standing.  When
    the request fails or is answered without [success] the list is as
    before, a message is set, and the dialog stays open on the same
    syllabus. *)
Theorem handleDeleteConfirm_removes_only_on_success
  (answer : DeleteAnswer) (st : App.State) :
  let out := App.handleDeleteConfirm answer st in
  let st' := fst out in
  (snd out = []
   \/ exists s id, App.syllabusToDelete st = Some s /\ SavedSyllabus.id s = Some id
                   /\ id <> 0 /\ snd out = [id])
  /\ (forall s, App.syllabusToDelete st = Some s ->
        SavedSyllabus.id s = None \/ SavedSyllabus.id s = Some 0 ->
        out = (App.mkState (App.savedSyllabi st) false None
                 (Some "Cannot delete syllabus: No ID found"), []))
  /\ (forall id e, snd out = [id] -> answer = DeleteResponse true e ->
        (forall s, In s (App.savedSyllabi st')
                   <-> In s (App.savedSyllabi st) /\ SavedSyllabus.id s <> Some id)
        /\ App.deleteModalOpen st' = false /\ App.syllabusToDelete st' = None
        /\ App.error st' = App.error st)
  /\ (snd out = [] \/ (forall e, answer <> DeleteResponse true e) ->
        App.savedSyllabi st' = App.savedSyllabi st)
  /\ (snd out <> [] -> (forall e, answer <> DeleteResponse true e) ->
        App.deleteModalOpen st' = App.deleteModalOpen st
        /\ App.syllabusToDelete st' = App.syllabusToDelete st
        /\ exists message, App.error st' = Some message).
Proof.
  cbv zeta.
  destruct (handleDeleteConfirm_cases answer st)
    as [(Hnone & ->) | [(s & Hs & Hid & ->) | (s & id & st' & Hs & Hid & Hne & -> & Hst')]];
    cbn [fst snd].
  - split; [now left|]. split; [intros s Hs; congruence|].
    split; [intros id e H; discriminate H|].
    split; [reflexivity|]. intros H; now elim H.
  - split; [now left|]. split; [reflexivity|].
    split; [intros id e H; discriminate H|].
    split; [reflexivity|]. intros H; now elim H.
  - split; [right; exists s, id; repeat split; assumption|].
    split; [intros s0 Hs0 Hbad; rewrite Hs in Hs0; injection Hs0 as <-;
            destruct Hbad as [Hbad|Hbad]; congruence|].
    split; [|split].
    + intros id' e Hreq ->. injection Hreq as <-. subst st'.
      cbn [App.savedSyllabi App.deleteModalOpen App.syllabusToDelete App.error].
      split; [intros s0; apply filter_differentId|]. repeat split.
    + intros [Hno | Hfail]; [discriminate Hno|].
      subst st'. destruct answer as [m|[|] e]; [reflexivity | now elim (Hfail e) | reflexivity].
    + intros _ Hfail. subst st'.
      destruct answer as [m|[|] e]; [| now elim (Hfail e) |];
        cbn [App.savedSyllabi App.deleteModalOpen App.syllabusToDelete App.error];
        (split; [reflexivity|]; split; [reflexivity|]; eexists; reflexivity).
Qed.

(* ===================================================================== *)
(** * Further properties: loading a JSON file *)
(* ===================================================================== *)

Lemma isStringProperty_true (v : JSON) (key : string) :
  Upload.isStringProperty v key = Returned true <-> stringField key v.
Proof.
  unfold Upload.isStringProperty, Upload.get, stringField. split.
  - destruct v as [| | | | |members]; try discriminate.
    destruct (Upload.member key members) as [[| | |s| |]|] eqn:E; try discriminate.
    intros _. now exists members, s.
  - intros (members & s & -> & E). now rewrite E.
Qed.

Lemma isStringProperty_thrown (v : JSON) (key : string) :
  Upload.isStringProperty v key = Thrown <-> v = JNull.
Proof.
  unfold Upload.isStringProperty, Upload.get. split.
  - destruct v as [| | | | |members]; try discriminate; [reflexivity|].
    destruct (Upload.member key members) as [[| | | | |]|]; discriminate.
  - intros ->. reflexivity.
Qed.

Lemma andThen_true (a b : Result bool) :
  Upload.andThen a b = Returned true <-> a = Returned true /\ b = Returned true.
Proof.
  destruct a as [[|]|]; simpl; intuition congruence.
Qed.

Lemma andThen_thrown (a b : Result bool) :
  Upload.andThen a b = Thrown <-> a = Thrown \/ (a = Returned true /\ b = Thrown).
Proof.
  destruct a as [[|]|]; simpl; intuition congruence.
Qed.

Lemma validAssignment_true (v : JSON) :
  Upload.validAssignment v = Returned true <-> wellShapedAssignment v.
Proof.
  unfold Upload.validAssignment, wellShapedAssignment.
  rewrite !andThen_true, !isStringProperty_true. tauto.
Qed.

Lemma validAssignment_thrown (v : JSON) :
  Upload.validAssignment v = Thrown <-> v = JNull.
Proof.
  unfold Upload.validAssignment.
  rewrite !andThen_thrown, !isStringProperty_thrown. tauto.
Qed.

Lemma every_true (items : list JSON) :
  Upload.every Upload.validAssignment items = Returned true
  <-> Forall wellShapedAssignment items.
Proof.
  induction items as [|item items IH]; simpl.
  - split; [constructor | reflexivity].
  - rewrite Forall_cons_iff, <- IH, <- validAssignment_true.
    destruct (Upload.validAssignment item) as [[|]|]; split; try tauto;
      try (intros [H _]; discriminate H); discriminate.
Qed.

Lemma every_thrown (items : list JSON) :
  Upload.every Upload.validAssignment items = Thrown
  <-> exists good rest, items = good ++ JNull :: rest /\ Forall wellShapedAssignment good.
Proof.
  induction items as [|item items IH]; simpl.
  - split; [discriminate|]. intros ([|g good] & rest & E & _); discriminate E.
  - destruct (Upload.validAssignment item) as [[|]|] eqn:Hv.
    + rewrite IH. apply validAssignment_true in Hv. split.
      * intros (good & rest & -> & Hgood). exists (item :: good), rest.
        split; [reflexivity | now constructor].
      * intros ([|g good] & rest & E & Hgood); simpl in E; injection E as -> ->.
        -- destruct Hv as ((members & s & Habs & _) & _). discriminate Habs.
        -- exists good, rest. split; [reflexivity | now inversion Hgood].
    + split; [discriminate|].
      intros ([|g good] & rest & E & Hgood); simpl in E; injection E as -> ->.
      * discriminate Hv.
      * inversion Hgood as [|? ? Hg _]. apply validAssignment_true in Hg. congruence.
    + apply validAssignment_thrown in Hv. subst item. split; [|reflexivity].
      intros _. exists [], items. split; [reflexivity | constructor].
Qed.

Lemma validate_object (members : list (string * JSON)) :
  Upload.validateAssignmentData (JObject members)
  = Upload.andThen (Upload.isStringProperty (JObject members) "class_name")
      (Upload.andThen (Upload.isStringProperty (JObject members) "course_code")
         match Upload.member "assignments" members with
         | Some (JArray items) => Upload.every Upload.validAssignment items
         | _ => Returned false
         end).
Proof. reflexivity. Qed.

Lemma validate_not_object (v : JSON) :
  (forall members, v <> JObject members) ->
  Upload.validateAssignmentData v = Returned false.
Proof. destruct v; intros H; try reflexivity. now elim (H members). Qed.

Lemma syllabusWith_object (items : list JSON) (v : JSON) :
  syllabusWith items v -> exists members, v = JObject members.
Proof. intros (_ & _ & members & -> & _). now exists members. Qed.

Lemma validate_true (v : JSON) :
  Upload.validateAssignmentData v = Returned true <-> wellShaped v.
Proof.
  split.
  - destruct v as [| | | | |members]; try discriminate.
    rewrite validate_object, !andThen_true, !isStringProperty_true.
    intros (Hc & Hk & Hrest).
    destruct (Upload.member "assignments" members) as [[| | | |items|]|] eqn:E;
      try discriminate.
    exists items. split; [|now apply every_true].
    repeat split; try assumption. now exists members.
  - intros (items & (Hc & Hk & members & -> & E) & Hall).
    rewrite validate_object, !andThen_true, !isStringProperty_true, E.
    repeat split; try assumption. now apply every_true.
Qed.

Lemma validate_thrown (v : JSON) :
  Upload.validateAssignmentData v = Thrown <-> nullAmongAssignments v.
Proof.
  split.
  - destruct v as [| | | | |members]; try discriminate.
    rewrite validate_object, !andThen_thrown, !isStringProperty_thrown,
      !isStringProperty_true.
    intros [H | (Hc & [H | (Hk & Hrest)])]; try discriminate H.
    destruct (Upload.member "assignments" members) as [[| | | |items|]|] eqn:E;
      try discriminate.
    apply every_thrown in Hrest. destruct Hrest as (good & rest & -> & Hgood).
    exists good, rest. split; [|assumption].
    repeat split; try assumption. now exists members.
  - intros (good & rest & (Hc & Hk & members & -> & E) & Hgood).
    rewrite validate_object, !andThen_thrown, !isStringProperty_thrown,
      !isStringProperty_true, E.
    right. split; [assumption|]. right. split; [assumption|].
    apply every_thrown. now exists good, rest.
Qed.

(** X29.  A file is taken exactly when its name ends in [.json], in
    capitals or not, its text parses, and the value is an object with
    strings under [class_name] and [course_code] and under [assignments] an
    array of objects that each have strings under [name], [due_date],
    [due_time] and [submission_link]; members beyond these are let
    through.  Then the value becomes [assignmentData] and the error is
    cleared.  In every other case the data held before stays and an error
    message is set.  A [null] among the assignments, with well-shaped
    assignments before it, makes the validator throw, so the file is
    reported with the message for text that is no JSON. *)
Theorem upload_accepts_exactly_well_shaped
  (fileName : string) (parsed : option JSON) (st : Upload.State) :
  let st' := Upload.handleFileUpload fileName parsed st in
  let named := Upload.endsWith (Upload.toLowerCase fileName) ".json" = true in
  let accepted := named /\ exists v, parsed = Some v /\ wellShaped v in
  (accepted -> Upload.assignmentData st' = parsed /\ Upload.error st' = None)
  /\ (~ accepted -> Upload.assignmentData st' = Upload.assignmentData st
                    /\ exists message, Upload.error st' = Some message)
  /\ (named ->
      (Upload.error st' = Some "Invalid JSON file. Please check the file format."
       <-> parsed = None \/ exists v, parsed = Some v /\ nullAmongAssignments v)).
Proof.
  cbv zeta. unfold Upload.handleFileUpload.
  destruct (Upload.endsWith (Upload.toLowerCase fileName) ".json") eqn:Hname; simpl.
  2:{ split; [intros [H _]; discriminate H|].
      split; [intros _; split; [reflexivity | eexists; reflexivity]|].
      intros H; discriminate H. }
  unfold Upload.onload.
  destruct parsed as [v|].
  2:{ split; [intros (_ & v & H & _); discriminate H|].
      split; [intros _; split; [reflexivity | eexists; reflexivity]|].
      intros _. split; [now left | reflexivity]. }
  destruct (Upload.validateAssignmentData v) as [[|]|] eqn:Hv.
  - apply validate_true in Hv. split; [intros _; split; reflexivity|].
    split; [intros Hno; elim Hno; split; [reflexivity | now exists v]|].
    intros _. split; [discriminate|].
    intros [H | (v' & E & Hnull)]; [discriminate H|]. injection E as <-.
    apply validate_thrown in Hnull. apply validate_true in Hv. congruence.
  - split.
    { intros (_ & v' & E & Hw). injection E as <-. apply validate_true in Hw. congruence. }
    split; [intros _; split; [reflexivity | eexists; reflexivity]|].
    intros _. split; [intros H; discriminate H|].
    intros [H | (v' & E & Hnull)]; [discriminate H|]. injection E as <-.
    apply validate_thrown in Hnull. congruence.
  - split.
    { intros (_ & v' & E & Hw). injection E as <-. apply validate_true in Hw. congruence. }
    split; [intros _; split; [reflexivity | eexists; reflexivity]|].
    intros _. split; [|reflexivity].
    intros _. right. exists v. split; [reflexivity | now apply validate_thrown].
Qed.

(* ===================================================================== *)
(** * Further properties: the calendar export *)
(* ===================================================================== *)

Lemma str_split_nonempty (sep : ascii) (s : string) : Editor.str_split sep s <> [].
Proof.
  induction s as [|c s IH]; simpl; [discriminate|].
  destruct (Ascii.eqb c sep); [discriminate|].
  destruct (Editor.str_split sep s); [now elim IH | discriminate].
Qed.

Lemma str_split_whole (sep : ascii) (s : string) :
  Editor.occurs sep s = false -> Editor.str_split sep s = [s].
Proof.
  induction s as [|c s IH]; simpl; [reflexivity|].
  destruct (Ascii.eqb c sep); [discriminate|]. simpl.
  intros H. now rewrite (IH H).
Qed.

Lemma str_split_at (sep : ascii) (a b : string) :
  Editor.occurs sep a = false ->
  Editor.str_split sep (a ++ String sep b) = a :: Editor.str_split sep b.
Proof.
  induction a as [|c a IH]; simpl.
  - intros _. now rewrite Ascii.eqb_refl.
  - destruct (Ascii.eqb c sep); [discriminate|]. simpl.
    intros H. now rewrite (IH H).
Qed.

Lemma occurs_append (c : ascii) (a b : string) :
  Editor.occurs c (a ++ b) = Editor.occurs c a || Editor.occurs c b.
Proof.
  induction a as [|x a IH]; simpl; [reflexivity|]. now rewrite IH, orb_assoc.
Qed.

(** The fields [calculateEndTime] cuts a text of the shape
    [hours:minutes period] into. *)
Lemma calculateEndTime_try_fields (hours minutes period : string) :
  Editor.occurs " " hours = false -> Editor.occurs ":" hours = false ->
  Editor.occurs " " minutes = false -> Editor.occurs ":" minutes = false ->
  Editor.occurs " " period = false ->
  Editor.str_split " " (hours ++ ":" ++ minutes ++ " " ++ period)
  = [(hours ++ ":" ++ minutes)%string; period]
  /\ Editor.str_split ":" (hours ++ ":" ++ minutes) = [hours; minutes].
Proof.
  intros Hh1 Hh2 Hm1 Hm2 Hp. split.
  - change (hours ++ ":" ++ minutes ++ " " ++ period)%string
      with (hours ++ String ":" (minutes ++ String " " period))%string.
    change (String ":" (minutes ++ String " " period))
      with ((String ":" minutes) ++ String " " period)%string.
    rewrite <- append_assoc_string, str_split_at, (str_split_whole _ _ Hp).
    + reflexivity.
    + rewrite occurs_append. simpl. now rewrite Hh1, Hm1.
  - change (hours ++ ":" ++ minutes)%string with (hours ++ String ":" minutes)%string.
    now rewrite (str_split_at _ _ _ Hh2), (str_split_whole _ _ Hm2).
Qed.

(** X30.  The [catch] of [calculateEndTime] is never reached: for every
    text the [try] block gives a result.  For a time [hours:minutes AM] or
    [hours:minutes PM] whose hours read as a number from 1 to 12 the result
    is the time one hour later on the clock of twelve hours, with the same
    minutes.  When the hours do not read as a number the result is
    [NaN:minutes AM], not the text that came in.  The export writes the due
    date as the date of both ends, so an assignment due in the hour from
    11 PM is exported as an event that starts at 11 PM and ends at
    12 AM of the same day. *)
Theorem calendar_event_ends_one_hour_later_same_date :
  (forall startTime, exists endTime,
      Editor.calculateEndTime_try startTime = Returned endTime)
  /\ (forall hours minutes period h,
        Editor.occurs " " hours = false -> Editor.occurs ":" hours = false ->
        Editor.occurs " " minutes = false -> Editor.occurs ":" minutes = false ->
        period = "AM" \/ period = "PM" ->
        Editor.parseInt hours = Some h -> 1 <= h <= 12 ->
        Editor.calculateEndTime (hours ++ ":" ++ minutes ++ " " ++ period)
        = (decimal (nextHour h) ++ ":" ++ minutes ++ " " ++ nextPeriod h period)%string)
  /\ (forall hours minutes period,
        Editor.occurs " " hours = false -> Editor.occurs ":" hours = false ->
        Editor.occurs " " minutes = false -> Editor.occurs ":" minutes = false ->
        Editor.occurs " " period = false ->
        Editor.parseInt hours = Editor.NaN ->
        Editor.calculateEndTime (hours ++ ":" ++ minutes ++ " " ++ period)
        = ("NaN:" ++ minutes ++ " AM")%string)
  /\ (forall courseCode courseName assignment hours minutes,
        Editor.occurs " " hours = false -> Editor.occurs ":" hours = false ->
        Editor.occurs " " minutes = false -> Editor.occurs ":" minutes = false ->
        Editor.parseInt hours = Some 11 ->
        Assignment.due_time assignment = (hours ++ ":" ++ minutes ++ " PM")%string ->
        let fields := Editor.csvFields courseCode courseName assignment in
        nth_error fields 1 = Some (Assignment.due_date assignment)
        /\ nth_error fields 2 = Some (hours ++ ":" ++ minutes ++ " PM")%string
        /\ nth_error fields 3 = Some (Assignment.due_date assignment)
        /\ nth_error fields 4 = Some ("12:" ++ minutes ++ " AM")%string).
Proof.
  assert (Hshape : forall hours minutes period h,
        Editor.occurs " " hours = false -> Editor.occurs ":" hours = false ->
        Editor.occurs " " minutes = false -> Editor.occurs ":" minutes = false ->
        period = "AM" \/ period = "PM" ->
        Editor.parseInt hours = Some h -> 1 <= h <= 12 ->
        Editor.calculateEndTime (hours ++ ":" ++ minutes ++ " " ++ period)
        = (decimal (nextHour h) ++ ":" ++ minutes ++ " " ++ nextPeriod h period)%string).
  { intros hours minutes period h Hh1 Hh2 Hm1 Hm2 Hp Hparse Hrange.
    assert (Hp' : Editor.occurs " " period = false) by (destruct Hp as [->| ->]; reflexivity).
    destruct (calculateEndTime_try_fields hours minutes period Hh1 Hh2 Hm1 Hm2 Hp')
      as (E1 & E2).
    unfold Editor.calculateEndTime, Editor.calculateEndTime_try.
    rewrite E1. cbn [nth_error]. rewrite E2. cbn [nth_error Editor.text].
    rewrite Hparse.
    assert (Hcases : h = 1 \/ h = 2 \/ h = 3 \/ h = 4 \/ h = 5 \/ h = 6 \/ h = 7
                     \/ h = 8 \/ h = 9 \/ h = 10 \/ h = 11 \/ h = 12) by lia.
    destruct Hp as [-> | ->];
      repeat (destruct Hcases as [-> | Hcases]; [reflexivity|]);
      subst h; reflexivity. }
  split; [|split; [exact Hshape|split]].
  - intros startTime. unfold Editor.calculateEndTime_try.
    destruct (Editor.str_split " " startTime) as [|time rest] eqn:E.
    + now elim (str_split_nonempty " " startTime).
    + cbn [nth_error].
      destruct (if Editor.equals _ 0 then _ else _) as [hour12 newPeriod].
      eexists. reflexivity.
  - intros hours minutes period Hh1 Hh2 Hm1 Hm2 Hp Hparse.
    destruct (calculateEndTime_try_fields hours minutes period Hh1 Hh2 Hm1 Hm2 Hp)
      as (E1 & E2).
    unfold Editor.calculateEndTime, Editor.calculateEndTime_try.
    rewrite E1. cbn [nth_error]. rewrite E2. cbn [nth_error Editor.text].
    rewrite Hparse. unfold Editor.NaN.
    destruct (Editor.isPeriod (Some period) "PM"), (Editor.isPeriod (Some period) "AM");
      reflexivity.
  - intros courseCode courseName assignment hours minutes Hh1 Hh2 Hm1 Hm2 Hparse Htime.
    assert (Hend : Editor.calculateEndTime (Assignment.due_time assignment)
                   = ("12:" ++ minutes ++ " AM")%string).
    { rewrite Htime.
      apply (Hshape hours minutes "PM" 11 Hh1 Hh2 Hm1 Hm2 (or_intror eq_refl) Hparse).
      lia. }
    cbv zeta. unfold Editor.csvFields. cbn [nth_error]. rewrite Hend, Htime.
    repeat split.
Qed.

(* ===================================================================== *)
(** * The further theorems on the sample data *)
(* ===================================================================== *)

Lemma refreshData_failure_restores_prop_witness :
  freshData (kanban (snd (refreshData sampleProps sampleWorld))) = Some sampleData.
Proof.
  apply (refreshData_failure_restores_prop sampleProps sampleWorld).
  intros fresh H. discriminate H.
Defined.

Lemma refreshData_unified_success_witness :
  freshData (kanban (snd (refreshData unifiedProps
                            (mkWorld initialKanbanState [] []
                               [Json true (Some [renamedSyllabus])]))))
  = Some (Many [renamedSyllabus]).
Proof.
  apply (refreshData_unified_success unifiedProps
           (mkWorld initialKanbanState [] [] [Json true (Some [renamedSyllabus])])
           [renamedSyllabus]); reflexivity.
Defined.

Lemma refreshData_single_keeps_syllabus_witness :
  exists s, freshData (kanban (snd (refreshData sampleProps sampleWorld))) = Some (Single s)
            /\ AssignmentData.id s = 7.
Proof.
  apply (refreshData_single_keeps_syllabus sampleProps sampleWorld sampleSyllabus);
    reflexivity.
Defined.

Lemma answeringWorld_card :
  exists card,
    findInColumns (columns (mkWorld (kanban answeringWorld) (columns sampleWorld) []
                              (server answeringWorld))) 1 = Some card.
Proof. eexists. vm_compute. reflexivity. Defined.

Lemma WeeklyBoard_handleDragEnd_success_witness :
  freshData (kanban (snd (WeeklyBoard_handleDragEnd sampleProps sampleBoard1 dropOnDone
                            (mkWorld (kanban answeringWorld) (columns sampleWorld) []
                               (server answeringWorld)))))
  = Some (Single renamedSyllabus).
Proof.
  destruct answeringWorld_card as (card & Hcard).
  refine (proj1 (proj2 (proj2
    (WeeklyBoard_handleDragEnd_success sampleProps sampleBoard1 dropOnDone
       (mkWorld (kanban answeringWorld) (columns sampleWorld) [] (server answeringWorld))
       "done" DONE card true None [Json true (Some [renamedSyllabus])]
       eq_refl eq_refl Hcard eq_refl)))).
Defined.

Lemma WeeklyBoard_handleDragEnd_card_missing_witness :
  newEffects sampleWorld
    (snd (WeeklyBoard_handleDragEnd sampleProps sampleBoard1 dropMissingCard sampleWorld))
  = [ ConsoleLog "Drag end:"; ConsoleLog "Moving assignment:";
      ConsoleLog "Assignment not found:"; ConsoleLog "Available assignments:" ].
Proof.
  apply (WeeklyBoard_handleDragEnd_card_missing sampleProps sampleBoard1 dropMissingCard
           sampleWorld (StrId "done")).
  - reflexivity.
  - right. right. reflexivity.
  - vm_compute. reflexivity.
Defined.

Lemma AllAssignmentsBoard_drop_updates_twice_witness :
  filter isUpdateRequest
    (newEffects answeringWorld
       (snd (AllAssignmentsBoard_handleDragEnd sampleProps dropOnDone answeringWorld)))
  = [UpdateAssignmentStatus 1 DONE; UpdateAssignmentStatus 1 DONE].
Proof.
  apply (AllAssignmentsBoard_drop_updates_twice sampleProps dropOnDone answeringWorld
           "done" DONE true None [Json true (Some [renamedSyllabus])]); reflexivity.
Defined.

Lemma AllAssignmentsBoard_failed_update_witness :
  newEffects sampleWorld
    (snd (AllAssignmentsBoard_handleDragEnd sampleProps dropOnDone sampleWorld))
  = [ UpdateAssignmentStatus 1 DONE;
      ConsoleError "Failed to update assignment status:" ].
Proof.
  apply (AllAssignmentsBoard_failed_update sampleProps dropOnDone sampleWorld "done" DONE);
    [reflexivity | reflexivity | exact I].
Defined.

Lemma sampleWorld_done_column :
  exists before after,
    nth_error (columns sampleWorld) 2 = Some before
    /\ nth_error (columns (snd (AssignmentCard_handleDelete true sampleCard2 sampleWorld))) 2
       = Some after
    /\ In sampleCard2 (Column.assignments before).
Proof. do 2 eexists. vm_compute. repeat split. left. reflexivity. Defined.

(** Card 2 of the sample is in the third column before the delete and not
    after it. *)
Lemma WeeklyBoard_delete_is_local_witness :
  forall after,
    nth_error (columns (snd (AssignmentCard_handleDelete true sampleCard2 sampleWorld))) 2
    = Some after ->
    ~ In sampleCard2 (Column.assignments after).
Proof.
  intros after Hafter Hin.
  destruct sampleWorld_done_column as (before & after' & Hb & _ & _).
  apply (proj1 (proj1 (proj2 (proj2 (proj2 (proj2 (proj2 (proj2
           (WeeklyBoard_delete_is_local sampleWorld sampleCard2)))))))
           2%nat before after sampleCard2 Hb Hafter)) in Hin.
  now destruct Hin as (_ & Hne).
Defined.

Lemma at_most_one_current_week_witness :
  forall b, In b (weeklyBoards sampleClock sampleData) ->
            isCurrentWeek (sampleClock 0) b = true -> sampleBoard2 = b.
Proof.
  intros b Hb Hcur.
  apply (at_most_one_current_week sampleClock sampleData (sampleClock 0) sampleBoard2 b);
    try assumption.
  - vm_compute. right. left. reflexivity.
  - vm_compute. reflexivity.
Defined.

Lemma clickWeek_selects_board_witness :
  selectedBoard (weeklyBoards sampleClock sampleData)
    (clickWeek sampleBoard1 initialKanbanState) = Some sampleBoard1.
Proof.
  apply (clickWeek_selects_board sampleClock sampleData 0 sampleBoard1 initialKanbanState).
  vm_compute. left. reflexivity.
Defined.

(** Week 3 is stored while the sample has two boards: none is shown. *)
Lemma selection_is_by_number_witness :
  selectedBoard (weeklyBoards sampleClock sampleData)
    (mkKanbanState (Some 3) weekly None false) = None.
Proof.
  exact (proj2 (selection_is_by_number sampleClock sampleData 0
                  (mkKanbanState (Some 3) weekly None false) 3 eq_refl)).
Defined.

Lemma courseColors_cover_all_cards_witness :
  readColor "CS 251" (courseColors (weeklyBoards sampleClock sampleData))
  = generateCourseColor "CS 251".
Proof.
  refine (proj1 (proj1 (courseColors_cover_all_cards sampleClock sampleClock sampleData false)
                   sampleCard2 _ _)).
  - exact sampleCard2_input.
  - vm_compute. discriminate.
Defined.

(** Card 2 of the sample has status DONE: it is in the column "done". *)
Lemma status_of_column_round_trip_witness :
  exists col,
    columnById "done" (statusColumns (WeeklyBoard.assignments sampleBoard1)) = Some col
    /\ In sampleCard2 (Column.assignments col).
Proof.
  apply (status_of_column_round_trip (WeeklyBoard.assignments sampleBoard1)
           "done" DONE sampleCard2).
  - reflexivity.
  - vm_compute. right. right. left. reflexivity.
  - reflexivity.
Defined.

Lemma cards_in_due_order_witness :
  StronglySorted leDue (WeeklyBoard.assignments sampleBoard1).
Proof.
  exact (proj1 (proj2 (cards_in_due_order sampleClock sampleData))
           0%nat sampleBoard1 sampleBoard1_nth).
Defined.

Lemma sampleCard2_on_board1 : In sampleCard2 (WeeklyBoard.assignments sampleBoard1).
Proof. vm_compute. right. right. left. reflexivity. Defined.

Lemma board_is_calendar_week_witness :
  WeeklyBoard.startDate sampleBoard1 = startOfWeek 1 (due sampleCard2)
  /\ WeeklyBoard.endDate sampleBoard1 = endOfWeek 1 (due sampleCard2).
Proof.
  exact (proj1 (board_is_calendar_week sampleClock sampleData)
           0%nat sampleBoard1 sampleCard2 sampleBoard1_nth sampleCard2_on_board1).
Defined.

Lemma board_count_bounds_witness :
  (1 <= length (weeklyBoards sampleClock sampleData)
   <= length (allAssignments sampleData))%nat.
Proof.
  apply (board_count_bounds sampleClock sampleData). discriminate.
Defined.

Lemma board_title_witness :
  WeeklyBoard.title sampleBoard2
  = ("Week " ++ decimal 2 ++ " [" ++ format_MM_dd (WeeklyBoard.startDate sampleBoard2)
     ++ " - " ++ format_MM_dd (addDays (WeeklyBoard.startDate sampleBoard2) 6) ++ "]")%string.
Proof.
  exact (proj1 (board_title sampleClock sampleData 1 sampleBoard2 sampleBoard2_nth)).
Defined.

Lemma legacyCard2_nth : nth_error (Legacy.assignmentsWithId sampleClock sampleData) 1
                        = Some legacyCard2.
Proof. vm_compute. reflexivity. Defined.

Lemma legacy_card_ids_distinct_witness :
  Legacy.lastField (Legacy.Card.id legacyCard2) = decimal 1.
Proof.
  exact (proj2 (legacy_card_ids_distinct sampleClock sampleData) 1%nat legacyCard2
           legacyCard2_nth).
Defined.

Lemma legacyBoard_NoDup : NoDup (map Legacy.Card.id legacyBoard).
Proof. apply legacy_ids_NoDup. Defined.

Lemma legacy_gestures_keep_cards_witness :
  Permutation (Legacy.allCards (Legacy.play legacyBoard legacyGestures)) legacyBoard.
Proof.
  apply (proj2 (legacy_gestures_keep_cards legacyBoard legacyGestures legacyBoard_NoDup)).
  reflexivity.
Defined.

Lemma legacy_drag_result_witness :
  forall col', In col' (Legacy.handleDragEnd legacyBoard legacyDrag
                          (Legacy.initialColumns legacyBoard)) ->
    (In legacyCard2 (Legacy.Column.assignments col') <-> Legacy.Column.id col' = "done").
Proof.
  apply (legacy_drag_result legacyBoard legacyDrag (Legacy.initialColumns legacyBoard)
           "done" legacyCard2).
  - reflexivity.
  - right. right. left. reflexivity.
  - exact legacyBoard_NoDup.
  - eapply nth_error_In. exact legacyCard2_nth.
  - reflexivity.
  - reflexivity.
Defined.

Lemma legacy_all_drop_witness :
  Legacy.columnOf (Legacy.all_handleDragEnd legacyDrag []) legacyCard2 = Some "done".
Proof.
  refine (proj1 (proj1 (proj1 (legacy_all_drop [] legacyDrag legacyBoard)
                          "done" eq_refl _) legacyCard2 eq_refl)).
  right. right. left. reflexivity.
Defined.

Lemma legacy_all_delete_resets_witness :
  Legacy.columnOf
    (Legacy.all_handleDelete true true "assignment-7-1" [("assignment-7-1", "done")])
    legacyCard2
  = Some "not-started".
Proof.
  exact (proj1 (proj1 (proj1 (legacy_all_delete_resets [("assignment-7-1", "done")]
                                "assignment-7-1" true true legacyBoard) eq_refl)
                  legacyCard2 eq_refl)).
Defined.

Lemma handleDeleteConfirm_removes_only_on_success_witness :
  forall s,
    In s (App.savedSyllabi (fst (App.handleDeleteConfirm (DeleteResponse true None)
                                   sampleAppState)))
    <-> In s (App.savedSyllabi sampleAppState) /\ SavedSyllabus.id s <> Some 7.
Proof.
  exact (proj1 (proj1 (proj2 (proj2
           (handleDeleteConfirm_removes_only_on_success (DeleteResponse true None)
              sampleAppState)))
           7 None eq_refl eq_refl)).
Defined.

Lemma sampleFile_wellShaped : wellShaped sampleFile.
Proof. apply validate_true. reflexivity. Defined.

Lemma upload_accepts_exactly_well_shaped_witness :
  Upload.assignmentData
    (Upload.handleFileUpload "syllabus.JSON" (Some sampleFile) (Upload.mkState None None))
  = Some sampleFile
  /\ Upload.error
       (Upload.handleFileUpload "syllabus.JSON" (Some sampleFile) (Upload.mkState None None))
     = None.
Proof.
  apply (proj1 (upload_accepts_exactly_well_shaped "syllabus.JSON" (Some sampleFile)
                  (Upload.mkState None None))).
  split; [reflexivity|]. exists sampleFile. split; [reflexivity | exact sampleFile_wellShaped].
Defined.

Lemma calendar_event_ends_one_hour_later_same_date_witness :
  nth_error (Editor.csvFields "CS 251" "Data Structures"
               (sampleAssignment 2 "2025-10-19" "11:59 PM" "DONE")) 4
  = Some "12:59 AM".
Proof.
  exact (proj2 (proj2 (proj2
           (proj2 (proj2 (proj2 calendar_event_ends_one_hour_later_same_date))
              "CS 251" "Data Structures"
              (sampleAssignment 2 "2025-10-19" "11:59 PM" "DONE") "11" "59"
              eq_refl eq_refl eq_refl eq_refl eq_refl eq_refl)))).
Defined.
